(** * elastix: PeriodicBSplineTransform (elxPeriodicBSplineTransform.hxx)

    A shallow embedding of the component that manages the periodic B-spline
    control-point grid of a multi-resolution registration: the optimizer
    scales of the passive edge ([SetOptimizerScales]), the precomputation of
    the grid schedule ([PreComputeGridInformation]) and the per-level hook
    ([BeforeEachResolution]).

    Conventions.
    - C++ integers are [Z] with their wrap-around written out (LP64:
      [unsigned int] and [int] are 32 bits wide, [unsigned long] 64 bits).
      itk::Index values are signed ([long]); signed arithmetic has no defined
      wrap-around and is written as exact arithmetic.
    - [double] is the kernel's binary64 type [float].
    - itk::Size, itk::Index, spacings and origins are lists with one entry per
      axis; a parameter array is a list of [float].
    - The component is a state record; member functions run in a state and
      exception monad [elx]. *)

From Stdlib Require Import String Ascii DecimalString DecimalPos DecimalZ.
From Stdlib Require Import PrimFloat.
From Stdlib Require Import ZArith Bool List Lia.
Import ListNotations.
Open Scope Z_scope.

(** ** C++ integer conversions *)

Module CInt.

Definition UINT_MAX : Z := 2 ^ 32 - 1.
Definition INT_MAX : Z := 2 ^ 31 - 1.

  (** Conversion to [unsigned int]: reduction modulo 2^32. *)
Definition to_unsigned_int (z : Z) : Z := z mod 2 ^ 32.

  (** Conversion to [unsigned long]: reduction modulo 2^64. *)
Definition to_unsigned_long (z : Z) : Z := z mod 2 ^ 64.

  (** [static_cast<int>]: the low 32 bits read as two's complement. *)
Definition to_int (z : Z) : Z := (z + 2 ^ 31) mod 2 ^ 32 - 2 ^ 31.

  (** [operator<<] on an integer: its decimal numeral. *)
Definition show (z : Z) : string := NilZero.string_of_int (Z.to_int z).

End CInt.

(** ** Arrays *)

Section Arrays.
  Context {A : Type}.

  (** [a[i] = v] on a list; a write outside the array (undefined behaviour in
      the source) leaves the array as it is. *)
Fixpoint set_nth (i : nat) (v : A) (a : list A) : list A :=
    match a, i with
    | [], _ => []
    | _ :: a', O => v :: a'
    | x :: a', S i' => x :: set_nth i' v a'
    end.

  (** The same write with a C++ integer as subscript. *)
Definition array_set (a : list A) (i : Z) (v : A) : list A :=
    if i <? 0 then a else set_nth (Z.to_nat i) v a.

  (** [a.Fill(v)] on an array of [n] elements. *)
Definition Fill (n : Z) (v : A) : list A := repeat v (Z.to_nat n).

End Arrays.

(** ** ITK geometry types *)

Definition IndexType := list Z.
Definition SizeType := list Z.
Definition SpacingType := list float.
Definition OriginType := list float.
Definition DirectionType := list (list float).
Definition ParametersType := list float.
Definition ScalesType := list float.

Record RegionType : Type := mkRegion {
  GetIndex : IndexType;
  GetSize : SizeType
}.

(** Modelled from the spec: itk::ImageRegion::GetNumberOfPixels, the product
    of the sizes of all axes (the product written "prod size[d]"). *)
Definition GetNumberOfPixels (size : SizeType) : Z :=
  fold_right Z.mul 1 size.

(** Modelled from the spec: itk::ImageRegion::IsInside on an index, the
    "point is inset?" membership test: on every axis the index lies in
    [index[d], index[d] + size[d]). *)
Fixpoint IsInside (index : IndexType) (size : SizeType) (ind : IndexType)
  : bool :=
  match index, size, ind with
  | [], [], [] => true
  | b :: index', s :: size', i :: ind' =>
      (b <=? i) && (i <? b + s) && IsInside index' size' ind'
  | _, _, _ => false
  end.

(** Modelled from the spec: the raster walk of an image region, first axis
    running fastest, as itk's region iterators visit it. *)
Fixpoint RegionIndices (index : IndexType) (size : SizeType)
  : list IndexType :=
  match index, size with
  | b :: index', s :: size' =>
      flat_map
        (fun rest => map (fun k => (b + Z.of_nat k) :: rest)
                         (seq 0 (Z.to_nat s)))
        (RegionIndices index' size')
  | _, _ => [[]]
  end.

(** Modelled from the spec: itk::ImageRegionExclusionConstIteratorWithIndex,
    which walks a region and "must visit every non-inset index exactly once
    (no double-counting, no skipped index)": the raster walk of [region]
    without the indices inside [exclusion]. *)
Definition ExclusionWalk (region exclusion : RegionType) : list IndexType :=
  filter (fun ind => negb (IsInside (GetIndex exclusion) (GetSize exclusion) ind))
         (RegionIndices (GetIndex region) (GetSize region)).

(** Modelled from the spec: itk::Image::ComputeOffset for an image whose
    buffered region is [region]: the linear position of an index in the
    raster layout, sum over d of (ind[d] - index[d]) * size[0] * ... * size[d-1]. *)
Fixpoint ComputeOffsetFrom (index : IndexType) (size : SizeType)
  (ind : IndexType) : Z :=
  match index, size, ind with
  | b :: index', s :: size', i :: ind' =>
      (i - b) + s * ComputeOffsetFrom index' size' ind'
  | _, _, _ => 0
  end.

Definition ComputeOffset (region : RegionType) (ind : IndexType) : Z :=
  ComputeOffsetFrom (GetIndex region) (GetSize region) ind.

(** ** The component and its collaborators *)

(** The B-spline transform: its grid and its parameters. *)
Record BSplineTransformType : Type := mkTransform {
  GridRegion : RegionType;
  GridSpacing : SpacingType;
  GridOrigin : OriginType;
  GridDirection : DirectionType;
  Parameters : ParametersType
}.

(** The grid of one resolution level, as GetBSplineGrid returns it. *)
Record GridGeometry : Type := mkGrid {
  gridRegion : RegionType;
  gridSpacing : SpacingType;
  gridOrigin : OriginType;
  gridDirection : DirectionType
}.

(** The registration with its optimizer: [OptimizerScales] is what
    GetOptimizer()->SetScales last received. *)
Record RegistrationType : Type := mkRegistration {
  CurrentLevel : Z;
  NumberOfLevels : Z;
  InitialTransformParametersOfNextLevel : ParametersType;
  LastTransformParameters : ParametersType;
  OptimizerScales : option ScalesType
}.

(** The fixed image's geometry. *)
Record ImageGeometry : Type := mkImage {
  ImageOrigin : OriginType;
  ImageSpacing : SpacingType;
  ImageDirection : DirectionType;
  LargestPossibleRegion : RegionType
}.

(** The grid schedule computer: what the component sets into it.
    [BSplineGridComputed] records the call of ComputeBSplineGrid. *)
Record GridScheduleComputerType : Type := mkComputer {
  ComputerImage : option ImageGeometry;
  ComputerUsesInitialTransform : bool;
  FinalGridSpacing : option SpacingType;
  Schedule : list (list float);
  BSplineGridComputed : bool
}.

(** The configuration source is a collaborator of the component; only its
    lookup interface is used. A lookup that finds nothing is [None]: the
    caller's variable keeps the value it had.
    - [CountNumberOfParameterEntries name]
    - [ReadEntry name entry_nr]: ReadParameter( value, name, entry_nr, ... )
    - [ReadComponentEntry name prefix entry_nr default_entry_nr]:
      ReadParameter( value, name, prefix, entry_nr, default_entry_nr, ... )
    [ReadEntry] and [ReadComponentEntry] read a [double], [ReadEntryInteger]
    an integer ([unsigned long] or [long]) and [ReadComponentEntryUInt] an
    [unsigned int]. *)
Record ConfigurationType : Type := mkConfiguration {
  CountNumberOfParameterEntries : string -> Z;
  ReadEntry : string -> Z -> option float;
  ReadEntryInteger : string -> Z -> option Z;
  ReadComponentEntry : string -> string -> Z -> Z -> option float;
  ReadComponentEntryUInt : string -> string -> Z -> Z -> option Z
}.

(** One line written to a target of xl::xout. *)
Record XoutLine : Type := mkLine {
  target : string;
  line : string
}.

(** The component [this], with the objects it reaches. *)
Record Component : Type := mkComponent {
  m_PeriodicBSplineTransform : BSplineTransformType;
  m_GridScheduleComputer : GridScheduleComputerType;
  m_Registration : RegistrationType;
  m_Configuration : ConfigurationType;
  FixedImage : ImageGeometry;
  UseComposition : bool;
  ComponentLabel : string;
  xout : list XoutLine
}.

(** The component before the registration starts. Beside the members of
    [RegistrationType] the registration holds the initial transform
    parameters, the array that SetInitialTransformParameters stores; of the
    member functions only BeforeRegistration sets it. *)
Record ComponentBeforeRegistration : Type := mkBeforeRegistration {
  component : Component;
  InitialTransformParameters : ParametersType
}.

(** ** The monad of member functions: state and itk exceptions *)

Inductive outcome (A : Type) : Type :=
| Returned (a : A)
| Thrown (what : string).
Arguments Returned {A} a.
Arguments Thrown {A} what.

Definition elx (A : Type) : Type := Component -> outcome A * Component.

Definition ret {A} (a : A) : elx A := fun this => (Returned a, this).

Definition bind {A B} (m : elx A) (k : A -> elx B) : elx B :=
  fun this =>
    match m this with
    | (Returned a, this') => k a this'
    | (Thrown what, this') => (Thrown what, this')
    end.

(** itkExceptionMacro( << what ) *)
Definition itkExceptionMacro {A} (what : string) : elx A :=
  fun this => (Thrown what, this).

Definition get : elx Component := fun this => (Returned this, this).
Definition put (this' : Component) : elx unit := fun _ => (Returned tt, this').

Declare Scope elx_scope.
Delimit Scope elx_scope with elx.
Notation "x <- m ;; k" := (bind m (fun x => k))
  (at level 100, m at next level, right associativity) : elx_scope.
Notation "m ;;; k" := (bind m (fun _ => k))
  (at level 100, right associativity) : elx_scope.
Open Scope elx_scope.

(** [for ( unsigned int i = first; i < first + count; ++i ) body], the
    loop's local variables threaded through as [s]. *)
Fixpoint for_ {S : Type} (first : nat) (count : nat)
  (body : nat -> S -> elx S) (s : S) : elx S :=
  match count with
  | O => ret s
  | Datatypes.S count' =>
      s' <- body first s ;;
      for_ (Datatypes.S first) count' body s'
  end.

(** Updates of the parts of the component. *)
Definition set_xout (lines : list XoutLine) (this : Component) : Component :=
  mkComponent (m_PeriodicBSplineTransform this) (m_GridScheduleComputer this)
    (m_Registration this) (m_Configuration this) (FixedImage this)
    (UseComposition this) (ComponentLabel this) lines.

(** xl::xout[ target ] << line << std::endl *)
Definition xout_write (tgt : string) (text : string) : elx unit :=
  fun this => (Returned tt, set_xout (xout this ++ [mkLine tgt text]) this).

Definition set_Transform (t : BSplineTransformType) (this : Component)
  : Component :=
  mkComponent t (m_GridScheduleComputer this) (m_Registration this)
    (m_Configuration this) (FixedImage this) (UseComposition this)
    (ComponentLabel this) (xout this).

Definition set_Computer (c : GridScheduleComputerType) (this : Component)
  : Component :=
  mkComponent (m_PeriodicBSplineTransform this) c (m_Registration this)
    (m_Configuration this) (FixedImage this) (UseComposition this)
    (ComponentLabel this) (xout this).

Definition set_Registration (r : RegistrationType) (this : Component)
  : Component :=
  mkComponent (m_PeriodicBSplineTransform this) (m_GridScheduleComputer this) r
    (m_Configuration this) (FixedImage this) (UseComposition this)
    (ComponentLabel this) (xout this).

(** this->m_PeriodicBSplineTransform->GetGridRegion() *)
Definition GetGridRegion (this : Component) : RegionType :=
  GridRegion (m_PeriodicBSplineTransform this).

(** this->m_Registration->GetAsITKBaseType()->GetOptimizer()->SetScales *)
Definition SetScales (scales : ScalesType) : elx unit :=
  fun this =>
    let r := m_Registration this in
    (Returned tt,
     set_Registration
       (mkRegistration (CurrentLevel r) (NumberOfLevels r)
          (InitialTransformParametersOfNextLevel r)
          (LastTransformParameters r) (Some scales)) this).

(** ** The member functions *)

Section PeriodicBSplineTransform.

  (** The template's image dimension. *)
  Variable SpaceDimension : nat.

  (** Collaborators outside this file: the grid of a level as the grid
      schedule computer reports it, and the grid upsampler. *)
  Variable GetBSplineGrid : GridScheduleComputerType -> Z -> GridGeometry.
  Variable UpsampleParameters :
    GridGeometry -> GridGeometry -> ParametersType -> ParametersType.

  (** Further collaborators: ReadFromFile and WriteToFile of the transform
      base class (Superclass2), and [operator<<] on a [double] for a stream
      of a given precision. *)
  Variable TransformBase_ReadFromFile : elx unit.
  Variable TransformBase_WriteToFile : ParametersType -> elx unit.
  Variable show_double : Z -> float -> string.

  (** NumericTraits<ScalesValueType>::One *)
Definition One : float := 1%float.

  (** const ScalesValueType infScale = 10000.0; *)
Definition infScale : float := 10000%float.

  (** Modelled from the spec: GetNumberOfParameters of the transform, the
      length of the coefficient vector, "(prod size[d]) x D", held in an
      [unsigned long]. *)
Definition GetNumberOfParameters (t : BSplineTransformType) : Z :=
    CInt.to_unsigned_long
      (Z.of_nat SpaceDimension * GetNumberOfPixels (GetSize (GridRegion t))).

  (** The line that the first loop of SetOptimizerScales writes to
      xl::xout["error"]. *)
Definition PassiveEdgeWidthError (edgeWidth : Z) (i : nat) (gridsize_i : Z)
  : string :=
  "ERROR: you specified a PassiveEdgeWidth of "
    ++ CInt.show edgeWidth
    ++ " while the total grid size in dimension "
    ++ CInt.show (Z.of_nat i)
    ++ " is only "
    ++ CInt.show gridsize_i ++ ".".

(** The first loop of SetOptimizerScales: "Determine inset region". The
      state of the loop is the pair (insetgridsize, insetgridindex). *)
Definition insetBody (edgeWidth : Z) (gridsize : SizeType)
    (gridindex : IndexType) (i : nat) (s : SizeType * IndexType)
    : elx (SizeType * IndexType) :=
    let insetgridsize :=
      set_nth i
        (CInt.to_unsigned_int
           (Z.max 0
              (CInt.to_int
                 (CInt.to_unsigned_long
                    (nth i gridsize 0 - CInt.to_unsigned_int (2 * edgeWidth))))))
        (fst s) in
    if nth i insetgridsize 0 =? 0 then
      xout_write "error"
        (PassiveEdgeWidthError edgeWidth i (nth i gridsize 0)) ;;;
      itkExceptionMacro "ERROR: the PassiveEdgeWidth is too large!"
    else
      ret (insetgridsize, set_nth i (nth i gridindex 0 + edgeWidth) (snd s)).

Definition DetermineInsetRegion (edgeWidth : Z) (gridregion : RegionType)
    : elx RegionType :=
    s <- for_ 0 SpaceDimension
           (insetBody edgeWidth (GetSize gridregion) (GetIndex gridregion))
           (repeat 0 SpaceDimension, repeat 0 SpaceDimension) ;;
    ret (mkRegion (snd s) (fst s)).

  (** The body of the while loop: the scales of one control point, one per
      spatial-dimension block. *)
Definition freezeIndex (coeff : RegionType) (offset : Z)
    (newScales : ScalesType) (index : IndexType) : ScalesType :=
    let baseOffset := CInt.to_unsigned_long (ComputeOffset coeff index) in
    fold_left
      (fun newScales i =>
         let scalesIndex :=
           CInt.to_unsigned_int
             (CInt.to_unsigned_long (baseOffset + Z.of_nat i * offset)) in
         array_set newScales scalesIndex infScale)
      (seq 0 SpaceDimension) newScales.

  (** SetOptimizerScales( unsigned int edgeWidth ) *)
Definition SetOptimizerScales (edgeWidth : Z) : elx unit :=
    this <- get ;;
    let numberOfParameters :=
      GetNumberOfParameters (m_PeriodicBSplineTransform this) in
    let offset := numberOfParameters / Z.of_nat SpaceDimension in
    let newScales := Fill numberOfParameters One in
    if edgeWidth =? 0 then
      (* Just set the unit scales into the optimizer. *)
      SetScales newScales
    else
      let gridregion := GetGridRegion this in
      insetgridregion <- DetermineInsetRegion edgeWidth gridregion ;;
      SetScales
        (fold_left (freezeIndex gridregion offset)
           (ExclusionWalk gridregion insetgridregion) newScales).

(** Modelled from the spec: SetDefaultSchedule( levels, upsamplingFactor )
    of the grid schedule computer, the "geometric default (factor 2 per
    coarser level, finest = 1)": the multiplier of level [res] is
    upsamplingFactor^(levels - 1 - res) on every axis. *)
Fixpoint float_pow (x : float) (n : nat) : float :=
  match n with
  | O => 1%float
  | S n' => (x * float_pow x n')%float
  end.

Definition DefaultSchedule (levels : Z) (upsamplingFactor : float)
  : list (list float) :=
  map (fun res =>
         repeat (float_pow upsamplingFactor (Z.to_nat levels - 1 - res))
                SpaceDimension)
      (seq 0 (Z.to_nat levels)).

(** ReadParameter( value, ... ): the variable keeps its value when the
    lookup finds nothing. *)
Definition ReadParameter {T : Type} (value : T) (found : option T) : T :=
  match found with
  | Some v => v
  | None => value
  end.

(** gridSchedule[ res ][ dim ] = v *)
Definition set_entry (res dim : nat) (v : float) (gridSchedule : list (list float))
  : list (list float) :=
  set_nth res (set_nth dim v (nth res gridSchedule [])) gridSchedule.

(** "Method 2: Read the FinalGridSpacingInPhysicalUnits." *)
Definition ReadFinalGridSpacingInPhysicalUnits (this : Component)
  (finalGridSpacingInPhysicalUnits : SpacingType) : SpacingType :=
  fold_left
    (fun spacing dim =>
       set_nth dim
         (ReadParameter (nth dim spacing 0%float)
            (ReadComponentEntry (m_Configuration this)
               "FinalGridSpacingInPhysicalUnits" (ComponentLabel this)
               (Z.of_nat dim) 0))
         spacing)
    (seq 0 SpaceDimension) finalGridSpacingInPhysicalUnits.

(** "Method 1: Read the FinalGridSpacingInVoxels" *)
Definition ReadFinalGridSpacingInVoxels (this : Component)
  (finalGridSpacingInVoxels : SpacingType) : SpacingType :=
  fold_left
    (fun spacing dim =>
       set_nth dim
         (ReadParameter (nth dim spacing 0%float)
            (ReadComponentEntry (m_Configuration this)
               "FinalGridSpacingInVoxels" (ComponentLabel this)
               (Z.of_nat dim) 0))
         spacing)
    (seq 0 SpaceDimension) finalGridSpacingInVoxels.

(** "Compute grid spacing in physical units" *)
Definition VoxelsToPhysicalUnits (this : Component)
  (finalGridSpacingInVoxels finalGridSpacingInPhysicalUnits : SpacingType)
  : SpacingType :=
  fold_left
    (fun spacing dim =>
       set_nth dim
         (nth dim finalGridSpacingInVoxels 0 *
          nth dim (ImageSpacing (FixedImage this)) 0)%float
         spacing)
    (seq 0 SpaceDimension) finalGridSpacingInPhysicalUnits.

(** bool method2 = CountNumberOfParameterEntries(
      "FinalGridSpacingInPhysicalUnits" ) != 0; *)
Definition method2 (this : Component) : bool :=
  negb (CountNumberOfParameterEntries (m_Configuration this)
          "FinalGridSpacingInPhysicalUnits" =? 0).

(** The final grid spacing in physical units, by method 1 or 2. *)
Definition ResolveFinalGridSpacing (this : Component) : SpacingType :=
  let method2 := method2 this in
  let finalGridSpacingInVoxels := repeat 16%float SpaceDimension in
  let finalGridSpacingInPhysicalUnits := repeat 8%float SpaceDimension in
  if method2 then
    ReadFinalGridSpacingInPhysicalUnits this finalGridSpacingInPhysicalUnits
  else
    VoxelsToPhysicalUnits this
      (ReadFinalGridSpacingInVoxels this finalGridSpacingInVoxels)
      finalGridSpacingInPhysicalUnits.

(** The two loops that read the schedule. The state of a loop is the pair
    (gridSchedule, entry_nr); [perLevel] tells where entry_nr is
    incremented: after the axes of a level ([true], one entry per level) or
    after every axis ([false], one entry per axis per level). In both loops
    every entry read lies below the entry count, so that the lookup finds
    it in a configuration whose count is the number of its entries. *)
Definition ReadScheduleEntry (this : Component) (perLevel : bool) (res : nat)
  (s : list (list float) * Z) (dim : nat) : list (list float) * Z :=
  (set_entry res dim
     (ReadParameter (nth dim (nth res (fst s) []) 0%float)
        (ReadEntry (m_Configuration this) "GridSpacingSchedule" (snd s)))
     (fst s),
   if perLevel then snd s else CInt.to_unsigned_int (snd s + 1)).

Definition ReadScheduleLevel (this : Component) (perLevel : bool)
  (s : list (list float) * Z) (res : nat) : list (list float) * Z :=
  let s' :=
    fold_left (ReadScheduleEntry this perLevel res) (seq 0 SpaceDimension) s in
  (fst s', if perLevel then CInt.to_unsigned_int (snd s' + 1) else snd s').

Definition ReadSchedule (this : Component) (perLevel : bool)
  (nrOfResolutions : Z) (gridSchedule : list (list float))
  : list (list float) :=
  fst (fold_left (ReadScheduleLevel this perLevel)
         (seq 0 (Z.to_nat nrOfResolutions)) (gridSchedule, 0)).

(** The lines PreComputeGridInformation writes to xl::xout. *)
Definition InvalidGridSpacingScheduleError : string :=
  "ERROR: Invalid GridSpacingSchedule! The number of entries"
    ++ " behind the GridSpacingSchedule option should equal the"
    ++ " numberOfResolutions, or the numberOfResolutions*imageDimension.".

Definition GridSpacingAdaptedWarning : string :=
  "WARNING: The provided grid spacing may be adapted to fit the periodic "
    ++ "behavior of the PeriodicBSplineTransform.".

(** PreComputeGridInformation( void ) *)
Definition PreComputeGridInformation : elx unit :=
  this <- get ;;
  (* Get the total number of resolution levels. *)
  let nrOfResolutions :=
    CInt.to_unsigned_int (NumberOfLevels (m_Registration this)) in
  (* Set up grid schedule computer with image info; take the initial
     transform only into account, if composition is used. *)
  let computer := m_GridScheduleComputer this in
  let computer :=
    mkComputer (Some (FixedImage this))
      (if UseComposition this then true
       else ComputerUsesInitialTransform computer)
      (FinalGridSpacing computer) (Schedule computer)
      (BSplineGridComputed computer) in
  let finalGridSpacingInPhysicalUnits := ResolveFinalGridSpacing this in
  (* Set up a default grid spacing schedule. *)
  let computer :=
    mkComputer (ComputerImage computer)
      (ComputerUsesInitialTransform computer) (FinalGridSpacing computer)
      (DefaultSchedule nrOfResolutions 2%float)
      (BSplineGridComputed computer) in
  put (set_Computer computer this) ;;;
  let gridSchedule := Schedule computer in
  (* Read what the user has specified. This overrules everything. *)
  let count :=
    CountNumberOfParameterEntries (m_Configuration this)
      "GridSpacingSchedule" in
  gridSchedule <-
    (if count =? 0 then
       (* keep the default schedule *)
       ret gridSchedule
     else if count =? nrOfResolutions then
       ret (ReadSchedule this true nrOfResolutions gridSchedule)
     else if count =?
             CInt.to_unsigned_int (nrOfResolutions * Z.of_nat SpaceDimension)
     then
       ret (ReadSchedule this false nrOfResolutions gridSchedule)
     else
       xout_write "error" InvalidGridSpacingScheduleError ;;;
       itkExceptionMacro "ERROR: Invalid GridSpacingSchedule!") ;;
  (* Output a warning that the gridspacing may be adapted to fit the
     periodic behavior of the transform. *)
  xout_write "warning" GridSpacingAdaptedWarning ;;;
  (* Set the grid schedule and final grid spacing in the schedule computer,
     and compute the necessary information. *)
  this <- get ;;
  let computer := m_GridScheduleComputer this in
  put (set_Computer
         (mkComputer (ComputerImage computer)
            (ComputerUsesInitialTransform computer)
            (Some finalGridSpacingInPhysicalUnits) gridSchedule true)
         this).

(** this->m_PeriodicBSplineTransform->SetGridRegion( ... ) and the three
    setters beside it. *)
Definition SetGrid (grid : GridGeometry) (t : BSplineTransformType)
  : BSplineTransformType :=
  mkTransform (gridRegion grid) (gridSpacing grid) (gridOrigin grid)
    (gridDirection grid) (Parameters t).

(** SetInitialTransformParametersOfNextLevel of the registration. *)
Definition SetInitialTransformParametersOfNextLevel
  (parameters : ParametersType) (r : RegistrationType) : RegistrationType :=
  mkRegistration (CurrentLevel r) (NumberOfLevels r) parameters
    (LastTransformParameters r) (OptimizerScales r).

(** InitializeTransform( void ) *)
Definition InitializeTransform : elx unit :=
  this <- get ;;
  (* Compute the B-spline grid region, origin, and spacing. *)
  let grid := GetBSplineGrid (m_GridScheduleComputer this) 0 in
  (* Set it in the BSplineTransform. *)
  let transform := SetGrid grid (m_PeriodicBSplineTransform this) in
  (* Set initial parameters for the first resolution to 0.0. *)
  let initialParameters := Fill (GetNumberOfParameters transform) 0%float in
  put (set_Registration
         (SetInitialTransformParametersOfNextLevel initialParameters
            (m_Registration this))
         (set_Transform transform this)).

(** IncreaseScale( void ) *)
Definition IncreaseScale : elx unit :=
  this <- get ;;
  (* What is the current resolution level? *)
  let level := CInt.to_unsigned_int (CurrentLevel (m_Registration this)) in
  (* The current grid. *)
  let t := m_PeriodicBSplineTransform this in
  let currentGrid :=
    mkGrid (GridRegion t) (GridSpacing t) (GridOrigin t) (GridDirection t) in
  (* The new required grid. *)
  let requiredGrid := GetBSplineGrid (m_GridScheduleComputer this) level in
  (* Get the latest transform parameters. *)
  let latestParameters := LastTransformParameters (m_Registration this) in
  (* Compute the upsampled B-spline parameters. *)
  let upsampledParameters :=
    UpsampleParameters currentGrid requiredGrid latestParameters in
  (* Set the new grid definition in the BSplineTransform. *)
  let t := SetGrid requiredGrid t in
  (* Set the initial parameters for the next level. *)
  let registration :=
    SetInitialTransformParametersOfNextLevel upsampledParameters
      (m_Registration this) in
  (* Set the parameters in the BsplineTransform. *)
  let t :=
    mkTransform (GridRegion t) (GridSpacing t) (GridOrigin t)
      (GridDirection t) (InitialTransformParametersOfNextLevel registration) in
  put (set_Registration registration (set_Transform t this)).

(** BeforeEachResolution( void ) *)
Definition BeforeEachResolution : elx unit :=
  this <- get ;;
  (* What is the current resolution level? *)
  let level := CInt.to_unsigned_int (CurrentLevel (m_Registration this)) in
  (* Define the grid. *)
  (if level =? 0 then InitializeTransform else IncreaseScale) ;;;
  (* Get the PassiveEdgeWidth and use it to set the OptimizerScales. *)
  this <- get ;;
  let passiveEdgeWidth :=
    ReadParameter 0
      (ReadComponentEntryUInt (m_Configuration this) "PassiveEdgeWidth"
         (ComponentLabel this) level 0) in
  SetOptimizerScales passiveEdgeWidth.

(** The local variables of ReadFromFile. *)
Record GridVariables : Type := mkGridVariables {
  gridsize : SizeType;
  gridindex : IndexType;
  gridspacing : SpacingType;
  gridorigin : OriginType;
  griddirection : DirectionType
}.

(** griddirection.SetIdentity() *)
Definition SetIdentity : DirectionType :=
  map (fun j => map (fun i => if Nat.eqb i j then 1%float else 0%float)
                    (seq 0 SpaceDimension))
      (seq 0 SpaceDimension).

(** The inner loop of ReadFromFile: column [i] of the direction matrix,
    griddirection( j, i ) from entry i * SpaceDimension + j. *)
Definition ReadDirectionColumn (cfg : ConfigurationType) (i : nat)
  (direction : DirectionType) : DirectionType :=
  fold_left
    (fun direction j =>
       set_entry j i
         (ReadParameter (nth i (nth j direction []) 0%float)
            (ReadEntry cfg "GridDirection"
               (CInt.to_unsigned_int
                  (Z.of_nat i * Z.of_nat SpaceDimension + Z.of_nat j))))
         direction)
    (seq 0 SpaceDimension) direction.

(** The body of the loop of ReadFromFile: "Get GridSize, GridIndex,
    GridSpacing and GridOrigin" and the direction of axis [i]. *)
Definition ReadGridAxis (cfg : ConfigurationType) (v : GridVariables)
  (i : nat) : GridVariables :=
  mkGridVariables
    (set_nth i
       (ReadParameter (nth i (gridsize v) 0)
          (ReadEntryInteger cfg "GridSize" (Z.of_nat i)))
       (gridsize v))
    (set_nth i
       (ReadParameter (nth i (gridindex v) 0)
          (ReadEntryInteger cfg "GridIndex" (Z.of_nat i)))
       (gridindex v))
    (set_nth i
       (ReadParameter (nth i (gridspacing v) 0%float)
          (ReadEntry cfg "GridSpacing" (Z.of_nat i)))
       (gridspacing v))
    (set_nth i
       (ReadParameter (nth i (gridorigin v) 0%float)
          (ReadEntry cfg "GridOrigin" (Z.of_nat i)))
       (gridorigin v))
    (ReadDirectionColumn cfg i (griddirection v)).

(** The grid that ReadFromFile reads: the defaults, overwritten by the
    entries the configuration has. *)
Definition ReadGrid (cfg : ConfigurationType) : GridVariables :=
  fold_left (ReadGridAxis cfg) (seq 0 SpaceDimension)
    (mkGridVariables
       (repeat 1 SpaceDimension) (repeat 0 SpaceDimension)
       (repeat 1%float SpaceDimension) (repeat 0%float SpaceDimension)
       SetIdentity).

(** ReadFromFile( void ) *)
Definition ReadFromFile : elx unit :=
  this <- get ;;
  let v := ReadGrid (m_Configuration this) in
  (* Set it all. *)
  put (set_Transform
         (mkTransform (mkRegion (gridindex v) (gridsize v)) (gridspacing v)
            (gridorigin v) (griddirection v)
            (Parameters (m_PeriodicBSplineTransform this)))
         this) ;;;
  (* Call the ReadFromFile from the TransformBase. *)
  TransformBase_ReadFromFile.

(** One line of WriteToFile for a vector:
      xout["transpar"] << "(Name ";
      for i < SpaceDimension - 1: xout["transpar"] << item[ i ] << " ";
      xout["transpar"] << item[ SpaceDimension - 1 ] << ")" << std::endl; *)
Definition vectorLine (name : string) (item : nat -> string) : string :=
  (fold_left (fun text i => text ++ item i ++ " ")
     (seq 0 (SpaceDimension - 1)) ("(" ++ name ++ " ")
   ++ item (SpaceDimension - 1)%nat ++ ")")%string.

(** The line of WriteToFile for the direction matrix: columns one after the
    other, each entry after a space, direction( j, i ) at stream precision
    [precision]. *)
Definition directionLine (precision : Z) (direction : DirectionType)
  : string :=
  (fold_left
     (fun text i =>
        fold_left
          (fun text j =>
             text ++ " "
               ++ show_double precision (nth i (nth j direction []) 0%float))
          (seq 0 SpaceDimension) text)
     (seq 0 SpaceDimension) "(GridDirection"
   ++ ")")%string.

(** The lines WriteToFile adds after those of the TransformBase. The
    precision of the stream is 10 from GridSpacing on; it is set back to
    the default output precision after the last line. *)
Definition WriteGridToFile : elx unit :=
  this <- get ;;
  xout_write "transpar" "" ;;;
  xout_write "transpar" "// BSplineTransform specific" ;;;
  let t := m_PeriodicBSplineTransform this in
  let size := GetSize (GridRegion t) in
  let index := GetIndex (GridRegion t) in
  let spacing := GridSpacing t in
  let origin := GridOrigin t in
  let direction := GridDirection t in
  xout_write "transpar"
    (vectorLine "GridSize" (fun i => CInt.show (nth i size 0))) ;;;
  xout_write "transpar"
    (vectorLine "GridIndex" (fun i => CInt.show (nth i index 0))) ;;;
  xout_write "transpar"
    (vectorLine "GridSpacing" (fun i => show_double 10 (nth i spacing 0%float))) ;;;
  xout_write "transpar"
    (vectorLine "GridOrigin" (fun i => show_double 10 (nth i origin 0%float))) ;;;
  xout_write "transpar" (directionLine 10 direction).

(** WriteToFile( const ParametersType & param ) const *)
Definition WriteToFile (param : ParametersType) : elx unit :=
  (* Call the WriteToFile from the TransformBase. *)
  TransformBase_WriteToFile param ;;;
  (* Add some BSplineTransform specific lines. *)
  WriteGridToFile.

(** BeforeRegistration( void ) *)
Definition BeforeRegistration (s : ComponentBeforeRegistration)
  : outcome unit * ComponentBeforeRegistration :=
  let this := component s in
  (* Task 1 - Set the Grid. Fill everything with default values. *)
  let gridsize := repeat 1 SpaceDimension in
  let gridindex := repeat 0 SpaceDimension in
  let gridspacing := repeat 1%float SpaceDimension in
  let gridorigin := repeat 0%float SpaceDimension in
  (* Set gridsize for large dimension to 4 to prevent errors when checking
     on support region size. *)
  let gridsize :=
    array_set gridsize (CInt.to_unsigned_int (Z.of_nat SpaceDimension - 1)) 4 in
  (* Set it all. *)
  let t := m_PeriodicBSplineTransform this in
  let t :=
    mkTransform (mkRegion gridindex gridsize) gridspacing gridorigin
      (GridDirection t) (Parameters t) in
  let this := set_Transform t this in
  (* Task 2 - Give the registration an initial parameter-array. *)
  let dummyInitialParameters := Fill (GetNumberOfParameters t) 0%float in
  (* Precompute the B-spline grid regions. *)
  let (result, this) := PreComputeGridInformation this in
  (result, mkBeforeRegistration this dummyInitialParameters).

End PeriodicBSplineTransform.

(** * The vocabulary of the properties *)

Section Counting.
  Context {A : Type}.
  Variable is_v : A -> bool.

(** The number of entries of [a] that satisfy [is_v]. *)
Definition count (a : list A) : nat := length (filter is_v a).

End Counting.

(** The positions of the scales vector that the loop of SetOptimizerScales
    writes: for every index of the walk, one position per block. *)
Definition frozenPositions (D : nat) (region inset : RegionType) (offset : Z)
  : list Z :=
  flat_map
    (fun ind => map (fun i => ComputeOffset region ind + Z.of_nat i * offset)
                    (seq 0 D))
    (ExclusionWalk region inset).

Definition isSentinel (x : float) : bool := PrimFloat.eqb x infScale.

(** The multi-index [ind] lies outside the inset region
    [index[d] + w, index[d] + size[d] - w) on at least one axis. *)
Definition OutsideInset (region : RegionType) (w : Z) (ind : IndexType)
  : Prop :=
  exists d, (d < length (GetSize region))%nat /\
    ~ (nth d (GetIndex region) 0 + w <= nth d ind 0
       < nth d (GetIndex region) 0 + nth d (GetSize region) 0 - w).

(** What SetOptimizerScales is to achieve for an edge of width [w]:
    it returns, having set into the optimizer a vector [newScales] of length
    numberOfParameters whose entry for control point [ind] in block [i], at
    position ComputeOffset(ind) + i * (numberOfParameters / D), is the
    sentinel exactly when [ind] lies outside the inset region and is 1.0
    otherwise; every position is such an entry; and the sentinel occurs
    (prod size - prod (size - 2w)) * D times. *)
Definition PassiveEdgeScales (D : nat) (w : Z) (this : Component) : Prop :=
  let region := GetGridRegion this in
  let numberOfParameters :=
    Z.of_nat D * GetNumberOfPixels (GetSize region) in
  let position ind i :=
    ComputeOffset region ind
    + Z.of_nat i * (numberOfParameters / Z.of_nat D) in
  exists newScales : ScalesType,
    SetOptimizerScales D w this = SetScales newScales this
    /\ Z.of_nat (length newScales) = numberOfParameters
    /\ (forall ind i,
          IsInside (GetIndex region) (GetSize region) ind = true ->
          (i < D)%nat ->
          0 <= position ind i < numberOfParameters
          /\ (nth_error newScales (Z.to_nat (position ind i)) = Some infScale
              <-> OutsideInset region w ind)
          /\ (nth_error newScales (Z.to_nat (position ind i)) = Some One
              <-> ~ OutsideInset region w ind))
    /\ (forall k, 0 <= k < numberOfParameters ->
          exists ind i,
            IsInside (GetIndex region) (GetSize region) ind = true
            /\ (i < D)%nat /\ k = position ind i)
    /\ Z.of_nat (count isSentinel newScales)
       = (GetNumberOfPixels (GetSize region)
          - GetNumberOfPixels (map (fun s => s - 2 * w) (GetSize region)))
         * Z.of_nat D.

(** Every scale is 1.0 or the sentinel. *)
Definition unitOrSentinel (x : float) : Prop := x = One \/ x = infScale.

(** The number of resolution levels and the entry count of the schedule, as
    PreComputeGridInformation reads them. *)
Definition nrOfResolutions (this : Component) : Z :=
  CInt.to_unsigned_int (NumberOfLevels (m_Registration this)).

Definition scheduleCount (this : Component) : Z :=
  CountNumberOfParameterEntries (m_Configuration this) "GridSpacingSchedule".

(** The grid schedule computer once the image information and the default
    schedule are set into it. *)
Definition computerWithDefaults (D : nat) (this : Component)
  : GridScheduleComputerType :=
  mkComputer (Some (FixedImage this))
    (if UseComposition this then true
     else ComputerUsesInitialTransform (m_GridScheduleComputer this))
    (FinalGridSpacing (m_GridScheduleComputer this))
    (DefaultSchedule D (nrOfResolutions this) 2%float)
    (BSplineGridComputed (m_GridScheduleComputer this)).

(** The schedule handed to SetSchedule for an accepted entry count. *)
Definition chosenSchedule (D : nat) (this : Component) : list (list float) :=
  if scheduleCount this =? 0 then
    DefaultSchedule D (nrOfResolutions this) 2%float
  else if scheduleCount this =? nrOfResolutions this then
    ReadSchedule D this true (nrOfResolutions this)
      (DefaultSchedule D (nrOfResolutions this) 2%float)
  else
    ReadSchedule D this false (nrOfResolutions this)
      (DefaultSchedule D (nrOfResolutions this) 2%float).

(** The entry [e] of GridSpacingSchedule. *)
Definition scheduleEntry (this : Component) (e : Z) : option float :=
  ReadEntry (m_Configuration this) "GridSpacingSchedule" e.

(** The entries of a key in an association list. *)
Fixpoint entriesOf {T : Type} (name : string) (l : list (string * list T))
  : list T :=
  match l with
  | [] => []
  | (k, v) :: l' => if String.eqb k name then v else entriesOf name l'
  end.

(** The value of an integer as a [double]. *)
Fixpoint float_of_positive (p : positive) : float :=
  match p with
  | xH => 1%float
  | xO p' => (2 * float_of_positive p')%float
  | xI p' => (2 * float_of_positive p' + 1)%float
  end.

Definition float_of_Z (z : Z) : float :=
  match z with
  | Z0 => 0%float
  | Zpos p => float_of_positive p
  | Zneg p => (- float_of_positive p)%float
  end.

(** Modelled from the spec: the requested grid spacing of a level, "per
    level the target spacing is finalSpacing[d] x scheduleEntry[d]", read
    off the grid schedule computer. *)
Definition RequestedGridSpacing (computer : GridScheduleComputerType)
  (level dim : nat) : float :=
  (nth dim (ReadParameter [] (FinalGridSpacing computer)) 0
   * nth dim (nth level (Schedule computer) []) 0)%float.

(** Modelled from the spec: "the image's physical extent along each axis",
    the number of voxels times the voxel spacing. *)
Definition DomainExtent (image : ImageGeometry) (dim : nat) : float :=
  (float_of_Z (nth dim (GetSize (LargestPossibleRegion image)) 0%Z)
   * nth dim (ImageSpacing image) 0)%float.

(** Modelled from the spec: "the spacing divides the domain extent into a
    whole number of equal periods". *)
Definition DividesEvenly (extent spacing : float) : Prop :=
  exists n : Z, 0 < n /\ (float_of_Z n * spacing)%float = extent.

(** The current level, the grid the schedule computer reports for it, and
    the edge width the configuration gives for it. *)
Definition currentLevel (this : Component) : Z :=
  CInt.to_unsigned_int (CurrentLevel (m_Registration this)).

Definition passiveEdgeWidthOf (this : Component) : Z :=
  ReadParameter 0
    (ReadComponentEntryUInt (m_Configuration this) "PassiveEdgeWidth"
       (ComponentLabel this) (currentLevel this) 0).

(** The tokens of the five grid keys, as WriteToFile prints the grid of a
    transform: sizes and indices in decimal, spacings, origins and
    directions at precision 10, the direction matrix column after column. *)
Definition gridTokens (D : nat) (show_double : Z -> float -> string)
  (t : BSplineTransformType) : list (string * list string) :=
  [("GridSize"%string, map CInt.show (GetSize (GridRegion t)));
   ("GridIndex"%string, map CInt.show (GetIndex (GridRegion t)));
   ("GridSpacing"%string, map (show_double 10) (GridSpacing t));
   ("GridOrigin"%string, map (show_double 10) (GridOrigin t));
   ("GridDirection"%string,
    flat_map
      (fun i => map (fun j => show_double 10
                                (nth i (nth j (GridDirection t) []) 0%float))
                    (seq 0 D))
      (seq 0 D))].

(** Modelled from the spec: a line of the transform-parameter file,
    "(Key v0 v1 ... )", the values separated by one space. *)
Definition parameterLine (key : string) (tokens : list string) : string :=
  ("(" ++ key ++ " " ++ String.concat " " tokens ++ ")")%string.

(** The reading of a decimal integer token. *)
Definition parse_integer (token : string) : option Z :=
  option_map Z.of_int (NilZero.int_of_string token).

(** Modelled from the spec: the configuration that holds the lines of a
    parameter file, a "keyed, indexed parameter lookup" with a "count
    entries for key" query; [parse_double] is the reading of a [double]
    token. The component lookup takes the entry at entry_nr and, where
    there is none, the entry at default_entry_nr. *)
Definition fileConfiguration (parse_double : string -> option float)
  (entries : list (string * list string)) : ConfigurationType :=
  let token name entry_nr :=
    if entry_nr <? 0 then None
    else nth_error (entriesOf name entries) (Z.to_nat entry_nr) in
  let token2 name entry_nr default_entry_nr :=
    match token name entry_nr with
    | Some tok => Some tok
    | None => token name default_entry_nr
    end in
  let bind_option {X Y : Type} (o : option X) (f : X -> option Y) :=
    match o with
    | Some x => f x
    | None => None
    end in
  mkConfiguration
    (fun name => Z.of_nat (length (entriesOf name entries)))
    (fun name entry_nr => bind_option (token name entry_nr) parse_double)
    (fun name entry_nr => bind_option (token name entry_nr) parse_integer)
    (fun name _ entry_nr default_entry_nr =>
       bind_option (token2 name entry_nr default_entry_nr) parse_double)
    (fun name _ entry_nr default_entry_nr =>
       bind_option (token2 name entry_nr default_entry_nr) parse_integer).

(** A [double] as it comes back from the file: printed at precision 10 and
    read again, or the default of ReadFromFile where the reading fails. *)
Definition rereadDouble (show_double : Z -> float -> string)
  (parse_double : string -> option float) (default x : float) : float :=
  ReadParameter default (parse_double (show_double 10 x)).

(** The entry of the direction matrix that ReadFromFile reads for row [j]
    and column [i]. *)
Definition directionEntry (D : nat) (cfg : ConfigurationType) (i j : nat)
  : option float :=
  ReadEntry cfg "GridDirection"
    (CInt.to_unsigned_int (Z.of_nat i * Z.of_nat D + Z.of_nat j)).

(** The configuration that holds the lines WriteToFile wrote for the grid
    of [t]. *)
Definition writtenConfiguration (D : nat) (show_double : Z -> float -> string)
  (parse_double : string -> option float) (t : BSplineTransformType)
  : ConfigurationType :=
  fileConfiguration parse_double (gridTokens D show_double t).

(** The component once the grid of the level is defined: by
    InitializeTransform on level 0 and by IncreaseScale on the others. *)
Definition withLevelGrid (D : nat)
  (GetBSplineGrid : GridScheduleComputerType -> Z -> GridGeometry)
  (UpsampleParameters :
     GridGeometry -> GridGeometry -> ParametersType -> ParametersType)
  (this : Component) : Component :=
  snd ((if currentLevel this =? 0
        then InitializeTransform D GetBSplineGrid
        else IncreaseScale GetBSplineGrid UpsampleParameters) this).

(** A matrix of D rows of D entries. *)
Definition square (D : nat) (direction : DirectionType) : Prop :=
  length direction = D /\ forall j, (j < D)%nat -> length (nth j direction []) = D.

(** The entry count of GridSpacingSchedule is one that
    PreComputeGridInformation accepts: zero, one entry per level, or one
    entry per axis per level. *)
Definition acceptedCount (D : nat) (this : Component) : bool :=
  (scheduleCount this =? 0)
  || (scheduleCount this =? nrOfResolutions this)
  || (scheduleCount this
      =? CInt.to_unsigned_int (nrOfResolutions this * Z.of_nat D)).

(** * Example components and configurations *)

(** A configuration without entries. *)
Definition emptyConfiguration : ConfigurationType :=
  mkConfiguration (fun _ => 0) (fun _ _ => None) (fun _ _ => None)
    (fun _ _ _ _ => None) (fun _ _ _ _ => None).

(** A component whose transform has the grid region (index, size). *)
Definition gridComponent (index : IndexType) (size : SizeType) : Component :=
  mkComponent
    (mkTransform (mkRegion index size) [] [] [] [])
    (mkComputer None false None [] false)
    (mkRegistration 0 1 [] [] None)
    emptyConfiguration
    (mkImage [] [] [] (mkRegion [] []))
    false "PeriodicBSplineTransform" [].

(** The grid of the spec's example: size [10,10,10], D = 3. *)
Definition grid10 : Component := gridComponent [0; 0; 0] [10; 10; 10].

(** A 2-D grid with 2^31 + 2 control points along the first axis. *)
Definition largeGrid : Component := gridComponent [0; 0] [2147483650; 3].

(** A grid of size [10,10] and the edge width 2^31, which an
    [unsigned int] holds. *)
Definition grid10x10 : Component := gridComponent [0; 0] [10; 10].

(** A configuration given by the entries of its keys, [doubles] for the
    keys read as [double] and [uints] for those read as integers. The
    component lookup takes the entry at entry_nr and, where there is none,
    the entry at default_entry_nr. *)
Definition listConfiguration (doubles : list (string * list float))
  (uints : list (string * list Z)) : ConfigurationType :=
  mkConfiguration
    (fun name =>
       Z.of_nat (length (entriesOf name doubles)
                 + length (entriesOf name uints)))
    (fun name entry_nr =>
       if entry_nr <? 0 then None
       else nth_error (entriesOf name doubles) (Z.to_nat entry_nr))
    (fun name entry_nr =>
       if entry_nr <? 0 then None
       else nth_error (entriesOf name uints) (Z.to_nat entry_nr))
    (fun name _ entry_nr default_entry_nr =>
       match nth_error (entriesOf name doubles) (Z.to_nat entry_nr) with
       | Some v => Some v
       | None => nth_error (entriesOf name doubles) (Z.to_nat default_entry_nr)
       end)
    (fun name _ entry_nr default_entry_nr =>
       match nth_error (entriesOf name uints) (Z.to_nat entry_nr) with
       | Some v => Some v
       | None => nth_error (entriesOf name uints) (Z.to_nat default_entry_nr)
       end).

(** A 2-D component at the start of a registration with [levels]
    resolutions: fixed image of [size] voxels with [spacing], and the
    configuration [cfg]. *)
Definition registrationComponent (levels : Z) (size : SizeType)
  (spacing : SpacingType) (cfg : ConfigurationType) : Component :=
  mkComponent
    (mkTransform (mkRegion [0; 0] [1; 4]) [1; 1]%float [0; 0]%float
       [[1; 0]; [0; 1]]%float [])
    (mkComputer None false None [] false)
    (mkRegistration 0 levels [] [] None)
    cfg
    (mkImage [0; 0]%float spacing [[1; 0]; [0; 1]]%float (mkRegion [0; 0] size))
    false "PeriodicBSplineTransform" [].

(** The spec's scenario: FinalGridSpacingInVoxels = 16 with image spacing
    (2,2). *)
Definition voxels16 : Component :=
  registrationComponent 3 [64; 64] [2; 2]%float
    (listConfiguration [("FinalGridSpacingInVoxels"%string, [16%float])] []).

(** Both units given: physical units (5, 7) and voxel units 16. *)
Definition bothUnits : Component :=
  registrationComponent 3 [64; 64] [2; 2]%float
    (listConfiguration
       [("FinalGridSpacingInVoxels"%string, [16%float]);
        ("FinalGridSpacingInPhysicalUnits"%string, [5; 7]%float)] []).



(** Three levels and a schedule of four entries. *)
Definition fourEntries : Component :=
  registrationComponent 3 [64; 64] [1; 1]%float
    (listConfiguration [("GridSpacingSchedule"%string, [8; 4; 2; 1]%float)] []).

(** One level, no configured key, an image of 64 x 64 voxels of spacing 1:
    the requested grid spacing is 16 on both axes. *)
Definition evenGrid : Component :=
  registrationComponent 1 [64; 64] [1; 1]%float emptyConfiguration.

(** The grids of a schedule with two levels, 4 x 5 and then 7 x 5 control
    points, and an upsampler that starts the finer level from zeros. *)
Definition twoLevelGrids (_ : GridScheduleComputerType) (level : Z)
  : GridGeometry :=
  mkGrid (mkRegion [0; 0] [if level =? 0 then 4 else 7; 5])
    [1; 1]%float [0; 0]%float [[1; 0]; [0; 1]]%float.

Definition zeroUpsampler (_ required : GridGeometry) (_ : ParametersType)
  : ParametersType :=
  Fill (2 * GetNumberOfPixels (GetSize (gridRegion required))) 0%float.

(** A component at resolution level [level] whose configuration gives the
    PassiveEdgeWidth entries [widths]. *)
Definition atLevel (level : Z) (widths : list Z) : Component :=
  mkComponent
    (mkTransform (mkRegion [0; 0] [1; 4]) [1; 1]%float [0; 0]%float
       [[1; 0]; [0; 1]]%float [])
    (mkComputer None false None [] false)
    (mkRegistration level 2 [] [] None)
    (listConfiguration []
       (match widths with
        | [] => []
        | _ => [("PassiveEdgeWidth"%string, widths)]
        end))
    (mkImage [0; 0]%float [1; 1]%float [[1; 0]; [0; 1]]%float
       (mkRegion [0; 0] [64; 64]))
    false "PeriodicBSplineTransform" [].

(** A printer and a reader of the three values 0, 1 and 16. *)
Definition showSmall (_ : Z) (x : float) : string :=
  if PrimFloat.eqb x 1 then "1"
  else if PrimFloat.eqb x 16 then "16"
  else "0".

Definition parseSmall (token : string) : option float :=
  if String.eqb token "1" then Some 1%float
  else if String.eqb token "16" then Some 16%float
  else if String.eqb token "0" then Some 0%float
  else None.

(** A transform with a grid of 7 x 5 control points from index (-3, 0),
    spacing 16 and the identity as direction. *)
Definition writtenTransform : BSplineTransformType :=
  mkTransform (mkRegion [-3; 0] [7; 5]) [16; 16]%float [0; 0]%float
    [[1; 0]; [0; 1]]%float [].

(** A component that holds this transform, and one whose configuration is
    the parameter file written from it. *)
Definition writingComponent : Component :=
  mkComponent writtenTransform (mkComputer None false None [] false)
    (mkRegistration 0 1 [] [] None) emptyConfiguration
    (mkImage [] [] [] (mkRegion [] [])) false "PeriodicBSplineTransform" [].

Definition readingComponent : Component :=
  mkComponent (mkTransform (mkRegion [] []) [] [] [] [])
    (mkComputer None false None [] false)
    (mkRegistration 0 1 [] [] None)
    (fileConfiguration parseSmall (gridTokens 2 showSmall writtenTransform))
    (mkImage [] [] [] (mkRegion [] [])) false "PeriodicBSplineTransform" [].

(** The components [voxels16] and [fourEntries] before the registration
    starts, the registration without initial parameters yet. *)
Definition voxels16AtStart : ComponentBeforeRegistration :=
  mkBeforeRegistration voxels16 [].

Definition fourEntriesAtStart : ComponentBeforeRegistration :=
  mkBeforeRegistration fourEntries [].

(** Two stand-ins for the WriteToFile of the transform base: one that
    writes the line of the number of parameters, one that throws. *)
Definition writingBase (param : ParametersType) : elx unit :=
  xout_write "transpar"
    ("(NumberOfParameters " ++ CInt.show (Z.of_nat (length param)) ++ ")").

Definition throwingBase (_ : ParametersType) : elx unit :=
  itkExceptionMacro "ERROR: cannot write the transform parameters".

(** A printer that gives every [double] as "1", and its reader. *)
Definition showOne (_ : Z) (_ : float) : string := "1".

Definition parseOne (token : string) : option float :=
  if String.eqb token "1" then Some 1%float else None.

(** A component whose configuration is the parameter file written from
    [writtenTransform] with this printer. *)
Definition readingOnes : Component :=
  mkComponent (mkTransform (mkRegion [] []) [] [] [] [])
    (mkComputer None false None [] false)
    (mkRegistration 0 1 [] [] None)
    (writtenConfiguration 2 showOne parseOne writtenTransform)
    (mkImage [] [] [] (mkRegion [] [])) false "PeriodicBSplineTransform" [].

(** * Properties *)

(** ** C++ integer conversions on values in range *)

Lemma to_unsigned_int_small (z : Z) :
  0 <= z <= CInt.UINT_MAX -> CInt.to_unsigned_int z = z.
Proof.
  unfold CInt.to_unsigned_int, CInt.UINT_MAX. intros H.
  apply Z.mod_small. lia.
Qed.

Lemma to_unsigned_long_small (z : Z) :
  0 <= z < 2 ^ 64 -> CInt.to_unsigned_long z = z.
Proof.
  unfold CInt.to_unsigned_long. intros H. apply Z.mod_small. lia.
Qed.

Lemma to_int_small (z : Z) :
  - 2 ^ 31 <= z <= CInt.INT_MAX -> CInt.to_int z = z.
Proof.
  unfold CInt.to_int, CInt.INT_MAX. intros H.
  rewrite Z.mod_small by lia. lia.
Qed.

(** ** Arrays *)

Section ArrayFacts.
  Context {A : Type}.
  Implicit Types (a : list A) (v d : A).

Lemma length_set_nth i v a : length (set_nth i v a) = length a.
  Proof.
    revert i. induction a as [|x a IH]; intros [|i]; simpl; auto.
  Qed.

Lemma nth_set_nth_eq i v a d :
    (i < length a)%nat -> nth i (set_nth i v a) d = v.
  Proof.
    revert i. induction a as [|x a IH]; intros [|i]; simpl; intros H;
      try lia; auto. apply IH. lia.
  Qed.

Lemma nth_set_nth_neq i j v a d :
    i <> j -> nth j (set_nth i v a) d = nth j a d.
  Proof.
    revert i j. induction a as [|x a IH]; intros [|i] [|j]; simpl; intros H;
      try congruence; auto.
  Qed.

Lemma length_array_set a z v : length (array_set a z v) = length a.
  Proof.
    unfold array_set. destruct (z <? 0); auto using length_set_nth.
  Qed.

Lemma nth_array_set a z v d k :
    (k < length a)%nat ->
    nth k (array_set a z v) d = if z =? Z.of_nat k then v else nth k a d.
  Proof.
    intros Hk. unfold array_set.
    destruct (Z.ltb_spec z 0) as [Hz|Hz].
    - destruct (Z.eqb_spec z (Z.of_nat k)); auto. lia.
    - destruct (Z.eqb_spec z (Z.of_nat k)) as [->|Hne].
      + rewrite Nat2Z.id. now apply nth_set_nth_eq.
      + apply nth_set_nth_neq. intros E. apply Hne. rewrite <- E. lia.
  Qed.

  (** A run of writes of one value [v]: afterwards a cell holds [v] if it
      was written and its old content otherwise. *)
Lemma length_writes (ps : list Z) v a :
    length (fold_left (fun a p => array_set a p v) ps a) = length a.
  Proof.
    revert a. induction ps as [|p ps IH]; intros a; simpl; auto.
    rewrite IH. apply length_array_set.
  Qed.

Lemma nth_writes (ps : list Z) v a d k :
    (k < length a)%nat ->
    nth k (fold_left (fun a p => array_set a p v) ps a) d =
    if existsb (fun p => p =? Z.of_nat k) ps then v else nth k a d.
  Proof.
    revert a. induction ps as [|p ps IH]; intros a Hk; simpl; auto.
    rewrite IH by (now rewrite length_array_set).
    rewrite nth_array_set by assumption.
    destruct (p =? Z.of_nat k); simpl; auto.
    now destruct (existsb _ ps).
  Qed.

  (** Counting the cells that satisfy a test. *)
  Variable is_v : A -> bool.

Lemma count_set_nth i v a d :
    (i < length a)%nat -> is_v (nth i a d) = false -> is_v v = true ->
    count is_v (set_nth i v a) = S (count is_v a).
  Proof.
    unfold count. revert i.
    induction a as [|x a IH]; intros [|i]; simpl; intros Hi Hx Hv; try lia.
    - rewrite Hx, Hv. reflexivity.
    - destruct (is_v x); simpl; rewrite IH by (auto; lia); reflexivity.
  Qed.

Lemma count_writes (ps : list Z) v a d :
    NoDup ps ->
    (forall p, In p ps -> 0 <= p < Z.of_nat (length a)) ->
    (forall p, In p ps -> is_v (nth (Z.to_nat p) a d) = false) ->
    is_v v = true ->
    count is_v (fold_left (fun a p => array_set a p v) ps a) =
    (count is_v a + length ps)%nat.
  Proof.
    intros Hnd. revert a.
    induction Hnd as [|p ps Hp Hnd IH]; intros a Hin Hold Hv; simpl.
    - lia.
    - assert (Hr : 0 <= p < Z.of_nat (length a)) by (apply Hin; now left).
      rewrite IH; auto.
      + unfold array_set. destruct (Z.ltb_spec p 0); [lia|].
        rewrite (count_set_nth _ _ _ d); auto; try lia.
        apply Hold. now left.
      + intros q Hq. rewrite length_array_set. apply Hin. now right.
      + intros q Hq.
        assert (Hrq : 0 <= q < Z.of_nat (length a)) by (apply Hin; now right).
        rewrite nth_array_set by lia.
        destruct (Z.eqb_spec p (Z.of_nat (Z.to_nat q))) as [E|E].
        * exfalso. apply Hp. rewrite E, Z2Nat.id by lia. exact Hq.
        * apply Hold. now right.
  Qed.

Lemma count_repeat_false v n : is_v v = false -> count is_v (repeat v n) = O.
  Proof.
    intros Hv. unfold count. induction n; simpl; auto. now rewrite Hv.
  Qed.

End ArrayFacts.

(** ** Lists: filters, folds and flattened maps *)

Section ListFacts.
  Context {A B : Type}.

Lemma filter_flat_map (p : B -> bool) (g : A -> list B) (l : list A) :
    filter p (flat_map g l) = flat_map (fun x => filter p (g x)) l.
  Proof.
    induction l as [|x l IH]; simpl; auto.
    now rewrite filter_app, IH.
  Qed.

Lemma map_flat_map {C : Type} (f : B -> C) (g : A -> list B) (l : list A) :
    map f (flat_map g l) = flat_map (fun x => map f (g x)) l.
  Proof.
    induction l as [|x l IH]; simpl; auto.
    now rewrite map_app, IH.
  Qed.

Lemma flat_map_map {C : Type} (f : A -> B) (g : B -> list C) (l : list A) :
    flat_map g (map f l) = flat_map (fun x => g (f x)) l.
  Proof.
    induction l as [|x l IH]; simpl; auto. now rewrite IH.
  Qed.

Lemma length_filter_negb (p : A -> bool) (l : list A) :
    (length (filter (fun x => negb (p x)) l) + length (filter p l)
     = length l)%nat.
  Proof.
    induction l as [|x l IH]; simpl; auto.
    destruct (p x); simpl; lia.
  Qed.

  (** When every block of a flattened map has [c] elements on the members
      that satisfy [q] and none on the others. *)
Lemma length_flat_map_filter (q : A -> bool) (g : A -> list B) (c : nat)
    (l : list A) :
    (forall x, In x l -> length (g x) = if q x then c else O) ->
    length (flat_map g l) = (c * length (filter q l))%nat.
  Proof.
    induction l as [|x l IH]; simpl; intros H; [lia|].
    rewrite length_app, IH, (H x) by auto.
    destruct (q x); simpl; lia.
  Qed.

Lemma fold_left_flat_map (f : B -> A -> B) {C : Type} (g : C -> list A)
    (l : list C) (b : B) :
    fold_left f (flat_map g l) b =
    fold_left (fun b x => fold_left f (g x) b) l b.
  Proof.
    revert b. induction l as [|x l IH]; intros b; simpl; auto.
    now rewrite fold_left_app, IH.
  Qed.

Lemma fold_left_map (f : B -> A -> B) {C : Type} (g : C -> A)
    (l : list C) (b : B) :
    fold_left f (map g l) b = fold_left (fun b x => f b (g x)) l b.
  Proof.
    revert b. induction l as [|x l IH]; intros b; simpl; auto.
  Qed.

Lemma fold_left_ext_in (f g : B -> A -> B) (l : list A) (b : B) :
    (forall b x, In x l -> f b x = g b x) ->
    fold_left f l b = fold_left g l b.
  Proof.
    revert b. induction l as [|x l IH]; intros b H; simpl; auto.
    rewrite H by (now left). apply IH. intros; apply H; now right.
  Qed.

Lemma NoDup_map_injective (f : A -> B) (l : list A) :
    NoDup (map f l) ->
    forall x y, In x l -> In y l -> f x = f y -> x = y.
  Proof.
    induction l as [|a l IH]; simpl; intros Hnd x y Hx Hy E; [tauto|].
    inversion Hnd as [|? ? Hnotin Hnd']; subst.
    destruct Hx as [->|Hx], Hy as [->|Hy]; auto.
    - exfalso. apply Hnotin. rewrite E. now apply in_map.
    - exfalso. apply Hnotin. rewrite <- E. now apply in_map.
  Qed.

Lemma NoDup_flat_map (g : A -> list B) (l : list A) :
    NoDup l ->
    (forall x, In x l -> NoDup (g x)) ->
    (forall x y z, In x l -> In y l -> In z (g x) -> In z (g y) -> x = y) ->
    NoDup (flat_map g l).
  Proof.
    induction 1 as [|a l Ha Hnd IH]; simpl; intros Hg Hdisj; [constructor|].
    apply NoDup_app.
    - apply Hg. now left.
    - apply IH; intros; [apply Hg; now right | eapply Hdisj; eauto].
    - intros z Hz Hz'. apply in_flat_map in Hz' as (y & Hy & Hzy).
      assert (a = y) by (eapply Hdisj; eauto). subst. contradiction.
  Qed.

End ListFacts.

(** [seq] and ranges *)

Lemma map_add_seq (c n : nat) :
  map (fun k => (k + c)%nat) (seq 0 n) = seq c n.
Proof.
  induction n as [|n IH]; [reflexivity|].
  rewrite !seq_S, map_app, IH. simpl. now rewrite Nat.add_comm.
Qed.

Lemma flat_map_blocks (s n a : nat) :
  flat_map (fun m => map (fun k => (k + s * m)%nat) (seq 0 s)) (seq a n)
  = seq (s * a) (s * n).
Proof.
  revert a. induction n as [|n IH]; intros a; simpl.
  - now rewrite Nat.mul_0_r.
  - rewrite IH, map_add_seq.
    replace (s * S n)%nat with (s + s * n)%nat by lia.
    rewrite seq_app. f_equal. f_equal. lia.
Qed.

Lemma count_in_range (lo hi : Z) (n : nat) :
  0 <= lo ->
  length (filter (fun k => (lo <=? Z.of_nat k) && (Z.of_nat k <? hi)) (seq 0 n))
  = Z.to_nat (Z.min hi (Z.of_nat n) - lo).
Proof.
  intros Hlo. induction n as [|n IH].
  - simpl. lia.
  - rewrite seq_S, filter_app, length_app, IH. simpl.
    destruct (Z.leb_spec lo (Z.of_nat n)), (Z.ltb_spec (Z.of_nat n) hi);
      simpl; lia.
Qed.

(** ** The raster walk of a region *)

Lemma In_RegionIndices (index : IndexType) (size : SizeType) (ind : IndexType) :
  length index = length size ->
  In ind (RegionIndices index size) <-> IsInside index size ind = true.
Proof.
  revert size ind.
  induction index as [|b index IH]; intros [|s size] ind Hlen;
    simpl in Hlen; try discriminate.
  - simpl. destruct ind; simpl; split; intros H; auto; try discriminate.
    destruct H as [H|[]]. discriminate.
  - simpl. rewrite in_flat_map. split.
    + intros (rest & Hrest & Hin). apply in_map_iff in Hin as (k & <- & Hk).
      apply in_seq in Hk. apply IH in Hrest; [|lia].
      rewrite Hrest, andb_true_r. apply andb_true_iff.
      split; [apply Z.leb_le | apply Z.ltb_lt]; lia.
    + destruct ind as [|i ind]; [discriminate|].
      intros H. apply andb_true_iff in H as [H Hrest].
      apply andb_true_iff in H as [H1 H2].
      apply Z.leb_le in H1. apply Z.ltb_lt in H2.
      exists ind. split; [apply IH; [lia|assumption]|].
      apply in_map_iff. exists (Z.to_nat (i - b)). split.
      * f_equal. lia.
      * apply in_seq. lia.
Qed.

Lemma GetNumberOfPixels_nonneg (size : SizeType) :
  Forall (fun s => 0 <= s) size -> 0 <= GetNumberOfPixels size.
Proof.
  induction 1; simpl; [lia|]. unfold GetNumberOfPixels in *. nia.
Qed.

(** The walk lists the indices in the order of their offsets: the k-th
    index visited has offset k. *)
Lemma offsets_RegionIndices (index : IndexType) (size : SizeType) :
  length index = length size ->
  Forall (fun s => 0 <= s) size ->
  map (ComputeOffsetFrom index size) (RegionIndices index size)
  = map Z.of_nat (seq 0 (Z.to_nat (GetNumberOfPixels size))).
Proof.
  revert size.
  induction index as [|b index IH]; intros [|s size] Hlen Hpos;
    simpl in Hlen; try discriminate.
  - reflexivity.
  - inversion Hpos as [|? ? Hs Hpos']; subst.
    pose proof (GetNumberOfPixels_nonneg size Hpos') as HN.
    cbn [RegionIndices GetNumberOfPixels fold_right].
    fold (GetNumberOfPixels size).
    rewrite map_flat_map.
    rewrite (flat_map_ext _
      (fun rest =>
         map (fun k => Z.of_nat k + s * ComputeOffsetFrom index size rest)
             (seq 0 (Z.to_nat s)))).
    2:{ intros rest. rewrite map_map. apply map_ext. intros k.
        cbn [ComputeOffsetFrom]. lia. }
    rewrite <- (flat_map_map (ComputeOffsetFrom index size)
                 (fun m => map (fun k => Z.of_nat k + s * m) (seq 0 (Z.to_nat s)))).
    rewrite IH by (auto; lia).
    rewrite flat_map_map.
    rewrite (flat_map_ext _
      (fun m =>
         map Z.of_nat
           (map (fun k => (k + Z.to_nat s * m)%nat) (seq 0 (Z.to_nat s))))).
    2:{ intros m. rewrite map_map. apply map_ext. intros k. lia. }
    rewrite <- map_flat_map, flat_map_blocks.
    f_equal. f_equal; lia.
Qed.

Lemma length_RegionIndices (index : IndexType) (size : SizeType) :
  length index = length size ->
  Forall (fun s => 0 <= s) size ->
  length (RegionIndices index size) = Z.to_nat (GetNumberOfPixels size).
Proof.
  intros Hlen Hpos.
  rewrite <- (length_map (ComputeOffsetFrom index size)),
    offsets_RegionIndices, length_map, length_seq by assumption.
  reflexivity.
Qed.

Lemma NoDup_offsets (index : IndexType) (size : SizeType) :
  length index = length size ->
  Forall (fun s => 0 <= s) size ->
  NoDup (map (ComputeOffsetFrom index size) (RegionIndices index size)).
Proof.
  intros Hlen Hpos. rewrite offsets_RegionIndices by assumption.
  apply NoDup_map_NoDup_ForallPairs; [|apply seq_NoDup].
  intros x y _ _ E. lia.
Qed.

Lemma NoDup_RegionIndices (index : IndexType) (size : SizeType) :
  length index = length size ->
  Forall (fun s => 0 <= s) size ->
  NoDup (RegionIndices index size).
Proof.
  intros Hlen Hpos.
  apply (NoDup_map_inv (ComputeOffsetFrom index size)).
  now apply NoDup_offsets.
Qed.

Lemma ComputeOffset_range (index : IndexType) (size : SizeType)
  (ind : IndexType) :
  length index = length size ->
  Forall (fun s => 0 <= s) size ->
  In ind (RegionIndices index size) ->
  0 <= ComputeOffsetFrom index size ind < GetNumberOfPixels size.
Proof.
  intros Hlen Hpos Hin.
  apply (in_map (ComputeOffsetFrom index size)) in Hin.
  rewrite offsets_RegionIndices in Hin by assumption.
  apply in_map_iff in Hin as (k & <- & Hk). apply in_seq in Hk.
  pose proof (GetNumberOfPixels_nonneg size Hpos). lia.
Qed.

(** Every position below the number of pixels is the offset of an index of
    the region. *)
Lemma ComputeOffset_onto (index : IndexType) (size : SizeType) (k : Z) :
  length index = length size ->
  Forall (fun s => 0 <= s) size ->
  0 <= k < GetNumberOfPixels size ->
  exists ind, In ind (RegionIndices index size) /\
              ComputeOffsetFrom index size ind = k.
Proof.
  intros Hlen Hpos Hk.
  assert (Hin : In k (map (ComputeOffsetFrom index size)
                        (RegionIndices index size))).
  { rewrite offsets_RegionIndices by assumption.
    apply in_map_iff. exists (Z.to_nat k). split; [lia|apply in_seq; lia]. }
  apply in_map_iff in Hin as (ind & E & Hin). eauto.
Qed.

Lemma length_filter_row (b0 s0 b : Z) (iidx : IndexType) (isz : SizeType)
  (rest : IndexType) (l : list nat) :
  length (filter (IsInside (b0 :: iidx) (s0 :: isz))
            (map (fun k => (b + Z.of_nat k) :: rest) l))
  = if IsInside iidx isz rest
    then length (filter (fun k => (b0 <=? b + Z.of_nat k)
                                  && (b + Z.of_nat k <? b0 + s0)) l)
    else O.
Proof.
  induction l as [|k l IH]; cbn [map filter].
  - now destruct (IsInside iidx isz rest).
  - change (IsInside (b0 :: iidx) (s0 :: isz) ((b + Z.of_nat k) :: rest))
      with ((b0 <=? b + Z.of_nat k) && (b + Z.of_nat k <? b0 + s0)
            && IsInside iidx isz rest).
    destruct (IsInside iidx isz rest).
    + rewrite andb_true_r.
      destruct ((b0 <=? b + Z.of_nat k) && (b + Z.of_nat k <? b0 + s0));
        cbn [length]; now rewrite IH.
    + now rewrite andb_false_r.
Qed.

(** The number of indices of the region that lie in the region shrunk by
    [w] on each side of every axis. *)
Lemma count_inside_inset (index : IndexType) (size : SizeType) (w : Z) :
  length index = length size ->
  0 <= w ->
  Forall (fun s => 0 <= s - 2 * w) size ->
  length (filter (IsInside (map (fun b => b + w) index)
                           (map (fun s => s - 2 * w) size))
                 (RegionIndices index size))
  = Z.to_nat (GetNumberOfPixels (map (fun s => s - 2 * w) size)).
Proof.
  intros Hlen Hw. revert size Hlen.
  induction index as [|b index IH]; intros [|s size] Hlen Hpos;
    simpl in Hlen; try discriminate.
  - reflexivity.
  - inversion Hpos as [|? ? Hs Hpos']; subst.
    cbn [RegionIndices map GetNumberOfPixels fold_right].
    fold (GetNumberOfPixels (map (fun s => s - 2 * w) size)).
    rewrite filter_flat_map.
    rewrite (length_flat_map_filter
               (IsInside (map (fun b => b + w) index)
                         (map (fun s => s - 2 * w) size))
               _ (Z.to_nat (s - 2 * w))).
    + rewrite IH by (auto; lia).
      assert (0 <= GetNumberOfPixels (map (fun s => s - 2 * w) size)).
      { apply GetNumberOfPixels_nonneg. apply Forall_map.
        eapply Forall_impl; [|exact Hpos']. cbv beta. lia. }
      nia.
    + intros rest _. rewrite length_filter_row.
      destruct (IsInside _ _ rest); [|reflexivity].
      rewrite (filter_ext _
                 (fun k => (w <=? Z.of_nat k) && (Z.of_nat k <? s - w))).
      * rewrite count_in_range by lia. lia.
      * intros k.
        destruct (Z.leb_spec w (Z.of_nat k)),
                 (Z.leb_spec (b + w) (b + Z.of_nat k)); try lia;
        destruct (Z.ltb_spec (Z.of_nat k) (s - w)),
                 (Z.ltb_spec (b + Z.of_nat k) (b + w + (s - 2 * w)));
          try lia; reflexivity.
Qed.

(** ** The inset region *)

(** The inset size of one axis when nothing wraps: the edge width doubled
    fits an [unsigned int] and the difference fits an [int]. *)
Lemma inset_size_exact (size w : Z) :
  0 <= 2 * w <= CInt.UINT_MAX ->
  0 <= size < 2 ^ 64 ->
  - 2 ^ 31 <= size - 2 * w <= CInt.INT_MAX ->
  CInt.to_unsigned_int
    (Z.max 0
       (CInt.to_int
          (CInt.to_unsigned_long (size - CInt.to_unsigned_int (2 * w)))))
  = Z.max 0 (size - 2 * w).
Proof.
  intros Hw Hs Hd.
  rewrite (to_unsigned_int_small (2 * w)) by assumption.
  assert (E : CInt.to_int (CInt.to_unsigned_long (size - 2 * w))
              = size - 2 * w).
  { unfold CInt.to_int, CInt.to_unsigned_long, CInt.INT_MAX in *.
    destruct (Z.le_gt_cases 0 (size - 2 * w)).
    - rewrite (Z.mod_small (size - 2 * w)) by lia.
      rewrite Z.mod_small by lia. lia.
    - replace ((size - 2 * w) mod 2 ^ 64) with (size - 2 * w + 2 ^ 64).
      + replace (size - 2 * w + 2 ^ 64 + 2 ^ 31)
          with (size - 2 * w + 2 ^ 31 + 2 ^ 32 * 2 ^ 32) by lia.
        rewrite Z.mul_comm, Z_mod_plus_full, Z.mod_small by lia. lia.
      + apply Z.mod_unique with (q := -1); lia. }
  rewrite E. apply to_unsigned_int_small.
  unfold CInt.UINT_MAX, CInt.INT_MAX in *. lia.
Qed.

Section InsetLoop.
  Variables (edgeWidth : Z) (gridsize : SizeType) (gridindex : IndexType).
  Variable D : nat.

  (** The loop from axis [i] on, when every remaining axis keeps a positive
      inset size: it ends normally, leaves the component as it is, and has
      assigned both arrays on the axes it ran over. *)
Lemma inset_loop_returns (n i : nat) (isz : SizeType) (iidx : IndexType)
    (this : Component) :
    (i + n = D)%nat -> length isz = D -> length iidx = D ->
    0 <= 2 * edgeWidth <= CInt.UINT_MAX ->
    (forall j, (i <= j < D)%nat ->
               0 < nth j gridsize 0 - 2 * edgeWidth <= CInt.INT_MAX) ->
    exists isz' iidx',
      for_ i n (insetBody edgeWidth gridsize gridindex) (isz, iidx) this = (Returned (isz', iidx'), this)
      /\ length isz' = D /\ length iidx' = D
      /\ (forall j, (j < D)%nat ->
            nth j isz' 0 = (if (j <? i)%nat then nth j isz 0
                            else nth j gridsize 0 - 2 * edgeWidth)
            /\ nth j iidx' 0 = (if (j <? i)%nat then nth j iidx 0
                                else nth j gridindex 0 + edgeWidth)).
  Proof.
    revert i isz iidx.
    induction n as [|n IH]; intros i isz iidx Hin Hsz Hidx Hw Hgood.
    - exists isz, iidx. repeat split; auto;
        destruct (Nat.ltb_spec j i); auto; lia.
    - cbn [for_]. unfold bind.
      assert (Hi : 0 < nth i gridsize 0 - 2 * edgeWidth <= CInt.INT_MAX)
        by (apply Hgood; lia).
      assert (Hv : CInt.to_unsigned_int
                (Z.max 0 (CInt.to_int (CInt.to_unsigned_long
                   (nth i gridsize 0 - CInt.to_unsigned_int (2 * edgeWidth)))))
              = nth i gridsize 0 - 2 * edgeWidth).
      { rewrite inset_size_exact; unfold CInt.INT_MAX, CInt.UINT_MAX in *;
          lia. }
      unfold insetBody at 1. cbn [fst snd]. rewrite Hv.
      rewrite nth_set_nth_eq by lia.
      destruct (Z.eqb_spec (nth i gridsize 0 - 2 * edgeWidth) 0); [lia|].
      unfold ret at 1.
      destruct (IH (S i)
                  (set_nth i (nth i gridsize 0 - 2 * edgeWidth) isz)
                  (set_nth i (nth i gridindex 0 + edgeWidth) iidx))
        as (isz' & iidx' & Hrun & Hl1 & Hl2 & Hnth);
        try (rewrite length_set_nth); auto; try lia.
      { intros j Hj. apply Hgood. lia. }
      exists isz', iidx'. repeat split; auto;
        destruct (Hnth j H) as [H1 H2];
        destruct (Nat.ltb_spec j (S i)), (Nat.ltb_spec j i); try lia;
        rewrite ?H1, ?H2;
        first [ apply nth_set_nth_neq; lia
              | assert (j = i) by lia; subst j; apply nth_set_nth_eq; lia ].
  Qed.

  (** The loop from axis [i] on, when [d] is the first remaining axis whose
      inset size is not positive: the error line names the edge width, the
      axis and its grid size, and the exception is thrown. *)
Lemma inset_loop_throws (n i d : nat) (isz : SizeType) (iidx : IndexType)
    (this : Component) :
    (i + n = D)%nat -> length isz = D -> length iidx = D ->
    0 <= 2 * edgeWidth <= CInt.UINT_MAX ->
    (i <= d < D)%nat ->
    (forall j, (i <= j < d)%nat ->
               0 < nth j gridsize 0 - 2 * edgeWidth <= CInt.INT_MAX) ->
    0 <= nth d gridsize 0 < 2 ^ 64 ->
    - 2 ^ 31 <= nth d gridsize 0 - 2 * edgeWidth <= 0 ->
    for_ i n (insetBody edgeWidth gridsize gridindex) (isz, iidx) this
    = (Thrown "ERROR: the PassiveEdgeWidth is too large!",
       snd (xout_write "error"
              (PassiveEdgeWidthError edgeWidth d (nth d gridsize 0)) this)).
  Proof.
    revert i isz iidx.
    induction n as [|n IH]; intros i isz iidx Hin Hsz Hidx Hw Hd Hgood Hs Hbad.
    - lia.
    - cbn [for_]. unfold bind.
      destruct (Nat.eq_dec i d) as [->|Hne].
      + unfold insetBody at 1. cbn [fst snd].
        rewrite inset_size_exact by (unfold CInt.INT_MAX; lia).
        rewrite nth_set_nth_eq by lia.
        rewrite Z.max_l by lia. cbn [Z.eqb].
        unfold bind, xout_write, itkExceptionMacro. reflexivity.
      + assert (Hi : 0 < nth i gridsize 0 - 2 * edgeWidth <= CInt.INT_MAX)
          by (apply Hgood; lia).
        unfold insetBody at 1. cbn [fst snd].
        rewrite inset_size_exact
          by (unfold CInt.INT_MAX, CInt.UINT_MAX in *; lia).
        rewrite nth_set_nth_eq by lia.
        rewrite Z.max_r by lia.
        destruct (Z.eqb_spec (nth i gridsize 0 - 2 * edgeWidth) 0); [lia|].
        unfold ret at 1.
        apply IH; try (rewrite length_set_nth); auto; try lia.
        intros j Hj. apply Hgood. lia.
  Qed.

End InsetLoop.

(** ** Membership in a region, axis by axis *)

Lemma IsInside_length (index : IndexType) (size : SizeType) (ind : IndexType) :
  IsInside index size ind = true ->
  length ind = length index /\ length size = length index.
Proof.
  revert size ind.
  induction index as [|b index IH]; intros [|s size] [|i ind]; simpl;
    try discriminate; auto.
  intros H. apply andb_true_iff in H as [_ H].
  destruct (IH _ _ H). split; congruence.
Qed.

Lemma IsInside_false_iff (index : IndexType) (size : SizeType)
  (ind : IndexType) :
  length size = length index -> length ind = length index ->
  IsInside index size ind = false <->
  exists d, (d < length index)%nat /\
            ~ (nth d index 0 <= nth d ind 0 < nth d index 0 + nth d size 0).
Proof.
  revert size ind.
  induction index as [|b index IH]; intros [|s size] [|i ind] Hs Hi;
    simpl in Hs, Hi; try discriminate.
  - simpl. split; [discriminate|]. intros (d & Hd & _). lia.
  - cbn [IsInside length]. rewrite andb_false_iff, andb_false_iff.
    rewrite IH by lia. split.
    + intros [[H|H]|(d & Hd & H)].
      * exists O. cbn [nth]. apply Z.leb_gt in H. split; lia.
      * exists O. cbn [nth]. apply Z.ltb_ge in H. split; lia.
      * exists (S d). cbn [nth]. split; [lia|exact H].
    + intros ([|d] & Hd & H); cbn [nth] in H.
      * left. destruct (Z.leb_spec b i); [|now left].
        right. apply Z.ltb_ge. lia.
      * right. exists d. split; [lia|exact H].
Qed.

Lemma nth_map_in {X Y : Type} (f : X -> Y) (l : list X) (d : nat) (x : X)
  (y : Y) :
  (d < length l)%nat -> nth d (map f l) y = f (nth d l x).
Proof.
  intros H. rewrite (nth_indep _ y (f x)) by (now rewrite length_map).
  apply map_nth.
Qed.

Lemma GetNumberOfPixels_pos (size : SizeType) :
  Forall (fun s => 1 <= s) size -> 1 <= GetNumberOfPixels size.
Proof.
  unfold GetNumberOfPixels. induction 1; simpl; nia.
Qed.

Lemma size_le_GetNumberOfPixels (size : SizeType) (s : Z) :
  Forall (fun s => 1 <= s) size -> In s size ->
  s <= GetNumberOfPixels size.
Proof.
  induction 1 as [|x size Hx Hall IH]; simpl; intros Hin; [tauto|].
  pose proof (GetNumberOfPixels_pos size Hall) as Hone.
  unfold GetNumberOfPixels in *. simpl.
  destruct Hin as [->|Hin]; [nia|].
  specialize (IH Hin). nia.
Qed.

(** ** The writes of the while loop *)

Lemma freezeIndex_writes (D : nat) (region : RegionType) (offset : Z)
  (newScales : ScalesType) (ind : IndexType) :
  0 <= ComputeOffset region ind < offset ->
  Z.of_nat D * offset <= CInt.UINT_MAX ->
  freezeIndex D region offset newScales ind
  = fold_left (fun a p => array_set a p infScale)
      (map (fun i => ComputeOffset region ind + Z.of_nat i * offset) (seq 0 D))
      newScales.
Proof.
  intros Hoff Hmax. unfold freezeIndex. rewrite fold_left_map.
  apply fold_left_ext_in. intros a i Hi. apply in_seq in Hi.
  unfold CInt.UINT_MAX in Hmax.
  assert (0 <= ComputeOffset region ind + Z.of_nat i * offset
          < Z.of_nat D * offset) by nia.
  assert (offset <= Z.of_nat D * offset) by nia.
  rewrite (to_unsigned_long_small (ComputeOffset region ind)) by lia.
  rewrite to_unsigned_long_small by lia.
  rewrite to_unsigned_int_small by (unfold CInt.UINT_MAX; lia).
  reflexivity.
Qed.

Section Walk.
Variables (D : nat) (index : IndexType) (size : SizeType).
Variable inset : RegionType.
Hypothesis Hlen : length index = length size.
Hypothesis Hsize : Forall (fun s => 1 <= s) size.
Hypothesis Hmax : Z.of_nat D * GetNumberOfPixels size <= CInt.UINT_MAX.

Lemma size_nonneg : Forall (fun s => 0 <= s) size.
Proof.
  clear - Hsize. eapply Forall_impl; [|exact Hsize]. cbv beta. intros; lia.
Qed.

Lemma walk_in_region (ind : IndexType) :
  In ind (ExclusionWalk (mkRegion index size) inset) ->
  In ind (RegionIndices index size)
  /\ IsInside (GetIndex inset) (GetSize inset) ind = false.
Proof.
  unfold ExclusionWalk. rewrite filter_In. cbn [GetIndex GetSize].
  intros [H1 H2]. split; auto. now apply negb_true_iff.
Qed.

Lemma while_loop_writes (newScales : ScalesType) :
  fold_left (freezeIndex D (mkRegion index size) (GetNumberOfPixels size)) (ExclusionWalk (mkRegion index size) inset) newScales
  = fold_left (fun a p => array_set a p infScale)
      (frozenPositions D (mkRegion index size) inset (GetNumberOfPixels size)) newScales.
Proof.
  unfold frozenPositions. rewrite fold_left_flat_map.
  apply fold_left_ext_in. intros a ind Hin.
  apply walk_in_region in Hin as [Hin _].
  apply freezeIndex_writes; auto.
  apply (ComputeOffset_range index size ind Hlen size_nonneg Hin).
Qed.

Lemma In_frozenPositions (p : Z) :
  In p (frozenPositions D (mkRegion index size) inset (GetNumberOfPixels size)) <->
  exists ind i, In ind (RegionIndices index size)
                /\ IsInside (GetIndex inset) (GetSize inset) ind = false
                /\ (i < D)%nat
                /\ p = ComputeOffset (mkRegion index size) ind + Z.of_nat i * (GetNumberOfPixels size).
Proof.
  unfold frozenPositions. rewrite in_flat_map. split.
  - intros (ind & Hin & Hp). apply in_map_iff in Hp as (i & <- & Hi).
    apply in_seq in Hi. apply walk_in_region in Hin as [H1 H2].
    exists ind, i. repeat split; auto. lia.
  - intros (ind & i & H1 & H2 & Hi & ->). exists ind. split.
    + unfold ExclusionWalk. apply filter_In. cbn [GetIndex GetSize].
      split; auto. now apply negb_true_iff.
    + apply in_map_iff. exists i. split; auto. apply in_seq. lia.
Qed.

(** A position determines its control point and its block. *)
Lemma position_unique (ind ind' : IndexType) (i i' : nat) :
  In ind (RegionIndices index size) -> In ind' (RegionIndices index size) ->
  ComputeOffset (mkRegion index size) ind + Z.of_nat i * (GetNumberOfPixels size)
  = ComputeOffset (mkRegion index size) ind' + Z.of_nat i' * (GetNumberOfPixels size) ->
  ind = ind' /\ i = i'.
Proof using Hlen Hsize.
  clear Hmax. intros H1 H2 E.
  pose proof (ComputeOffset_range index size ind Hlen size_nonneg H1) as R1.
  pose proof (ComputeOffset_range index size ind' Hlen size_nonneg H2) as R2.
  unfold ComputeOffset in E. cbn [GetIndex GetSize] in E.
  assert (Hi : i = i') by nia. subst i'. split; auto.
  apply (NoDup_map_injective (ComputeOffsetFrom index size)
           (RegionIndices index size)); auto.
  - apply NoDup_offsets; auto using size_nonneg.
  - lia.
Qed.

Lemma frozenPositions_range (p : Z) :
  In p (frozenPositions D (mkRegion index size) inset (GetNumberOfPixels size)) -> 0 <= p < Z.of_nat D * (GetNumberOfPixels size).
Proof.
  intros H. apply In_frozenPositions in H as (ind & i & H1 & _ & Hi & ->).
  pose proof (ComputeOffset_range index size ind Hlen size_nonneg H1) as R1.
  unfold ComputeOffset. cbn [GetIndex GetSize]. nia.
Qed.

Lemma NoDup_frozenPositions : NoDup (frozenPositions D (mkRegion index size) inset (GetNumberOfPixels size)).
Proof.
  unfold frozenPositions. apply NoDup_flat_map.
  - unfold ExclusionWalk. apply NoDup_filter.
    apply NoDup_RegionIndices; auto using size_nonneg.
  - intros ind Hin. apply walk_in_region in Hin as [Hin _].
    apply NoDup_map_NoDup_ForallPairs; [|apply seq_NoDup].
    intros i i' _ _ E.
    now destruct (position_unique ind ind i i' Hin Hin E).
  - intros ind ind' p H1 H2 Hp Hp'.
    apply walk_in_region in H1 as [H1 _]. apply walk_in_region in H2 as [H2 _].
    apply in_map_iff in Hp as (i & <- & _).
    apply in_map_iff in Hp' as (i' & E & _).
    now destruct (position_unique ind' ind i' i H2 H1 E).
Qed.

Lemma length_frozenPositions :
  length (frozenPositions D (mkRegion index size) inset (GetNumberOfPixels size))
  = (D * length (ExclusionWalk (mkRegion index size) inset))%nat.
Proof.
  unfold frozenPositions.
  induction (ExclusionWalk (mkRegion index size) inset) as [|ind l IH]; simpl; [lia|].
  rewrite length_app, length_map, length_seq, IH. lia.
Qed.

End Walk.

Lemma DetermineInsetRegion_returns (D : nat) (edgeWidth : Z)
  (gridregion : RegionType) (this : Component) :
  length (GetIndex gridregion) = D -> length (GetSize gridregion) = D ->
  0 <= 2 * edgeWidth <= CInt.UINT_MAX ->
  (forall j, (j < D)%nat ->
     0 < nth j (GetSize gridregion) 0 - 2 * edgeWidth <= CInt.INT_MAX) ->
  DetermineInsetRegion D edgeWidth gridregion this
  = (Returned (mkRegion (map (fun b => b + edgeWidth) (GetIndex gridregion))
                        (map (fun s => s - 2 * edgeWidth) (GetSize gridregion))),
     this).
Proof.
  intros Hidx Hsz Hw Hgood. unfold DetermineInsetRegion, bind.
  destruct (inset_loop_returns edgeWidth (GetSize gridregion)
              (GetIndex gridregion) D D 0 (repeat 0 D) (repeat 0 D) this)
    as (isz & iidx & Hrun & Hl1 & Hl2 & Hnth);
    auto using repeat_length.
  { intros j Hj. apply Hgood. lia. }
  match goal with
  | |- context [for_ ?a ?b ?c ?d ?e] =>
      replace (for_ a b c d e) with (Returned (isz, iidx), this)
        by (symmetry; exact Hrun)
  end.
  unfold ret. cbn [fst snd]. f_equal. f_equal. f_equal.
  - apply (nth_ext _ _ 0 0); [now rewrite length_map, Hl2, Hidx|].
    intros j Hj. rewrite (nth_map_in _ _ _ 0) by lia.
    now destruct (Hnth j ltac:(lia)) as [_ ->].
  - apply (nth_ext _ _ 0 0); [now rewrite length_map, Hl1, Hsz|].
    intros j Hj. rewrite (nth_map_in _ _ _ 0) by lia.
    now destruct (Hnth j ltac:(lia)) as [-> _].
Qed.

(** ** The scales of the passive edge *)

Lemma infScale_not_One : infScale <> One.
Proof.
  intros E.
  assert (H : PrimFloat.eqb infScale One = PrimFloat.eqb infScale infScale)
    by (now rewrite E).
  vm_compute in H. discriminate.
Qed.

(** The passive edge within the range of the casts of SetOptimizerScales:
    on a grid with at most 2^32 - 1 parameters, every passiveEdgeWidth
    w > 0 whose inset size size[d] - 2w is positive and fits an [int] on
    every axis makes SetOptimizerScales return with a scales vector of
    length numberOfParameters set into the optimizer, whose entry for a
    control point in a block is the sentinel exactly when the point's
    multi-index lies outside the inset region on at least one axis and 1.0
    otherwise, with (prod size - prod (size - 2w)) * D sentinel entries. *)
Theorem SetOptimizerScales_passive_edge (D : nat) (w : Z) (this : Component) :
  (0 < D)%nat ->
  length (GetIndex (GetGridRegion this)) = D ->
  length (GetSize (GetGridRegion this)) = D ->
  0 < w ->
  (forall d, (d < D)%nat -> nth d (GetSize (GetGridRegion this)) 0 - 2 * w > 0) ->
  (forall d, (d < D)%nat ->
     nth d (GetSize (GetGridRegion this)) 0 - 2 * w <= CInt.INT_MAX) ->
  Z.of_nat D * GetNumberOfPixels (GetSize (GetGridRegion this)) <= CInt.UINT_MAX ->
  PassiveEdgeScales D w this.
Proof.
  intros HD Hidx Hsz Hw Hpos Hint Hmax.
  unfold PassiveEdgeScales. cbv zeta.
  destruct (GetGridRegion this) as [index size] eqn:Hregion.
  cbn [GetIndex GetSize] in *.
  set (N := GetNumberOfPixels size) in *.
  assert (Hsize1 : Forall (fun s => 1 <= s) size).
  { apply Forall_nth. intros i d Hi. rewrite (nth_indep _ d 0) by lia.
    specialize (Hpos i ltac:(lia)). lia. }
  assert (HN : 1 <= N) by (now apply GetNumberOfPixels_pos).
  assert (Hle : forall j, (j < D)%nat -> nth j size 0 <= N).
  { intros j Hj. apply size_le_GetNumberOfPixels; auto.
    apply nth_In. lia. }
  assert (HDN : N <= Z.of_nat D * N) by nia.
  unfold CInt.UINT_MAX in Hmax.
  replace (Z.of_nat D * N / Z.of_nat D) with N
    by (rewrite Z.mul_comm, Z.div_mul; lia).
  set (inset := mkRegion (map (fun b => b + w) index)
                         (map (fun s => s - 2 * w) size)).
  set (ps := frozenPositions D (mkRegion index size) inset N).
  set (newScales := fold_left (fun a p => array_set a p infScale) ps
                      (Fill (Z.of_nat D * N) One)).
  assert (Hlen : length index = length size) by congruence.
  assert (HUmax : Z.of_nat D * N <= CInt.UINT_MAX)
    by (unfold CInt.UINT_MAX; lia).
  assert (Hlength : length newScales = Z.to_nat (Z.of_nat D * N)).
  { unfold newScales, Fill. now rewrite length_writes, repeat_length. }
  assert (Hinset0 : Forall (fun s => 0 <= s - 2 * w) size).
  { apply Forall_nth. intros i d Hi. rewrite (nth_indep _ d 0) by lia.
    specialize (Hpos i ltac:(lia)). lia. }
  (* the entry of a control point of the grid *)
  assert (Hentry : forall ind i,
            In ind (RegionIndices index size) -> (i < D)%nat ->
            0 <= ComputeOffset (mkRegion index size) ind + Z.of_nat i * N
              < Z.of_nat D * N
            /\ nth_error newScales
                 (Z.to_nat (ComputeOffset (mkRegion index size) ind
                            + Z.of_nat i * N))
               = Some (if IsInside (GetIndex inset) (GetSize inset) ind
                       then One else infScale)).
  { intros ind i Hin Hi.
    pose proof (ComputeOffset_range index size ind Hlen
                  (size_nonneg size Hsize1) Hin) as Hoff.
    fold N in Hoff. change (ComputeOffsetFrom index size ind)
      with (ComputeOffset (mkRegion index size) ind) in Hoff.
    set (p := ComputeOffset (mkRegion index size) ind + Z.of_nat i * N).
    assert (Hp : 0 <= p < Z.of_nat D * N) by (unfold p; nia).
    split; [exact Hp|].
    rewrite (nth_error_nth' _ One) by lia.
    unfold newScales. rewrite nth_writes
      by (unfold Fill; rewrite repeat_length; lia).
    rewrite Z2Nat.id by lia. unfold Fill. rewrite nth_repeat.
    f_equal.
    destruct (IsInside (GetIndex inset) (GetSize inset) ind) eqn:Ein.
    - destruct (existsb (fun q => q =? p) ps) eqn:Eex; [|reflexivity].
      exfalso. apply existsb_exists in Eex as (q & Hq & Eq).
      apply Z.eqb_eq in Eq. subst q.
      apply In_frozenPositions in Hq
        as (ind' & i' & Hin' & Hout' & Hi' & Ep); [|exact Hlen].
      destruct (position_unique index size Hlen Hsize1 ind ind' i i'
                  Hin Hin' Ep) as [-> _].
      congruence.
    - replace (existsb (fun q => q =? p) ps) with true; [reflexivity|].
      symmetry. apply existsb_exists. exists p. split; [|apply Z.eqb_refl].
      apply In_frozenPositions; [exact Hlen|].
      exists ind, i. auto. }
  (* inside the inset region, axis by axis *)
  assert (Houtside : forall ind,
            IsInside index size ind = true ->
            IsInside (GetIndex inset) (GetSize inset) ind = false
            <-> OutsideInset (mkRegion index size) w ind).
  { intros ind Hind. destruct (IsInside_length _ _ _ Hind) as [Hli _].
    unfold inset, OutsideInset. cbn [GetIndex GetSize].
    rewrite IsInside_false_iff by (rewrite !length_map; lia).
    rewrite length_map.
    split; intros (d & Hd & H); exists d; (split; [lia|]);
      rewrite (nth_map_in _ _ _ 0), (nth_map_in _ _ _ 0) in * by lia; lia. }
  exists newScales.
  split; [|split; [|split; [|split]]].
  - (* the run of the member function *)
    unfold SetOptimizerScales, bind, get. cbv zeta.
    unfold GetNumberOfParameters.
    pose proof Hregion as Hregion'. unfold GetGridRegion in Hregion'.
    rewrite Hregion, Hregion'. cbn [GetSize]. fold N.
    rewrite to_unsigned_long_small by lia.
    replace (Z.of_nat D * N / Z.of_nat D) with N
      by (rewrite Z.mul_comm, Z.div_mul; lia).
    destruct (Z.eqb_spec w 0); [lia|].
    rewrite DetermineInsetRegion_returns; cbn [GetIndex GetSize]; auto.
    + fold inset. unfold N.
      rewrite (while_loop_writes D index size inset Hlen Hsize1 HUmax).
      reflexivity.
    + specialize (Hpos O HD). specialize (Hle O HD).
      unfold CInt.UINT_MAX. lia.
    + intros j Hj. specialize (Hpos j Hj). specialize (Hint j Hj). lia.
  - rewrite Hlength. lia.
  - intros ind i Hind Hi.
    apply In_RegionIndices in Hind as Hin; [|exact Hlen].
    destruct (Hentry ind i Hin Hi) as [Hp Hnth].
    split; [exact Hp|]. rewrite Hnth, <- (Houtside ind Hind).
    destruct (IsInside (GetIndex inset) (GetSize inset) ind); split;
      split; intros H; try discriminate; try reflexivity;
      try (exfalso; now apply H);
      injection H as H; exfalso; apply infScale_not_One; congruence.
  - intros k Hk.
    destruct (ComputeOffset_onto index size (k mod N) Hlen
                (size_nonneg size Hsize1)) as (ind & Hin & Hoff).
    { apply Z.mod_pos_bound. lia. }
    exists ind, (Z.to_nat (k / N)).
    assert (0 <= k / N < Z.of_nat D).
    { split; [apply Z.div_pos; lia|].
      apply Z.div_lt_upper_bound; lia. }
    split; [now apply In_RegionIndices|]. split; [lia|].
    unfold ComputeOffset. cbn [GetIndex GetSize]. rewrite Hoff.
    rewrite Z2Nat.id by lia.
    rewrite (Z.div_mod k N) at 1 by lia. lia.
  - unfold newScales.
    rewrite (count_writes isSentinel ps infScale _ One).
    + unfold Fill. rewrite count_repeat_false by reflexivity.
      unfold ps. rewrite length_frozenPositions by exact Hlen.
      pose proof (length_filter_negb
                    (IsInside (GetIndex inset) (GetSize inset))
                    (RegionIndices index size)) as Hsplit.
      unfold inset in Hsplit at 3 4. cbn [GetIndex GetSize] in Hsplit.
      rewrite count_inside_inset in Hsplit by (auto; lia).
      rewrite length_RegionIndices in Hsplit
        by (auto using size_nonneg).
      fold N in Hsplit.
      assert (0 <= GetNumberOfPixels (map (fun s => s - 2 * w) size)).
      { apply GetNumberOfPixels_nonneg. now apply Forall_map. }
      unfold ExclusionWalk. cbn [GetIndex GetSize].
      cbn [GetIndex GetSize] in Hsplit. nia.
    + apply NoDup_frozenPositions; auto.
    + intros p Hp. unfold Fill. rewrite repeat_length.
      apply (frozenPositions_range D index size inset Hlen Hsize1) in Hp.
      fold N in Hp. lia.
    + intros p _. unfold Fill. now rewrite nth_repeat.
    + reflexivity.
Qed.

Lemma SetOptimizerScales_passive_edge_witness : PassiveEdgeScales 3 2 grid10.
Proof.
  apply SetOptimizerScales_passive_edge.
  - lia.
  - reflexivity.
  - reflexivity.
  - lia.
  - intros [|[|[|d]]] Hd; simpl; lia.
  - intros [|[|[|d]]] Hd; simpl; unfold CInt.INT_MAX; lia.
  - vm_compute. discriminate.
Defined.

Lemma SetOptimizerScales_throws (D : nat) (w : Z) (this this' : Component)
  (what : string) :
  w <> 0 ->
  DetermineInsetRegion D w (GetGridRegion this) this = (Thrown what, this') ->
  SetOptimizerScales D w this = (Thrown what, this').
Proof.
  intros Hw Hrun. unfold SetOptimizerScales, bind, get. cbv zeta.
  destruct (Z.eqb_spec w 0); [contradiction|]. now rewrite Hrun.
Qed.

(** C1 on a large grid: with 2^31 + 2 control points along the first axis
    and edge width 1 the inset size size[d] - 2w is positive on both axes,
    2^31 and 1. The inset size of axis 0 goes through static_cast<int>,
    becomes negative and is clamped to 0, so that SetOptimizerScales
    reports a PassiveEdgeWidth of 1 as too large for a grid size of
    2147483650 and throws instead of producing the scales of the passive
    edge. *)
Lemma SetOptimizerScales_passive_edge_large_grid :
  (0 < 2)%nat
  /\ length (GetIndex (GetGridRegion largeGrid)) = 2%nat
  /\ length (GetSize (GetGridRegion largeGrid)) = 2%nat
  /\ 0 < 1
  /\ (forall d, (d < 2)%nat ->
        nth d (GetSize (GetGridRegion largeGrid)) 0 - 2 * 1 > 0)
  /\ SetOptimizerScales 2 1 largeGrid
     = (Thrown "ERROR: the PassiveEdgeWidth is too large!",
        snd (xout_write "error"
               (PassiveEdgeWidthError 1 0 2147483650) largeGrid))
  /\ ~ PassiveEdgeScales 2 1 largeGrid.
Proof.
  assert (Hrun : SetOptimizerScales 2 1 largeGrid
     = (Thrown "ERROR: the PassiveEdgeWidth is too large!",
        snd (xout_write "error"
               (PassiveEdgeWidthError 1 0 2147483650) largeGrid))).
  { apply SetOptimizerScales_throws; [lia|]. vm_compute. reflexivity. }
  repeat split; try lia; try exact Hrun.
  - intros [|[|d]] Hd; simpl; lia.
  - intros (newScales & Hset & _). rewrite Hrun in Hset.
    unfold SetScales in Hset. discriminate.
Qed.

(** ** The outcomes of SetOptimizerScales *)

Lemma Forall_set_nth {A : Type} (P : A -> Prop) (i : nat) (v : A)
  (a : list A) :
  Forall P a -> P v -> Forall P (set_nth i v a).
Proof.
  intros Ha Hv. revert i.
  induction Ha as [|x a Hx Ha IH]; intros [|i]; simpl; auto.
Qed.

Lemma freezeIndex_keeps (D : nat) (coeff : RegionType) (offset : Z)
  (newScales : ScalesType) (index : IndexType) :
  Forall unitOrSentinel newScales ->
  Forall unitOrSentinel (freezeIndex D coeff offset newScales index)
  /\ length (freezeIndex D coeff offset newScales index) = length newScales.
Proof.
  unfold freezeIndex. generalize (seq 0 D) as l. intros l. revert newScales.
  induction l as [|i l IH]; intros a Ha; simpl; auto.
  destruct (IH (array_set a
              (CInt.to_unsigned_int
                 (CInt.to_unsigned_long
                    (CInt.to_unsigned_long (ComputeOffset coeff index)
                     + Z.of_nat i * offset))) infScale)) as [H1 H2].
  - unfold array_set. destruct (_ <? 0); auto.
    apply Forall_set_nth; auto. now right.
  - split; auto. now rewrite H2, length_array_set.
Qed.

Lemma while_loop_keeps (D : nat) (coeff : RegionType) (offset : Z)
  (walk : list IndexType) (newScales : ScalesType) :
  Forall unitOrSentinel newScales ->
  Forall unitOrSentinel (fold_left (freezeIndex D coeff offset) walk newScales)
  /\ length (fold_left (freezeIndex D coeff offset) walk newScales)
     = length newScales.
Proof.
  revert newScales. induction walk as [|ind walk IH]; intros a Ha; simpl; auto.
  destruct (freezeIndex_keeps D coeff offset a ind Ha) as [H1 H2].
  destruct (IH _ H1) as [H3 H4]. split; auto. congruence.
Qed.

Lemma Forall_Fill_One (n : Z) : Forall (fun x => x = One) (Fill n One).
Proof. unfold Fill. apply Forall_forall. intros x Hx. now apply repeat_spec in Hx. Qed.

(** The loop that determines the inset region either ends normally and
    leaves the component as it is, or writes one error line, for an axis it
    ran over, and throws. *)
Lemma inset_loop_outcome (edgeWidth : Z) (gridsize : SizeType)
  (gridindex : IndexType) (n i : nat) (s : SizeType * IndexType)
  (this : Component) :
  match for_ i n (insetBody edgeWidth gridsize gridindex) s this with
  | (Returned _, this') => this' = this
  | (Thrown what, this') =>
      what = "ERROR: the PassiveEdgeWidth is too large!"%string
      /\ exists d, (i <= d < i + n)%nat
           /\ this' = snd (xout_write "error"
                             (PassiveEdgeWidthError edgeWidth d
                                (nth d gridsize 0)) this)
  end.
Proof.
  revert i s. induction n as [|n IH]; intros i s; cbn [for_].
  - reflexivity.
  - unfold bind at 1. unfold insetBody at 1.
    destruct (_ =? 0).
    + unfold bind, xout_write, itkExceptionMacro. split; auto.
      exists i. split; [lia|reflexivity].
    + unfold ret at 1.
      match goal with
      | |- context [for_ (S i) n ?b ?s' this] =>
          specialize (IH (S i) s');
          destruct (for_ (S i) n b s' this) as [[r|what] this']
      end; auto.
      destruct IH as (Hwhat & d & Hd & Hthis). split; auto.
      exists d. split; [lia|exact Hthis].
Qed.

Lemma SetOptimizerScales_outcome (D : nat) (w : Z) (this : Component) :
  match SetOptimizerScales D w this with
  | (Returned _, this') =>
      exists newScales,
        this' = snd (SetScales newScales this)
        /\ length newScales
           = Z.to_nat (GetNumberOfParameters D (m_PeriodicBSplineTransform this))
        /\ Forall unitOrSentinel newScales
  | (Thrown what, this') =>
      w <> 0
      /\ what = "ERROR: the PassiveEdgeWidth is too large!"%string
      /\ exists d, (d < D)%nat
           /\ this' = snd (xout_write "error"
                             (PassiveEdgeWidthError w d
                                (nth d (GetSize (GetGridRegion this)) 0)) this)
  end.
Proof.
  unfold SetOptimizerScales, bind, get. cbv zeta.
  assert (Hfill : Forall unitOrSentinel
            (Fill (GetNumberOfParameters D (m_PeriodicBSplineTransform this)) One)).
  { eapply Forall_impl; [|apply Forall_Fill_One]. intros x ->. now left. }
  destruct (Z.eqb_spec w 0) as [->|Hw].
  - unfold SetScales at 1. eexists. split; [reflexivity|]. split; auto.
    unfold Fill. apply repeat_length.
  - unfold DetermineInsetRegion, bind.
    pose proof (inset_loop_outcome w (GetSize (GetGridRegion this))
                  (GetIndex (GetGridRegion this)) D 0
                  (repeat 0 D, repeat 0 D) this) as Hloop.
    destruct (for_ 0 D _ _ this) as [[s|what] this'].
    + subst this'. unfold ret. unfold SetScales at 1.
      eexists. split; [reflexivity|].
      match goal with
      | |- context [fold_left (freezeIndex D ?c ?o) ?l ?a] =>
          destruct (while_loop_keeps D c o l a Hfill) as [H1 H2]
      end.
      split; auto. rewrite H2. unfold Fill. apply repeat_length.
    + destruct Hloop as (Hwhat & d & Hd & Hthis).
      split; auto. split; auto. exists d. split; [lia|exact Hthis].
Qed.

Lemma SetOptimizerScales_zero_edge_eq (D : nat) (this : Component) :
  SetOptimizerScales D 0 this
  = SetScales
      (Fill (GetNumberOfParameters D (m_PeriodicBSplineTransform this)) One)
      this.
Proof. reflexivity. Qed.

(** C8. With passiveEdgeWidth = 0 SetOptimizerScales sets into the optimizer
    the vector of numberOfParameters entries 1.0, whatever the grid is, and
    does nothing else: it returns at once, builds no inset region and
    raises nothing. *)
Theorem SetOptimizerScales_zero_edge (D : nat) (this : Component) :
  let numberOfParameters :=
    GetNumberOfParameters D (m_PeriodicBSplineTransform this) in
  SetOptimizerScales D 0 this = SetScales (Fill numberOfParameters One) this
  /\ length (Fill numberOfParameters One) = Z.to_nat numberOfParameters
  /\ Forall (fun x => x = One) (Fill numberOfParameters One)
  /\ fst (SetOptimizerScales D 0 this) = Returned tt
  /\ xout (snd (SetOptimizerScales D 0 this)) = xout this
  /\ OptimizerScales (m_Registration (snd (SetOptimizerScales D 0 this)))
     = Some (Fill numberOfParameters One).
Proof.
  cbv zeta. rewrite SetOptimizerScales_zero_edge_eq. repeat split.
  - unfold Fill. apply repeat_length.
  - apply Forall_Fill_One.
Qed.

(** The PassiveEdgeWidth check within the range of its casts: an edge width
    of at most 2^30 on a grid whose sizes fit an [int]. The first axis [d]
    with size[d] - 2w <= 0 is reported with the edge width and its grid
    size, the exception is thrown, and no scales reach the optimizer. *)
Theorem SetOptimizerScales_edge_too_large (D : nat) (w : Z) (this : Component)
  (d : nat) :
  length (GetIndex (GetGridRegion this)) = D ->
  length (GetSize (GetGridRegion this)) = D ->
  0 < w <= 2 ^ 30 ->
  (forall j, (j < D)%nat ->
     0 <= nth j (GetSize (GetGridRegion this)) 0 <= CInt.INT_MAX) ->
  (d < D)%nat ->
  nth d (GetSize (GetGridRegion this)) 0 - 2 * w <= 0 ->
  (forall j, (j < d)%nat -> nth j (GetSize (GetGridRegion this)) 0 - 2 * w > 0) ->
  SetOptimizerScales D w this
  = (Thrown "ERROR: the PassiveEdgeWidth is too large!",
     snd (xout_write "error"
            (PassiveEdgeWidthError w d
               (nth d (GetSize (GetGridRegion this)) 0)) this))
  /\ OptimizerScales (m_Registration (snd (SetOptimizerScales D w this)))
     = OptimizerScales (m_Registration this).
Proof.
  intros Hidx Hsz Hw Hrange Hd Hbad Hgood.
  assert (E : SetOptimizerScales D w this
    = (Thrown "ERROR: the PassiveEdgeWidth is too large!",
       snd (xout_write "error"
              (PassiveEdgeWidthError w d
                 (nth d (GetSize (GetGridRegion this)) 0)) this))).
  { apply SetOptimizerScales_throws; [lia|].
    unfold DetermineInsetRegion, bind.
    pose proof (inset_loop_throws w (GetSize (GetGridRegion this))
                  (GetIndex (GetGridRegion this)) D D 0 d
                  (repeat 0 D) (repeat 0 D) this) as Hloop.
    match goal with
    | |- context [for_ ?a ?b ?c ?e ?f] =>
        replace (for_ a b c e f)
          with (Thrown (A:=SizeType * IndexType)
                  "ERROR: the PassiveEdgeWidth is too large!",
                snd (xout_write "error"
                       (PassiveEdgeWidthError w d
                          (nth d (GetSize (GetGridRegion this)) 0)) this))
    end; [reflexivity|].
    symmetry. unfold CInt.INT_MAX, CInt.UINT_MAX in *.
    apply Hloop; auto using repeat_length; try lia.
    - intros j Hj. specialize (Hgood j ltac:(lia)).
      specialize (Hrange j ltac:(lia)). lia.
    - specialize (Hrange d Hd). lia.
    - specialize (Hrange d Hd). lia. }
  split; [exact E|]. now rewrite E.
Qed.

Lemma SetOptimizerScales_edge_too_large_witness :
  SetOptimizerScales 3 6 grid10
  = (Thrown "ERROR: the PassiveEdgeWidth is too large!",
     snd (xout_write "error" (PassiveEdgeWidthError 6 0 10) grid10))
  /\ OptimizerScales (m_Registration (snd (SetOptimizerScales 3 6 grid10)))
     = OptimizerScales (m_Registration grid10).
Proof.
  apply (SetOptimizerScales_edge_too_large 3 6 grid10 0).
  - reflexivity.
  - reflexivity.
  - lia.
  - intros [|[|[|j]]] Hj; simpl; unfold CInt.INT_MAX; lia.
  - lia.
  - simpl. lia.
  - intros j Hj. lia.
Defined.

(** C5 at edge width 2^31 on a grid of size [10,10]: size[d] - 2w <= 0 on
    both axes, yet 2 * edgeWidth wraps to 0, the inset size is the grid
    size, and the check passes: SetOptimizerScales writes no error line,
    throws nothing and sets scales into the optimizer, every one of them the
    sentinel. *)
Lemma DetermineInsetRegion_wrapped_edge_width :
  0 < 2147483648 <= CInt.UINT_MAX
  /\ nth 0 (GetSize (GetGridRegion grid10x10)) 0 - 2 * 2147483648 <= 0
  /\ DetermineInsetRegion 2 2147483648 (GetGridRegion grid10x10) grid10x10
     = (Returned (mkRegion [2147483648; 2147483648] [10; 10]), grid10x10)
  /\ fst (SetOptimizerScales 2 2147483648 grid10x10) = Returned tt
  /\ xout (snd (SetOptimizerScales 2 2147483648 grid10x10)) = []
  /\ OptimizerScales
       (m_Registration (snd (SetOptimizerScales 2 2147483648 grid10x10)))
     = Some (Fill 200 infScale).
Proof.
  repeat split; try (vm_compute; congruence); reflexivity.
Qed.

(** ** Loops over the axes *)

Lemma set_nth_same {A : Type} (i : nat) (a : list A) (d : A) :
  set_nth i (nth i a d) a = a.
Proof.
  revert i. induction a as [|x a IH]; intros [|i]; simpl; auto.
  now rewrite IH.
Qed.

Lemma set_nth_set_nth {A : Type} (i : nat) (v v' : A) (a : list A) :
  set_nth i v' (set_nth i v a) = set_nth i v' a.
Proof.
  revert i. induction a as [|x a IH]; intros [|i]; simpl; auto.
  now rewrite IH.
Qed.

(** [for dim in first .. first + count - 1: a[dim] = f dim a[dim]] *)
Lemma axis_loop {A : Type} (f : nat -> A -> A) (d0 : A) (count first : nat)
  (a : list A) :
  (first + count <= length a)%nat ->
  let r := fold_left (fun a dim => set_nth dim (f dim (nth dim a d0)) a)
             (seq first count) a in
  length r = length a
  /\ forall d, nth d r d0
               = if (first <=? d)%nat && (d <? first + count)%nat
                 then f d (nth d a d0) else nth d a d0.
Proof.
  cbv zeta. revert first a.
  induction count as [|count IH]; intros first a Hlen; cbn [seq fold_left].
  - split; auto. intros d.
    destruct (Nat.leb_spec first d), (Nat.ltb_spec d (first + 0)); simpl;
      auto; lia.
  - destruct (IH (S first) (set_nth first (f first (nth first a d0)) a))
      as [H1 H2]; [rewrite length_set_nth; lia|].
    rewrite H1, length_set_nth. split; auto.
    intros d. rewrite H2.
    destruct (Nat.leb_spec (S first) d), (Nat.ltb_spec d (S first + count)),
             (Nat.leb_spec first d), (Nat.ltb_spec d (first + S count));
      simpl; try lia.
    + now rewrite nth_set_nth_neq by lia.
    + now rewrite nth_set_nth_neq by lia.
    + assert (d = first) by lia. subst d. apply nth_set_nth_eq. lia.
    + now rewrite nth_set_nth_neq by lia.
Qed.

Lemma axis_loop_repeat (f : nat -> float -> float) (c : float) (D : nat) :
  fold_left (fun a dim => set_nth dim (f dim (nth dim a 0%float)) a)
    (seq 0 D) (repeat c D)
  = map (fun dim => f dim c) (seq 0 D).
Proof.
  destruct (axis_loop f 0%float D 0 (repeat c D)) as [H1 H2];
    [rewrite repeat_length; lia|].
  rewrite repeat_length in H1.
  apply (nth_ext _ _ 0%float 0%float);
    [now rewrite H1, length_map, length_seq|].
  intros d Hd. rewrite H1 in Hd. rewrite H2.
  destruct (Nat.leb_spec 0 d), (Nat.ltb_spec d (0 + D)); simpl; try lia.
  rewrite (nth_map_in _ _ _ O) by (rewrite length_seq; lia).
  rewrite seq_nth by lia. rewrite nth_repeat_lt by lia. reflexivity.
Qed.

Lemma axis_loop_map {A : Type} (f : A -> A) (d0 : A) (a : list A) :
  fold_left (fun a dim => set_nth dim (f (nth dim a d0)) a)
    (seq 0 (length a)) a
  = map f a.
Proof.
  destruct (axis_loop (fun _ => f) d0 (length a) 0 a) as [H1 H2]; [lia|].
  apply (nth_ext _ _ d0 (f d0)); [now rewrite H1, length_map|].
  intros d Hd. rewrite H1 in Hd. rewrite H2.
  destruct (Nat.leb_spec 0 d), (Nat.ltb_spec d (0 + length a)); simpl;
    try lia.
  now rewrite map_nth.
Qed.

(** ** The final grid spacing *)

Lemma ReadFinalGridSpacingInPhysicalUnits_eq (D : nat) (this : Component) :
  ReadFinalGridSpacingInPhysicalUnits D this (repeat 8%float D)
  = map (fun dim =>
           ReadParameter 8%float
             (ReadComponentEntry (m_Configuration this)
                "FinalGridSpacingInPhysicalUnits" (ComponentLabel this)
                (Z.of_nat dim) 0))
        (seq 0 D).
Proof.
  unfold ReadFinalGridSpacingInPhysicalUnits.
  apply (axis_loop_repeat
           (fun dim x =>
              ReadParameter x
                (ReadComponentEntry (m_Configuration this)
                   "FinalGridSpacingInPhysicalUnits" (ComponentLabel this)
                   (Z.of_nat dim) 0))).
Qed.

Lemma ReadFinalGridSpacingInVoxels_eq (D : nat) (this : Component) :
  ReadFinalGridSpacingInVoxels D this (repeat 16%float D)
  = map (fun dim =>
           ReadParameter 16%float
             (ReadComponentEntry (m_Configuration this)
                "FinalGridSpacingInVoxels" (ComponentLabel this)
                (Z.of_nat dim) 0))
        (seq 0 D).
Proof.
  unfold ReadFinalGridSpacingInVoxels.
  apply (axis_loop_repeat
           (fun dim x =>
              ReadParameter x
                (ReadComponentEntry (m_Configuration this)
                   "FinalGridSpacingInVoxels" (ComponentLabel this)
                   (Z.of_nat dim) 0))).
Qed.

Lemma VoxelsToPhysicalUnits_eq (D : nat) (this : Component)
  (voxels : SpacingType) :
  VoxelsToPhysicalUnits D this voxels (repeat 8%float D)
  = map (fun dim =>
           (nth dim voxels 0 * nth dim (ImageSpacing (FixedImage this)) 0)%float)
        (seq 0 D).
Proof.
  unfold VoxelsToPhysicalUnits.
  apply (axis_loop_repeat
           (fun dim (_ : float) =>
              (nth dim voxels 0
               * nth dim (ImageSpacing (FixedImage this)) 0)%float)).
Qed.

Lemma method2_false_iff (this : Component) :
  method2 this = false
  <-> CountNumberOfParameterEntries (m_Configuration this)
        "FinalGridSpacingInPhysicalUnits" = 0.
Proof.
  unfold method2. rewrite negb_false_iff. apply Z.eqb_eq.
Qed.

Lemma ResolveFinalGridSpacing_voxels (D : nat) (this : Component) :
  CountNumberOfParameterEntries (m_Configuration this)
    "FinalGridSpacingInPhysicalUnits" = 0 ->
  ResolveFinalGridSpacing D this
  = map (fun dim =>
           (ReadParameter 16%float
              (ReadComponentEntry (m_Configuration this)
                 "FinalGridSpacingInVoxels" (ComponentLabel this)
                 (Z.of_nat dim) 0)
            * nth dim (ImageSpacing (FixedImage this)) 0)%float)
        (seq 0 D).
Proof.
  intros Hcount. unfold ResolveFinalGridSpacing. cbv zeta.
  rewrite (proj2 (method2_false_iff this) Hcount).
  rewrite VoxelsToPhysicalUnits_eq, ReadFinalGridSpacingInVoxels_eq.
  apply map_ext_in. intros dim Hdim. apply in_seq in Hdim.
  rewrite (nth_map_in _ _ _ O) by (rewrite length_seq; lia).
  now rewrite seq_nth by lia.
Qed.

Lemma ResolveFinalGridSpacing_physical (D : nat) (this : Component) :
  CountNumberOfParameterEntries (m_Configuration this)
    "FinalGridSpacingInPhysicalUnits" <> 0 ->
  ResolveFinalGridSpacing D this
  = map (fun dim =>
           ReadParameter 8%float
             (ReadComponentEntry (m_Configuration this)
                "FinalGridSpacingInPhysicalUnits" (ComponentLabel this)
                (Z.of_nat dim) 0))
        (seq 0 D).
Proof.
  intros Hcount. unfold ResolveFinalGridSpacing. cbv zeta.
  destruct (method2 this) eqn:E.
  - apply ReadFinalGridSpacingInPhysicalUnits_eq.
  - apply method2_false_iff in E. contradiction.
Qed.

(** ** The run of PreComputeGridInformation *)

Lemma PreComputeGridInformation_accepts (D : nat) (this : Component) :
  scheduleCount this = 0
  \/ scheduleCount this = nrOfResolutions this
  \/ scheduleCount this
     = CInt.to_unsigned_int (nrOfResolutions this * Z.of_nat D) ->
  PreComputeGridInformation D this
  = (Returned tt,
     mkComponent (m_PeriodicBSplineTransform this)
       (mkComputer (Some (FixedImage this))
          (if UseComposition this then true
           else ComputerUsesInitialTransform (m_GridScheduleComputer this))
          (Some (ResolveFinalGridSpacing D this))
          (chosenSchedule D this) true)
       (m_Registration this) (m_Configuration this) (FixedImage this)
       (UseComposition this) (ComponentLabel this)
       (xout this ++ [mkLine "warning" GridSpacingAdaptedWarning])).
Proof.
  intros Hcount.
  unfold PreComputeGridInformation, chosenSchedule, bind, get, put. cbv zeta.
  fold (nrOfResolutions this). fold (scheduleCount this).
  cbn [m_Configuration set_Computer m_Registration Schedule].
  destruct (Z.eqb_spec (scheduleCount this) 0) as [E0|E0];
    [reflexivity|].
  destruct (Z.eqb_spec (scheduleCount this) (nrOfResolutions this)) as [E1|E1];
    [reflexivity|].
  destruct (Z.eqb_spec (scheduleCount this)
              (CInt.to_unsigned_int (nrOfResolutions this * Z.of_nat D)))
    as [E2|E2]; [reflexivity|].
  exfalso. tauto.
Qed.

Lemma PreComputeGridInformation_refuses (D : nat) (this : Component) :
  scheduleCount this <> 0 ->
  scheduleCount this <> nrOfResolutions this ->
  scheduleCount this
  <> CInt.to_unsigned_int (nrOfResolutions this * Z.of_nat D) ->
  PreComputeGridInformation D this
  = (Thrown "ERROR: Invalid GridSpacingSchedule!",
     mkComponent (m_PeriodicBSplineTransform this)
       (computerWithDefaults D this)
       (m_Registration this) (m_Configuration this) (FixedImage this)
       (UseComposition this) (ComponentLabel this)
       (xout this ++ [mkLine "error" InvalidGridSpacingScheduleError])).
Proof.
  intros E0 E1 E2.
  unfold PreComputeGridInformation, computerWithDefaults, bind, get, put.
  cbv zeta.
  fold (nrOfResolutions this). fold (scheduleCount this).
  cbn [m_Configuration set_Computer m_Registration Schedule].
  destruct (Z.eqb_spec (scheduleCount this) 0); [contradiction|].
  destruct (Z.eqb_spec (scheduleCount this) (nrOfResolutions this));
    [contradiction|].
  destruct (Z.eqb_spec (scheduleCount this)
              (CInt.to_unsigned_int (nrOfResolutions this * Z.of_nat D)));
    [contradiction|].
  reflexivity.
Qed.

(** ** Reading the schedule, one entry per level *)

Section ReadPerLevel.
Variables (D : nat) (this : Component).

(** The axes of one level: every multiplier of row [res] is overwritten by
    the entry [e], when that entry exists. *)
Lemma ReadScheduleLevel_row (res : nat) (e : Z) (sched : list (list float))
  (count first : nat) (row : list float) :
  (res < length sched)%nat ->
  fold_left (ReadScheduleEntry this true res) (seq first count)
    (set_nth res row sched, e)
  = (set_nth res
       (fold_left
          (fun row dim =>
             set_nth dim (ReadParameter (nth dim row 0%float) (scheduleEntry this e)) row)
          (seq first count) row)
       sched,
     e).
Proof.
  intros Hres. revert first row.
  induction count as [|count IH]; intros first row; cbn [seq fold_left].
  - reflexivity.
  - unfold ReadScheduleEntry at 2. cbn [fst snd]. unfold set_entry.
    rewrite nth_set_nth_eq by assumption.
    rewrite set_nth_set_nth. apply IH.
Qed.

Lemma ReadScheduleLevel_perLevel (res : nat) (e : Z)
  (sched : list (list float)) :
  (res < length sched)%nat ->
  length (nth res sched []) = D ->
  ReadScheduleLevel D this true (sched, e) res
  = (set_nth res
       (map (fun x => ReadParameter x (scheduleEntry this e)) (nth res sched []))
       sched,
     CInt.to_unsigned_int (e + 1)).
Proof.
  intros Hres Hrow. unfold ReadScheduleLevel. cbv zeta.
  assert (E : fold_left (ReadScheduleEntry this true res) (seq 0 D) (sched, e)
              = (set_nth res
                   (map (fun x => ReadParameter x (scheduleEntry this e)) (nth res sched []))
                   sched, e)).
  { rewrite <- (set_nth_same res sched []) at 1.
    rewrite ReadScheduleLevel_row by assumption.
    rewrite <- Hrow.
    rewrite (axis_loop_map (fun x => ReadParameter x (scheduleEntry this e))).
    reflexivity. }
  rewrite E. reflexivity.
Qed.

(** The levels from [first] on, with entry_nr = first on entry. *)
Lemma ReadSchedule_levels (count first : nat) (sched : list (list float)) :
  (first + count <= length sched)%nat ->
  (forall res, (first <= res < first + count)%nat ->
               length (nth res sched []) = D) ->
  Z.of_nat (first + count) <= CInt.UINT_MAX ->
  let out := fold_left (ReadScheduleLevel D this true) (seq first count)
               (sched, Z.of_nat first) in
  snd out = Z.of_nat (first + count)
  /\ length (fst out) = length sched
  /\ forall res,
       nth res (fst out) []
       = if (first <=? res)%nat && (res <? first + count)%nat
         then map (fun x => ReadParameter x (scheduleEntry this (Z.of_nat res)))
                  (nth res sched [])
         else nth res sched [].
Proof.
  cbv zeta. revert first sched.
  induction count as [|count IH]; intros first sched Hlen Hrows Hmax;
    cbn [seq fold_left].
  - cbn [fst snd]. rewrite Nat.add_0_r. repeat split; auto.
    intros res.
    destruct (Nat.leb_spec first res), (Nat.ltb_spec res first); simpl;
      auto; lia.
  - rewrite ReadScheduleLevel_perLevel by (try apply Hrows; lia).
    rewrite to_unsigned_int_small by lia.
    replace (Z.of_nat first + 1) with (Z.of_nat (S first)) by lia.
    destruct (IH (S first)
                (set_nth first
                   (map (fun x => ReadParameter x (scheduleEntry this (Z.of_nat first)))
                        (nth first sched []))
                   sched)) as (H1 & H2 & H3).
    + rewrite length_set_nth. lia.
    + intros res Hres. rewrite nth_set_nth_neq by lia. apply Hrows. lia.
    + lia.
    + rewrite H1, H2, length_set_nth.
      split; [f_equal; lia|split; [reflexivity|]].
      intros res. rewrite H3.
      destruct (Nat.leb_spec (S first) res),
               (Nat.ltb_spec res (S first + count)),
               (Nat.leb_spec first res),
               (Nat.ltb_spec res (first + S count)); simpl; try lia.
      * now rewrite nth_set_nth_neq by lia.
      * now rewrite nth_set_nth_neq by lia.
      * assert (res = first) by lia. subst res.
        apply nth_set_nth_eq. lia.
      * now rewrite nth_set_nth_neq by lia.
Qed.

End ReadPerLevel.

Lemma nth_DefaultSchedule (D : nat) (levels : Z) (factor : float) (res : nat) :
  (res < Z.to_nat levels)%nat ->
  nth res (DefaultSchedule D levels factor) []
  = repeat (float_pow factor (Z.to_nat levels - 1 - res)) D.
Proof.
  intros Hres. unfold DefaultSchedule.
  rewrite (nth_map_in _ _ _ O) by (rewrite length_seq; lia).
  now rewrite seq_nth by lia.
Qed.

Lemma length_DefaultSchedule (D : nat) (levels : Z) (factor : float) :
  length (DefaultSchedule D levels factor) = Z.to_nat levels.
Proof.
  unfold DefaultSchedule. now rewrite length_map, length_seq.
Qed.


(** ** Reading the schedule, one entry per axis per level *)

Lemma to_unsigned_int_succ (e : Z) :
  CInt.to_unsigned_int (CInt.to_unsigned_int e + 1)
  = CInt.to_unsigned_int (e + 1).
Proof. unfold CInt.to_unsigned_int. apply Zplus_mod_idemp_l. Qed.

Section ReadPerAxis.
Variables (D : nat) (this : Component).

(** The axes [first ..] of one level, entry_nr running along. *)
Lemma ReadScheduleLevel_axes (res : nat) (sched : list (list float))
  (count first : nat) (row : list float) (e : Z) :
  (res < length sched)%nat ->
  (first + count <= length row)%nat ->
  exists row',
    fold_left (ReadScheduleEntry this false res) (seq first count)
      (set_nth res row sched, CInt.to_unsigned_int e)
    = (set_nth res row' sched, CInt.to_unsigned_int (e + Z.of_nat count))
    /\ length row' = length row
    /\ forall d,
         nth d row' 0%float
         = if (first <=? d)%nat && (d <? first + count)%nat
           then ReadParameter (nth d row 0%float)
                  (scheduleEntry this (CInt.to_unsigned_int
                            (e + (Z.of_nat d - Z.of_nat first))))
           else nth d row 0%float.
Proof.
  intros Hres. revert first row e.
  induction count as [|count IH]; intros first row e Hlen;
    cbn [seq fold_left].
  - exists row. rewrite Z.add_0_r. repeat split; auto. intros d.
    destruct (Nat.leb_spec first d), (Nat.ltb_spec d (first + 0)); simpl;
      auto; lia.
  - unfold ReadScheduleEntry at 2. cbn [fst snd]. unfold set_entry.
    rewrite nth_set_nth_eq by assumption.
    rewrite set_nth_set_nth, to_unsigned_int_succ.
    destruct (IH (S first)
                (set_nth first
                   (ReadParameter (nth first row 0%float)
                      (ReadEntry (m_Configuration this) "GridSpacingSchedule"
                         (CInt.to_unsigned_int e)))
                   row)
                (e + 1)) as (row' & Hrun & Hl & Hnth);
      [rewrite length_set_nth; lia|].
    exists row'. rewrite Hrun, Hl, length_set_nth.
    split; [do 2 f_equal; lia|]. split; [reflexivity|].
    intros d. rewrite Hnth.
    destruct (Nat.leb_spec (S first) d), (Nat.ltb_spec d (S first + count)),
             (Nat.leb_spec first d), (Nat.ltb_spec d (first + S count));
      simpl; try lia.
    + rewrite nth_set_nth_neq by lia. unfold scheduleEntry. do 3 f_equal. lia.
    + now rewrite nth_set_nth_neq by lia.
    + assert (d = first) by lia. subst d.
      rewrite nth_set_nth_eq by lia. unfold scheduleEntry. do 3 f_equal. lia.
    + now rewrite nth_set_nth_neq by lia.
Qed.

Lemma ReadScheduleLevel_perAxis (res : nat) (e : Z)
  (sched : list (list float)) :
  (res < length sched)%nat ->
  length (nth res sched []) = D ->
  exists row',
    ReadScheduleLevel D this false (sched, CInt.to_unsigned_int e) res
    = (set_nth res row' sched, CInt.to_unsigned_int (e + Z.of_nat D))
    /\ length row' = D
    /\ forall d, (d < D)%nat ->
         nth d row' 0%float
         = ReadParameter (nth d (nth res sched []) 0%float)
             (scheduleEntry this (CInt.to_unsigned_int (e + Z.of_nat d))).
Proof.
  intros Hres Hrow. unfold ReadScheduleLevel. cbv zeta.
  destruct (ReadScheduleLevel_axes res sched D 0 (nth res sched []) e)
    as (row' & Hrun & Hl & Hnth); [assumption | lia |].
  rewrite (set_nth_same res sched []) in Hrun. rewrite Hrun. cbn [fst snd].
  exists row'. split; [reflexivity|]. split; [congruence|].
  intros d Hd. rewrite Hnth.
  destruct (Nat.leb_spec 0 d), (Nat.ltb_spec d (0 + D)); simpl; try lia.
  do 3 f_equal. lia.
Qed.

Lemma ReadSchedule_axis_levels (count first : nat)
  (sched : list (list float)) :
  (first + count <= length sched)%nat ->
  (forall res, (first <= res < first + count)%nat ->
               length (nth res sched []) = D) ->
  let out := fold_left (ReadScheduleLevel D this false) (seq first count)
               (sched, CInt.to_unsigned_int (Z.of_nat first * Z.of_nat D)) in
  length (fst out) = length sched
  /\ (forall res, length (nth res (fst out) []) = length (nth res sched []))
  /\ forall res d, (d < D)%nat ->
       nth d (nth res (fst out) []) 0%float
       = if (first <=? res)%nat && (res <? first + count)%nat
         then ReadParameter (nth d (nth res sched []) 0%float)
                (scheduleEntry this (CInt.to_unsigned_int
                          (Z.of_nat res * Z.of_nat D + Z.of_nat d)))
         else nth d (nth res sched []) 0%float.
Proof.
  cbv zeta. revert first sched.
  induction count as [|count IH]; intros first sched Hlen Hrows;
    cbn [seq fold_left].
  - cbn [fst]. repeat split; auto. intros res d Hd.
    destruct (Nat.leb_spec first res), (Nat.ltb_spec res (first + 0)); simpl;
      auto; lia.
  - destruct (ReadScheduleLevel_perAxis first (Z.of_nat first * Z.of_nat D)
                sched) as (row' & Hrun & Hl & Hnth);
      [lia | apply Hrows; lia |].
    rewrite Hrun.
    replace (Z.of_nat first * Z.of_nat D + Z.of_nat D)
      with (Z.of_nat (S first) * Z.of_nat D) by lia.
    destruct (IH (S first) (set_nth first row' sched)) as (H1 & H2 & H3).
    + rewrite length_set_nth. lia.
    + intros res Hres. rewrite nth_set_nth_neq by lia. apply Hrows. lia.
    + rewrite H1, length_set_nth. split; [reflexivity|]. split.
      * intros res. rewrite H2.
        destruct (Nat.eq_dec res first) as [->|Hne].
        -- rewrite nth_set_nth_eq by lia. rewrite Hl. symmetry.
           apply Hrows. lia.
        -- now rewrite nth_set_nth_neq by lia.
      * intros res d Hd. rewrite H3 by assumption.
        destruct (Nat.leb_spec (S first) res),
                 (Nat.ltb_spec res (S first + count)),
                 (Nat.leb_spec first res),
                 (Nat.ltb_spec res (first + S count)); simpl; try lia.
        -- now rewrite nth_set_nth_neq by lia.
        -- now rewrite nth_set_nth_neq by lia.
        -- assert (res = first) by lia. subst res.
           rewrite nth_set_nth_eq by lia. now apply Hnth.
        -- now rewrite nth_set_nth_neq by lia.
Qed.

End ReadPerAxis.


(** ** The theorems on PreComputeGridInformation *)



(** C3. The FinalGridSpacingInVoxels path is taken exactly when the entry
    count of FinalGridSpacingInPhysicalUnits is zero. With at least one
    such entry the final grid spacing is what the physical-units lookups
    give on each axis; neither the voxel-unit entries nor the image spacing
    enter it: two components with the same physical-units entries resolve
    the same spacing. An accepted run of PreComputeGridInformation sets this
    spacing into the grid schedule computer. *)
Theorem FinalGridSpacing_method (D : nat) (this : Component) :
  (method2 this = false
   <-> CountNumberOfParameterEntries (m_Configuration this)
         "FinalGridSpacingInPhysicalUnits" = 0)
  /\ (method2 this = false ->
      ResolveFinalGridSpacing D this
      = VoxelsToPhysicalUnits D this
          (ReadFinalGridSpacingInVoxels D this (repeat 16%float D))
          (repeat 8%float D))
  /\ (CountNumberOfParameterEntries (m_Configuration this)
        "FinalGridSpacingInPhysicalUnits" <> 0 ->
      ResolveFinalGridSpacing D this
      = map (fun dim =>
               ReadParameter 8%float
                 (ReadComponentEntry (m_Configuration this)
                    "FinalGridSpacingInPhysicalUnits" (ComponentLabel this)
                    (Z.of_nat dim) 0))
            (seq 0 D))
  /\ (forall other : Component,
        CountNumberOfParameterEntries (m_Configuration this)
          "FinalGridSpacingInPhysicalUnits" <> 0 ->
        CountNumberOfParameterEntries (m_Configuration other)
          "FinalGridSpacingInPhysicalUnits" <> 0 ->
        (forall dim,
           ReadComponentEntry (m_Configuration other)
             "FinalGridSpacingInPhysicalUnits" (ComponentLabel other)
             (Z.of_nat dim) 0
           = ReadComponentEntry (m_Configuration this)
               "FinalGridSpacingInPhysicalUnits" (ComponentLabel this)
               (Z.of_nat dim) 0) ->
        ResolveFinalGridSpacing D other = ResolveFinalGridSpacing D this)
  /\ (fst (PreComputeGridInformation D this) = Returned tt ->
      FinalGridSpacing
        (m_GridScheduleComputer (snd (PreComputeGridInformation D this)))
      = Some (ResolveFinalGridSpacing D this)).
Proof.
  split; [apply method2_false_iff|]. split; [|split; [|split]].
  - intros E. unfold ResolveFinalGridSpacing. cbv zeta. now rewrite E.
  - apply ResolveFinalGridSpacing_physical.
  - intros other H1 H2 Hsame.
    rewrite !ResolveFinalGridSpacing_physical by assumption.
    apply map_ext. intros dim. now rewrite Hsame.
  - intros Hret.
    destruct (Z.eq_dec (scheduleCount this) 0) as [E0|E0];
      [rewrite PreComputeGridInformation_accepts by auto; reflexivity|].
    destruct (Z.eq_dec (scheduleCount this) (nrOfResolutions this)) as [E1|E1];
      [rewrite PreComputeGridInformation_accepts by auto; reflexivity|].
    destruct (Z.eq_dec (scheduleCount this)
                (CInt.to_unsigned_int (nrOfResolutions this * Z.of_nat D)))
      as [E2|E2];
      [rewrite PreComputeGridInformation_accepts by auto; reflexivity|].
    rewrite (PreComputeGridInformation_refuses D this E0 E1 E2) in Hret.
    discriminate.
Qed.

Lemma FinalGridSpacing_method_witness :
  method2 voxels16 = false
  /\ ResolveFinalGridSpacing 2 bothUnits = [5; 7]%float
  /\ FinalGridSpacing
       (m_GridScheduleComputer (snd (PreComputeGridInformation 2 bothUnits)))
     = Some [5; 7]%float.
Proof.
  destruct (FinalGridSpacing_method 2 voxels16) as (H1 & _).
  destruct (FinalGridSpacing_method 2 bothUnits) as (_ & _ & H3 & _ & H5).
  split; [|split].
  - apply H1. reflexivity.
  - rewrite H3 by (vm_compute; discriminate). reflexivity.
  - rewrite H5 by reflexivity. rewrite H3 by (vm_compute; discriminate).
    reflexivity.
Defined.

(** C7. Without FinalGridSpacingInPhysicalUnits entries the resolved final
    grid spacing is, on every axis, the FinalGridSpacingInVoxels value
    (16.0 where the lookup finds none) times the fixed image's spacing on
    that axis; FinalGridSpacingInVoxels = 16 with image spacing (2,2)
    resolves to (32,32). *)
Theorem FinalGridSpacingInVoxels_to_physical (D : nat) (this : Component) :
  CountNumberOfParameterEntries (m_Configuration this)
    "FinalGridSpacingInPhysicalUnits" = 0 ->
  (ResolveFinalGridSpacing D this
   = map (fun dim =>
            (ReadParameter 16%float
               (ReadComponentEntry (m_Configuration this)
                  "FinalGridSpacingInVoxels" (ComponentLabel this)
                  (Z.of_nat dim) 0)
             * nth dim (ImageSpacing (FixedImage this)) 0)%float)
         (seq 0 D))
  /\ (D = 2%nat ->
      ImageSpacing (FixedImage this) = [2; 2]%float ->
      (forall dim, (dim < 2)%nat ->
         ReadParameter 16%float
           (ReadComponentEntry (m_Configuration this)
              "FinalGridSpacingInVoxels" (ComponentLabel this)
              (Z.of_nat dim) 0)
         = 16%float) ->
      ResolveFinalGridSpacing D this = [32; 32]%float).
Proof.
  intros Hcount. split.
  - now apply ResolveFinalGridSpacing_voxels.
  - intros -> Hspacing Hvoxels.
    rewrite ResolveFinalGridSpacing_voxels by assumption.
    rewrite Hspacing. cbn [seq map].
    rewrite (Hvoxels 0%nat), (Hvoxels 1%nat) by lia. reflexivity.
Qed.

Lemma FinalGridSpacingInVoxels_to_physical_witness :
  ResolveFinalGridSpacing 2 voxels16 = [32; 32]%float
  /\ FinalGridSpacing
       (m_GridScheduleComputer (snd (PreComputeGridInformation 2 voxels16)))
     = Some [32; 32]%float.
Proof.
  destruct (FinalGridSpacingInVoxels_to_physical 2 voxels16) as [_ H];
    [reflexivity|].
  assert (E : ResolveFinalGridSpacing 2 voxels16 = [32; 32]%float).
  { apply H; [reflexivity | reflexivity |].
    intros [|[|dim]] Hdim; [reflexivity | reflexivity | lia]. }
  split; [exact E|]. reflexivity.
Defined.

(** C4 (amended). The warning that the grid spacing may be adapted is
    written by every run of PreComputeGridInformation whose schedule entry
    count is accepted, whatever the image and the requested spacing are; it
    is not fatal: the run returns with the final grid spacing and the
    schedule installed and the B-spline grid computed. A run whose count is
    refused writes the error line and no warning. *)
Theorem spacing_warning_is_unconditional (D : nat) (this : Component) :
  (scheduleCount this = 0
   \/ scheduleCount this = nrOfResolutions this
   \/ scheduleCount this
      = CInt.to_unsigned_int (nrOfResolutions this * Z.of_nat D) ->
   fst (PreComputeGridInformation D this) = Returned tt
   /\ xout (snd (PreComputeGridInformation D this))
      = xout this ++ [mkLine "warning" GridSpacingAdaptedWarning]
   /\ FinalGridSpacing
        (m_GridScheduleComputer (snd (PreComputeGridInformation D this)))
      = Some (ResolveFinalGridSpacing D this)
   /\ Schedule (m_GridScheduleComputer (snd (PreComputeGridInformation D this)))
      = chosenSchedule D this
   /\ BSplineGridComputed
        (m_GridScheduleComputer (snd (PreComputeGridInformation D this)))
      = true)
  /\ (scheduleCount this <> 0 ->
      scheduleCount this <> nrOfResolutions this ->
      scheduleCount this
      <> CInt.to_unsigned_int (nrOfResolutions this * Z.of_nat D) ->
      fst (PreComputeGridInformation D this)
      = Thrown "ERROR: Invalid GridSpacingSchedule!"
      /\ xout (snd (PreComputeGridInformation D this))
         = xout this ++ [mkLine "error" InvalidGridSpacingScheduleError]).
Proof.
  split.
  - intros Hcount. rewrite (PreComputeGridInformation_accepts D this Hcount).
    cbn. auto.
  - intros E0 E1 E2.
    rewrite (PreComputeGridInformation_refuses D this E0 E1 E2). cbn. auto.
Qed.

Lemma spacing_warning_is_unconditional_witness :
  (fst (PreComputeGridInformation 2 evenGrid) = Returned tt
   /\ xout (snd (PreComputeGridInformation 2 evenGrid))
      = [mkLine "warning" GridSpacingAdaptedWarning])
  /\ (fst (PreComputeGridInformation 2 fourEntries)
      = Thrown "ERROR: Invalid GridSpacingSchedule!"
      /\ xout (snd (PreComputeGridInformation 2 fourEntries))
         = [mkLine "error" InvalidGridSpacingScheduleError]).
Proof.
  destruct (spacing_warning_is_unconditional 2 evenGrid) as [H1 _].
  destruct (spacing_warning_is_unconditional 2 fourEntries) as [_ H2].
  split.
  - destruct H1 as (Hret & Hxout & _); [left; reflexivity|].
    split; [exact Hret|]. rewrite Hxout. reflexivity.
  - destruct H2 as (Hthrown & Hxout); [vm_compute; discriminate ..|].
    split; [exact Hthrown|]. rewrite Hxout. reflexivity.
Defined.

(** C4 as stated fails: on a 64 x 64 image of spacing 1 with one level and
    no configured key the requested grid spacing is 16 on both axes and
    divides the extent 64 into 4 periods, so nothing is to be adjusted, and
    the warning is written all the same. *)
Lemma spacing_warning_without_adjustment :
  fst (PreComputeGridInformation 2 evenGrid) = Returned tt
  /\ In (mkLine "warning" GridSpacingAdaptedWarning)
        (xout (snd (PreComputeGridInformation 2 evenGrid)))
  /\ (forall level dim, (level < 1)%nat -> (dim < 2)%nat ->
        RequestedGridSpacing
          (m_GridScheduleComputer (snd (PreComputeGridInformation 2 evenGrid)))
          level dim = 16%float
        /\ DomainExtent (FixedImage evenGrid) dim = 64%float
        /\ DividesEvenly
             (DomainExtent (FixedImage evenGrid) dim)
             (RequestedGridSpacing
                (m_GridScheduleComputer
                   (snd (PreComputeGridInformation 2 evenGrid)))
                level dim)).
Proof.
  split; [reflexivity|]. split; [left; reflexivity|].
  intros [|level] [|[|dim]] Hlevel Hdim; try lia;
    (split; [reflexivity|]; split; [reflexivity|]);
    exists 4; (split; [lia|reflexivity]).
Qed.

(** ** The theorems on BeforeEachResolution *)

Section Levels.
Variable D : nat.
Variable GetBSplineGrid : GridScheduleComputerType -> Z -> GridGeometry.
Variable UpsampleParameters :
  GridGeometry -> GridGeometry -> ParametersType -> ParametersType.

Lemma withLevelGrid_frame (this : Component) :
  GetGridRegion (withLevelGrid D GetBSplineGrid UpsampleParameters this)
  = gridRegion (GetBSplineGrid (m_GridScheduleComputer this) (currentLevel this))
  /\ m_Configuration (withLevelGrid D GetBSplineGrid UpsampleParameters this) = m_Configuration this
  /\ ComponentLabel (withLevelGrid D GetBSplineGrid UpsampleParameters this) = ComponentLabel this
  /\ xout (withLevelGrid D GetBSplineGrid UpsampleParameters this) = xout this
  /\ CurrentLevel (m_Registration (withLevelGrid D GetBSplineGrid UpsampleParameters this))
     = CurrentLevel (m_Registration this).
Proof.
  unfold withLevelGrid.
  destruct (Z.eqb_spec (currentLevel this) 0) as [E|E].
  - rewrite E. unfold InitializeTransform, bind, get, put. cbn. auto.
  - unfold IncreaseScale, bind, get, put. cbn. auto.
Qed.

Lemma BeforeEachResolution_eq (this : Component) :
  BeforeEachResolution D GetBSplineGrid UpsampleParameters this
  = SetOptimizerScales D (passiveEdgeWidthOf this) (withLevelGrid D GetBSplineGrid UpsampleParameters this).
Proof.
  unfold BeforeEachResolution, withLevelGrid, passiveEdgeWidthOf, currentLevel,
    bind, get.
  destruct (CInt.to_unsigned_int (CurrentLevel (m_Registration this)) =? 0).
  - unfold InitializeTransform, bind, get, put. reflexivity.
  - unfold IncreaseScale, bind, get, put. reflexivity.
Qed.

End Levels.

(** ** Strings *)

Lemma string_app_assoc (a b c : string) :
  ((a ++ b) ++ c = a ++ b ++ c)%string.
Proof. induction a as [|x a IH]; simpl; [reflexivity|]. now rewrite IH. Qed.

Lemma fold_left_append {X : Type} (g : X -> string) (l : list X)
  (p q : string) :
  (fold_left (fun text x => text ++ g x) l p ++ q
   = p ++ fold_right (fun x r => g x ++ r) q l)%string.
Proof.
  revert p. induction l as [|x l IH]; intros p; simpl; [reflexivity|].
  now rewrite IH, string_app_assoc.
Qed.

Lemma concat_snoc {X : Type} (item : X -> string) (l : list X) (y c : string) :
  (String.concat " " (map item l ++ [y]) ++ c
   = fold_right (fun x r => (item x ++ " ") ++ r) (y ++ c) l)%string.
Proof.
  induction l as [|x l IH]; [reflexivity|].
  cbn [map app fold_right]. rewrite <- IH.
  destruct l as [|x' l]; cbn [map app String.concat];
    now rewrite !string_app_assoc.
Qed.

Lemma fold_left_separated (l : list string) (p x c : string) :
  (fold_left (fun text tok => text ++ " " ++ tok) l (p ++ x) ++ c
   = p ++ String.concat " " (x :: l) ++ c)%string.
Proof.
  revert p x. induction l as [|y l IH]; intros p x.
  - simpl. apply string_app_assoc.
  - cbn [fold_left].
    replace ((p ++ x) ++ " " ++ y)%string with ((p ++ x ++ " ") ++ y)%string
      by (now rewrite !string_app_assoc).
    rewrite IH. cbn [String.concat]. now rewrite !string_app_assoc.
Qed.

(** ** WriteToFile: the lines of the grid *)

Lemma map_nth_seq {X Y : Type} (f : X -> Y) (l : list X) (d : X) :
  map (fun i => f (nth i l d)) (seq 0 (length l)) = map f l.
Proof.
  apply (nth_ext _ _ (f d) (f d));
    [now rewrite !length_map, length_seq|].
  intros i Hi. rewrite length_map, length_seq in Hi.
  rewrite (nth_map_in _ _ _ O) by (rewrite length_seq; lia).
  rewrite seq_nth by lia. now rewrite map_nth.
Qed.

Lemma vectorLine_eq (D : nat) (name : string) (item : nat -> string) :
  (0 < D)%nat ->
  vectorLine D name item = parameterLine name (map item (seq 0 D)).
Proof.
  intros HD. destruct D as [|d]; [lia|].
  unfold vectorLine, parameterLine.
  replace (S d - 1)%nat with d by lia.
  rewrite seq_S, map_app. cbn [map Nat.add].
  rewrite (fold_left_append (fun i => (item i ++ " ")%string)).
  rewrite (concat_snoc item). now rewrite !string_app_assoc.
Qed.

Lemma directionLine_eq (D : nat) (show_double : Z -> float -> string)
  (precision : Z) (direction : DirectionType) :
  (0 < D)%nat ->
  directionLine D show_double precision direction
  = parameterLine "GridDirection"
      (flat_map
         (fun i => map (fun j => show_double precision
                                   (nth i (nth j direction []) 0%float))
                       (seq 0 D))
         (seq 0 D)).
Proof.
  intros HD. unfold directionLine, parameterLine.
  set (tokens := flat_map _ _).
  assert (E : fold_left
                (fun text i =>
                   fold_left
                     (fun text j =>
                        (text ++ " "
                           ++ show_double precision
                                (nth i (nth j direction []) 0%float))%string)
                     (seq 0 D) text)
                (seq 0 D) "(GridDirection"%string
              = fold_left (fun text tok => (text ++ " " ++ tok)%string)
                  tokens "(GridDirection"%string).
  { unfold tokens. rewrite fold_left_flat_map.
    apply fold_left_ext_in. intros text i _. now rewrite fold_left_map. }
  rewrite E.
  assert (Hne : exists x l, tokens = x :: l).
  { unfold tokens. destruct D as [|d]; [lia|]. cbn [seq flat_map map app].
    eauto. }
  destruct Hne as (x & l & ->). cbn [fold_left].
  replace ("(GridDirection" ++ " " ++ x)%string
    with (("(GridDirection" ++ " ") ++ x)%string
    by (now rewrite string_app_assoc).
  rewrite fold_left_separated. reflexivity.
Qed.

Lemma bind_get {X : Type} (k : Component -> elx X) (this : Component) :
  bind get k this = k this this.
Proof. reflexivity. Qed.

Lemma bind_xout_write {X : Type} (tgt text : string) (k : elx X)
  (this : Component) :
  bind (xout_write tgt text) (fun _ => k) this
  = k (set_xout (xout this ++ [mkLine tgt text]) this).
Proof. reflexivity. Qed.

Lemma set_xout_set_xout (l l' : list XoutLine) (this : Component) :
  set_xout l' (set_xout l this) = set_xout l' this.
Proof. reflexivity. Qed.

(** WriteToFile adds to xl::xout["transpar"], after the lines of the
    transform base, an empty line, the comment line and the five grid
    lines, each "(Key v0 v1 ...)" with the tokens of [gridTokens]: D values
    for GridSize, GridIndex, GridSpacing and GridOrigin, and the D * D
    entries of GridDirection column after column. *)
Theorem WriteGridToFile_lines (D : nat) (show_double : Z -> float -> string)
  (this : Component) :
  (0 < D)%nat ->
  length (GetSize (GetGridRegion this)) = D ->
  length (GetIndex (GetGridRegion this)) = D ->
  length (GridSpacing (m_PeriodicBSplineTransform this)) = D ->
  length (GridOrigin (m_PeriodicBSplineTransform this)) = D ->
  WriteGridToFile D show_double this
  = (Returned tt,
     set_xout
       (xout this
        ++ [mkLine "transpar" "";
            mkLine "transpar" "// BSplineTransform specific"]
        ++ map (fun entry => mkLine "transpar"
                               (parameterLine (fst entry) (snd entry)))
               (gridTokens D show_double (m_PeriodicBSplineTransform this)))
       this).
Proof.
  intros HD Hsize Hindex Hspacing Horigin.
  unfold WriteGridToFile. rewrite bind_get. cbv zeta.
  rewrite !vectorLine_eq, directionLine_eq by assumption.
  rewrite !bind_xout_write, !set_xout_set_xout. cbn [xout set_xout].
  unfold xout_write. rewrite set_xout_set_xout. cbn [xout set_xout].
  f_equal. f_equal.
  unfold gridTokens, GetGridRegion in *. cbn [map fst snd].
  rewrite <- Hsize at 1. rewrite <- Hindex at 1.
  rewrite <- Hspacing at 1. rewrite <- Horigin at 1.
  rewrite (map_nth_seq CInt.show), (map_nth_seq CInt.show),
    (map_nth_seq (show_double 10)), (map_nth_seq (show_double 10)).
  rewrite <- !app_assoc. reflexivity.
Qed.

(** ** ReadFromFile: the grid read *)

Section ReadGridFacts.
Variables (D : nat) (cfg : ConfigurationType).

Lemma ReadGrid_fold (l : list nat) (v : GridVariables) :
  fold_left (ReadGridAxis D cfg) l v
  = mkGridVariables
      (fold_left
         (fun a i =>
            set_nth i
              (ReadParameter (nth i a 0)
                 (ReadEntryInteger cfg "GridSize" (Z.of_nat i))) a)
         l (gridsize v))
      (fold_left
         (fun a i =>
            set_nth i
              (ReadParameter (nth i a 0)
                 (ReadEntryInteger cfg "GridIndex" (Z.of_nat i))) a)
         l (gridindex v))
      (fold_left
         (fun a i =>
            set_nth i
              (ReadParameter (nth i a 0%float)
                 (ReadEntry cfg "GridSpacing" (Z.of_nat i))) a)
         l (gridspacing v))
      (fold_left
         (fun a i =>
            set_nth i
              (ReadParameter (nth i a 0%float)
                 (ReadEntry cfg "GridOrigin" (Z.of_nat i))) a)
         l (gridorigin v))
      (fold_left (fun dir i => ReadDirectionColumn D cfg i dir) l
         (griddirection v)).
Proof.
  revert v. induction l as [|i l IH]; intros v; cbn [fold_left].
  - now destruct v.
  - rewrite IH. reflexivity.
Qed.

Lemma axis_loop_repeat_Z (f : nat -> Z -> Z) (c : Z) :
  fold_left (fun a dim => set_nth dim (f dim (nth dim a 0)) a)
    (seq 0 D) (repeat c D)
  = map (fun dim => f dim c) (seq 0 D).
Proof.
  destruct (axis_loop f 0 D 0 (repeat c D)) as [H1 H2];
    [rewrite repeat_length; lia|].
  rewrite repeat_length in H1.
  apply (nth_ext _ _ 0 0); [now rewrite H1, length_map, length_seq|].
  intros d Hd. rewrite H1 in Hd. rewrite H2.
  destruct (Nat.leb_spec 0 d), (Nat.ltb_spec d (0 + D)); simpl; try lia.
  rewrite (nth_map_in _ _ _ O) by (rewrite length_seq; lia).
  rewrite seq_nth by lia. rewrite nth_repeat_lt by lia. reflexivity.
Qed.

Lemma ReadDirectionColumn_spec (i : nat) (direction : DirectionType) :
  square D direction -> (i < D)%nat ->
  square D (ReadDirectionColumn D cfg i direction)
  /\ forall j i', (j < D)%nat ->
       nth i' (nth j (ReadDirectionColumn D cfg i direction) []) 0%float
       = if Nat.eqb i' i
         then ReadParameter (nth i (nth j direction []) 0%float) (directionEntry D cfg i j)
         else nth i' (nth j direction []) 0%float.
Proof.
  intros [Hrows Hcols] Hi. unfold ReadDirectionColumn, set_entry.
  destruct (axis_loop
              (fun j row =>
                 set_nth i (ReadParameter (nth i row 0%float) (directionEntry D cfg i j)) row)
              [] D 0 direction) as [H1 H2]; [lia|].
  cbv beta in H1, H2. unfold directionEntry in H1, H2.
  split; [split|].
  - now rewrite H1.
  - intros j Hj. rewrite H2.
    destruct (Nat.leb_spec 0 j), (Nat.ltb_spec j (0 + D)); simpl; try lia.
    rewrite length_set_nth. now apply Hcols.
  - intros j i' Hj. rewrite H2.
    destruct (Nat.leb_spec 0 j), (Nat.ltb_spec j (0 + D)); simpl; try lia.
    destruct (Nat.eqb_spec i' i) as [->|Hne].
    + apply nth_set_nth_eq. rewrite Hcols; lia.
    + apply nth_set_nth_neq. lia.
Qed.

Lemma square_SetIdentity : square D (SetIdentity D).
Proof.
  unfold square, SetIdentity. split; [now rewrite length_map, length_seq|].
  intros j Hj. rewrite (nth_map_in _ _ _ O) by (rewrite length_seq; lia).
  now rewrite length_map, length_seq.
Qed.

Lemma nth_SetIdentity (j i : nat) :
  (j < D)%nat -> (i < D)%nat ->
  nth i (nth j (SetIdentity D) []) 0%float
  = if Nat.eqb i j then 1%float else 0%float.
Proof.
  intros Hj Hi. unfold SetIdentity.
  rewrite (nth_map_in _ _ _ O) by (rewrite length_seq; lia).
  rewrite (nth_map_in _ _ _ O) by (rewrite length_seq; lia).
  now rewrite !seq_nth by lia.
Qed.

(** The columns [0 .. k-1] read, the others as in the identity. *)
Lemma ReadDirection_columns (k : nat) :
  (k <= D)%nat ->
  square D (fold_left (fun dir i => ReadDirectionColumn D cfg i dir) (seq 0 k)
            (SetIdentity D))
  /\ forall j i, (j < D)%nat -> (i < D)%nat ->
       nth i
         (nth j
            (fold_left (fun dir i => ReadDirectionColumn D cfg i dir)
               (seq 0 k) (SetIdentity D)) [])
         0%float
       = if (i <? k)%nat
         then ReadParameter (if Nat.eqb i j then 1%float else 0%float)
                (directionEntry D cfg i j)
         else if Nat.eqb i j then 1%float else 0%float.
Proof.
  induction k as [|k IH]; intros Hk.
  - cbn [seq fold_left]. split; [apply square_SetIdentity|].
    intros j i Hj Hi. now apply nth_SetIdentity.
  - rewrite seq_S, fold_left_app. cbn [fold_left Nat.add].
    destruct IH as [Hsq Hnth]; [lia|].
    destruct (ReadDirectionColumn_spec k _ Hsq ltac:(lia)) as [Hsq' Hnth'].
    split; [exact Hsq'|].
    intros j i Hj Hi. rewrite Hnth' by assumption.
    destruct (Nat.eqb_spec i k) as [->|Hne].
    + rewrite Hnth by lia.
      destruct (Nat.ltb_spec k k), (Nat.ltb_spec k (S k)); try lia.
      reflexivity.
    + rewrite Hnth by lia.
      destruct (Nat.ltb_spec i k), (Nat.ltb_spec i (S k)); try lia;
        reflexivity.
Qed.

(** What ReadFromFile reads: on every axis the entry of the key where the
    configuration has one and the default otherwise; the direction matrix
    gets entry i * D + j at row j and column i. *)
Lemma ReadGrid_eq :
  ReadGrid D cfg
  = mkGridVariables
      (map (fun i => ReadParameter 1
                       (ReadEntryInteger cfg "GridSize" (Z.of_nat i)))
           (seq 0 D))
      (map (fun i => ReadParameter 0
                       (ReadEntryInteger cfg "GridIndex" (Z.of_nat i)))
           (seq 0 D))
      (map (fun i => ReadParameter 1%float
                       (ReadEntry cfg "GridSpacing" (Z.of_nat i)))
           (seq 0 D))
      (map (fun i => ReadParameter 0%float
                       (ReadEntry cfg "GridOrigin" (Z.of_nat i)))
           (seq 0 D))
      (map (fun j =>
              map (fun i =>
                     ReadParameter (if Nat.eqb i j then 1%float else 0%float)
                       (directionEntry D cfg i j))
                  (seq 0 D))
           (seq 0 D)).
Proof.
  unfold ReadGrid. rewrite ReadGrid_fold.
  cbn [gridsize gridindex gridspacing gridorigin griddirection].
  f_equal.
  - apply (axis_loop_repeat_Z
             (fun i x => ReadParameter x
                           (ReadEntryInteger cfg "GridSize" (Z.of_nat i)))).
  - apply (axis_loop_repeat_Z
             (fun i x => ReadParameter x
                           (ReadEntryInteger cfg "GridIndex" (Z.of_nat i)))).
  - apply (axis_loop_repeat
             (fun i x => ReadParameter x
                           (ReadEntry cfg "GridSpacing" (Z.of_nat i)))).
  - apply (axis_loop_repeat
             (fun i x => ReadParameter x
                           (ReadEntry cfg "GridOrigin" (Z.of_nat i)))).
  - destruct (ReadDirection_columns D (Nat.le_refl D)) as [[Hrows Hcols] Hnth].
    apply (nth_ext _ _ [] []); [now rewrite Hrows, length_map, length_seq|].
    intros j Hj. rewrite Hrows in Hj.
    rewrite (nth_map_in _ _ _ O) by (rewrite length_seq; lia).
    rewrite seq_nth by lia. cbn [Nat.add].
    apply (nth_ext _ _ 0%float 0%float);
      [now rewrite Hcols, length_map, length_seq|].
    intros i Hi. rewrite Hcols in Hi by lia.
    rewrite Hnth by lia.
    rewrite (nth_map_in _ _ _ O) by (rewrite length_seq; lia).
    rewrite seq_nth by lia. cbn [Nat.add].
    destruct (Nat.ltb_spec i D); [reflexivity|lia].
Qed.

End ReadGridFacts.

(** ** Reading back what was written *)

Lemma parse_integer_show (z : Z) : parse_integer (CInt.show z) = Some z.
Proof.
  unfold parse_integer, CInt.show.
  rewrite NilZero.isi.
  - cbn [option_map]. now rewrite DecimalZ.of_to.
  - destruct z; simpl; try discriminate.
    intros E. injection E as E. now apply DecimalPos.Unsigned.to_uint_nonnil in E.
  - destruct z; simpl; try discriminate.
    intros E. injection E as E. now apply DecimalPos.Unsigned.to_uint_nonnil in E.
Qed.

Lemma nth_error_blocks {X : Type} (g : nat -> list X) (D : nat) (l : list nat)
  (i j : nat) :
  (forall a, length (g a) = D) ->
  (i < length l)%nat -> (j < D)%nat ->
  nth_error (flat_map g l) (i * D + j) = nth_error (g (nth i l O)) j.
Proof.
  intros Hg. revert i.
  induction l as [|a l IH]; intros [|i] Hi Hj; simpl in Hi; try lia.
  - cbn [flat_map nth Nat.mul Nat.add]. apply nth_error_app1. now rewrite Hg.
  - cbn [flat_map nth]. rewrite nth_error_app2 by (rewrite Hg; lia).
    rewrite Hg. replace (S i * D + j - D)%nat with (i * D + j)%nat by lia.
    apply IH; lia.
Qed.

Section RoundTrip.
Variable D : nat.
Variable show_double : Z -> float -> string.
Variable parse_double : string -> option float.
Variable t : BSplineTransformType.

Hypothesis HD : (0 < D)%nat.
Hypothesis Hfits : Z.of_nat D * Z.of_nat D <= CInt.UINT_MAX.
Hypothesis Hsize : length (GetSize (GridRegion t)) = D.
Hypothesis Hindex : length (GetIndex (GridRegion t)) = D.
Hypothesis Hspacing : length (GridSpacing t) = D.
Hypothesis Horigin : length (GridOrigin t) = D.

Lemma written_GridSize (i : nat) :
  (i < D)%nat ->
  ReadEntryInteger (writtenConfiguration D show_double parse_double t) "GridSize" (Z.of_nat i)
  = Some (nth i (GetSize (GridRegion t)) 0).
Proof.
  intros Hi. unfold writtenConfiguration, fileConfiguration, gridTokens.
  cbn [ReadEntryInteger entriesOf String.eqb Ascii.eqb Bool.eqb andb].
  destruct (Z.ltb_spec (Z.of_nat i) 0); [lia|]. rewrite Nat2Z.id.
  rewrite (map_nth_error CInt.show i (GetSize (GridRegion t))
             (d := nth i (GetSize (GridRegion t)) 0))
    by (apply nth_error_nth'; lia).
  apply parse_integer_show.
Qed.

Lemma written_GridIndex (i : nat) :
  (i < D)%nat ->
  ReadEntryInteger (writtenConfiguration D show_double parse_double t) "GridIndex" (Z.of_nat i)
  = Some (nth i (GetIndex (GridRegion t)) 0).
Proof.
  intros Hi. unfold writtenConfiguration, fileConfiguration, gridTokens.
  cbn [ReadEntryInteger entriesOf String.eqb Ascii.eqb Bool.eqb andb].
  destruct (Z.ltb_spec (Z.of_nat i) 0); [lia|]. rewrite Nat2Z.id.
  rewrite (map_nth_error CInt.show i (GetIndex (GridRegion t))
             (d := nth i (GetIndex (GridRegion t)) 0))
    by (apply nth_error_nth'; lia).
  apply parse_integer_show.
Qed.

Lemma written_GridSpacing (i : nat) :
  (i < D)%nat ->
  ReadEntry (writtenConfiguration D show_double parse_double t) "GridSpacing" (Z.of_nat i)
  = parse_double (show_double 10 (nth i (GridSpacing t) 0%float)).
Proof.
  intros Hi. unfold writtenConfiguration, fileConfiguration, gridTokens.
  cbn [ReadEntry entriesOf String.eqb Ascii.eqb Bool.eqb andb].
  destruct (Z.ltb_spec (Z.of_nat i) 0); [lia|]. rewrite Nat2Z.id.
  now rewrite (map_nth_error (show_double 10) i (GridSpacing t)
                 (d := nth i (GridSpacing t) 0%float))
    by (apply nth_error_nth'; lia).
Qed.

Lemma written_GridOrigin (i : nat) :
  (i < D)%nat ->
  ReadEntry (writtenConfiguration D show_double parse_double t) "GridOrigin" (Z.of_nat i)
  = parse_double (show_double 10 (nth i (GridOrigin t) 0%float)).
Proof.
  intros Hi. unfold writtenConfiguration, fileConfiguration, gridTokens.
  cbn [ReadEntry entriesOf String.eqb Ascii.eqb Bool.eqb andb].
  destruct (Z.ltb_spec (Z.of_nat i) 0); [lia|]. rewrite Nat2Z.id.
  now rewrite (map_nth_error (show_double 10) i (GridOrigin t)
                 (d := nth i (GridOrigin t) 0%float))
    by (apply nth_error_nth'; lia).
Qed.

Lemma written_GridDirection (i j : nat) :
  (i < D)%nat -> (j < D)%nat ->
  ReadEntry (writtenConfiguration D show_double parse_double t) "GridDirection"
    (CInt.to_unsigned_int (Z.of_nat i * Z.of_nat D + Z.of_nat j))
  = parse_double
      (show_double 10 (nth i (nth j (GridDirection t) []) 0%float)).
Proof.
  intros Hi Hj. unfold writtenConfiguration, fileConfiguration, gridTokens.
  cbn [ReadEntry entriesOf String.eqb Ascii.eqb Bool.eqb andb].
  rewrite to_unsigned_int_small by nia.
  destruct (Z.ltb_spec (Z.of_nat i * Z.of_nat D + Z.of_nat j) 0); [lia|].
  replace (Z.to_nat (Z.of_nat i * Z.of_nat D + Z.of_nat j))
    with (i * D + j)%nat by lia.
  rewrite (nth_error_blocks _ D)
    by (try (intros; rewrite length_map, length_seq); try rewrite length_seq;
        auto).
  rewrite seq_nth by lia. cbn [Nat.add].
  rewrite (map_nth_error _ j (seq 0 D) (d := j)).
  - reflexivity.
  - rewrite (nth_error_nth' _ O) by (rewrite length_seq; lia).
    now rewrite seq_nth by lia.
Qed.

(** ReadFromFile on the configuration of the lines that WriteToFile wrote
    for the grid of [t]: the transform base then runs on a transform whose
    grid region is that of [t], exactly, and whose spacings, origins and
    direction entries are those of [t] as the file's reader reads back
    their decimal form of precision 10. *)
Theorem ReadFromFile_of_written_grid
  (TransformBase_ReadFromFile : elx unit) (this : Component) :
  m_Configuration this = (writtenConfiguration D show_double parse_double t) ->
  ReadFromFile D TransformBase_ReadFromFile this
  = TransformBase_ReadFromFile
      (set_Transform
         (mkTransform (GridRegion t)
            (map (rereadDouble show_double parse_double 1%float)
                 (GridSpacing t))
            (map (rereadDouble show_double parse_double 0%float)
                 (GridOrigin t))
            (map (fun j =>
                    map (fun i =>
                           rereadDouble show_double parse_double
                             (if Nat.eqb i j then 1%float else 0%float)
                             (nth i (nth j (GridDirection t) []) 0%float))
                        (seq 0 D))
                 (seq 0 D))
            (Parameters (m_PeriodicBSplineTransform this)))
         this).
Proof.
  intros Hcfg. unfold ReadFromFile, bind, get, put. cbv zeta.
  rewrite Hcfg, ReadGrid_eq.
  cbn [gridsize gridindex gridspacing gridorigin griddirection].
  f_equal. f_equal. f_equal.
  - assert (Ei : map (fun i =>
                        ReadParameter 0
                          (ReadEntryInteger (writtenConfiguration D show_double parse_double t) "GridIndex" (Z.of_nat i)))
                     (seq 0 D)
                 = GetIndex (GridRegion t)).
    { rewrite <- (map_id (GetIndex (GridRegion t))) at 1.
      rewrite <- (map_nth_seq (fun x => x) (GetIndex (GridRegion t)) 0), Hindex.
      apply map_ext_in. intros i Hi. apply in_seq in Hi.
      now rewrite written_GridIndex by lia. }
    assert (Es : map (fun i =>
                        ReadParameter 1
                          (ReadEntryInteger (writtenConfiguration D show_double parse_double t) "GridSize" (Z.of_nat i)))
                     (seq 0 D)
                 = GetSize (GridRegion t)).
    { rewrite <- (map_id (GetSize (GridRegion t))) at 1.
      rewrite <- (map_nth_seq (fun x => x) (GetSize (GridRegion t)) 0), Hsize.
      apply map_ext_in. intros i Hi. apply in_seq in Hi.
      now rewrite written_GridSize by lia. }
    rewrite Ei, Es. now destruct (GridRegion t).
  - rewrite <- (map_nth_seq _ (GridSpacing t) 0%float), Hspacing.
    apply map_ext_in. intros i Hi. apply in_seq in Hi.
    now rewrite written_GridSpacing by lia.
  - rewrite <- (map_nth_seq _ (GridOrigin t) 0%float), Horigin.
    apply map_ext_in. intros i Hi. apply in_seq in Hi.
    now rewrite written_GridOrigin by lia.
  - apply map_ext_in. intros j Hj. apply in_seq in Hj.
    apply map_ext_in. intros i Hi. apply in_seq in Hi.
    unfold directionEntry. now rewrite written_GridDirection by lia.
Qed.

End RoundTrip.

(** Writing a grid and reading it back. For a grid with D entries per
    vector and a D x D direction matrix, whose spacings, origins and
    direction entries are read back from their decimal form of precision 10
    as the values they were, ReadFromFile on the lines of WriteToFile hands
    to the transform base a transform with the identical grid: region,
    spacing, origin and direction. Sizes and indices, printed in decimal,
    always come back as they were. *)
Theorem ReadFromFile_restores_written_grid (D : nat)
  (show_double : Z -> float -> string) (parse_double : string -> option float)
  (TransformBase_ReadFromFile : elx unit) (t : BSplineTransformType)
  (this : Component) :
  (0 < D)%nat ->
  Z.of_nat D * Z.of_nat D <= CInt.UINT_MAX ->
  length (GetSize (GridRegion t)) = D ->
  length (GetIndex (GridRegion t)) = D ->
  length (GridSpacing t) = D ->
  length (GridOrigin t) = D ->
  square D (GridDirection t) ->
  (forall x, In x (GridSpacing t) -> parse_double (show_double 10 x) = Some x) ->
  (forall x, In x (GridOrigin t) -> parse_double (show_double 10 x) = Some x) ->
  (forall row x, In row (GridDirection t) -> In x row ->
                 parse_double (show_double 10 x) = Some x) ->
  m_Configuration this
  = fileConfiguration parse_double (gridTokens D show_double t) ->
  ReadFromFile D TransformBase_ReadFromFile this
  = TransformBase_ReadFromFile
      (set_Transform
         (mkTransform (GridRegion t) (GridSpacing t) (GridOrigin t)
            (GridDirection t)
            (Parameters (m_PeriodicBSplineTransform this)))
         this).
Proof.
  intros HD Hfits Hsize Hindex Hspacing Horigin [Hrows Hcols]
    Hs Ho Hd Hcfg.
  rewrite (ReadFromFile_of_written_grid D show_double parse_double t)
    by assumption.
  f_equal. f_equal. f_equal.
  - rewrite <- (map_id (GridSpacing t)) at 2. apply map_ext_in.
    intros x Hx. unfold rereadDouble. now rewrite Hs.
  - rewrite <- (map_id (GridOrigin t)) at 2. apply map_ext_in.
    intros x Hx. unfold rereadDouble. now rewrite Ho.
  - apply (nth_ext _ _ [] []); [now rewrite length_map, length_seq|].
    intros j Hj. rewrite length_map, length_seq in Hj.
    rewrite (nth_map_in _ _ _ O) by (rewrite length_seq; lia).
    rewrite seq_nth by lia. cbn [Nat.add].
    apply (nth_ext _ _ 0%float 0%float);
      [now rewrite length_map, length_seq, Hcols|].
    intros i Hi. rewrite length_map, length_seq in Hi.
    rewrite (nth_map_in _ _ _ O) by (rewrite length_seq; lia).
    rewrite seq_nth by lia. cbn [Nat.add].
    unfold rereadDouble. rewrite (Hd (nth j (GridDirection t) [])).
    + reflexivity.
    + apply nth_In. lia.
    + apply nth_In. rewrite Hcols; lia.
Qed.

Lemma WriteGridToFile_lines_witness :
  xout (snd (WriteGridToFile 2 showSmall writingComponent))
  = [mkLine "transpar" "";
     mkLine "transpar" "// BSplineTransform specific";
     mkLine "transpar" "(GridSize 7 5)";
     mkLine "transpar" "(GridIndex -3 0)";
     mkLine "transpar" "(GridSpacing 16 16)";
     mkLine "transpar" "(GridOrigin 0 0)";
     mkLine "transpar" "(GridDirection 1 0 0 1)"].
Proof.
  rewrite (WriteGridToFile_lines 2 showSmall writingComponent);
    [reflexivity | lia | reflexivity ..].
Defined.

Lemma ReadFromFile_restores_written_grid_witness :
  m_PeriodicBSplineTransform (snd (ReadFromFile 2 (ret tt) readingComponent))
  = writtenTransform.
Proof.
  rewrite (ReadFromFile_restores_written_grid 2 showSmall parseSmall (ret tt)
             writtenTransform readingComponent).
  - reflexivity.
  - lia.
  - vm_compute. discriminate.
  - reflexivity.
  - reflexivity.
  - reflexivity.
  - reflexivity.
  - split; [reflexivity|]. intros [|[|j]] Hj; [reflexivity | reflexivity | lia].
  - intros x [<-|[<-|[]]]; reflexivity.
  - intros x [<-|[<-|[]]]; reflexivity.
  - intros row x [<-|[<-|[]]] [<-|[<-|[]]]; reflexivity.
  - reflexivity.
Defined.

(** * Further properties of the member functions *)

(** ** PreComputeGridInformation: what a run leaves behind *)

Lemma acceptedCount_true (D : nat) (this : Component) :
  acceptedCount D this = true <->
  scheduleCount this = 0
  \/ scheduleCount this = nrOfResolutions this
  \/ scheduleCount this
     = CInt.to_unsigned_int (nrOfResolutions this * Z.of_nat D).
Proof.
  unfold acceptedCount. rewrite !orb_true_iff, !Z.eqb_eq. tauto.
Qed.

Lemma acceptedCount_false (D : nat) (this : Component) :
  acceptedCount D this = false <->
  scheduleCount this <> 0
  /\ scheduleCount this <> nrOfResolutions this
  /\ scheduleCount this
     <> CInt.to_unsigned_int (nrOfResolutions this * Z.of_nat D).
Proof.
  unfold acceptedCount. rewrite !orb_false_iff, !Z.eqb_neq. tauto.
Qed.

(** The two runs of PreComputeGridInformation, in one equation. *)
Lemma PreComputeGridInformation_run (D : nat) (this : Component) :
  PreComputeGridInformation D this
  = if acceptedCount D this then
      (Returned tt,
       mkComponent (m_PeriodicBSplineTransform this)
         (mkComputer (Some (FixedImage this))
            (if UseComposition this then true
             else ComputerUsesInitialTransform (m_GridScheduleComputer this))
            (Some (ResolveFinalGridSpacing D this))
            (chosenSchedule D this) true)
         (m_Registration this) (m_Configuration this) (FixedImage this)
         (UseComposition this) (ComponentLabel this)
         (xout this ++ [mkLine "warning" GridSpacingAdaptedWarning]))
    else
      (Thrown "ERROR: Invalid GridSpacingSchedule!",
       mkComponent (m_PeriodicBSplineTransform this)
         (computerWithDefaults D this)
         (m_Registration this) (m_Configuration this) (FixedImage this)
         (UseComposition this) (ComponentLabel this)
         (xout this ++ [mkLine "error" InvalidGridSpacingScheduleError])).
Proof.
  destruct (acceptedCount D this) eqn:E.
  - apply PreComputeGridInformation_accepts. now apply acceptedCount_true.
  - apply acceptedCount_false in E as (E0 & E1 & E2).
    now apply PreComputeGridInformation_refuses.
Qed.

(** PreComputeGridInformation writes to the grid schedule computer and to
    xl::xout and to nothing else: the transform, the registration, the
    configuration and the fixed image are as before, in an accepted run and
    in a refused one. In both the computer has received the geometry of the
    fixed image, and takes the initial transform into account if
    composition is used or if it did before. One line is written: the
    warning when the run returns, the error when it throws. *)
Theorem PreComputeGridInformation_frame (D : nat) (this : Component) :
  let this' := snd (PreComputeGridInformation D this) in
  m_PeriodicBSplineTransform this' = m_PeriodicBSplineTransform this
  /\ m_Registration this' = m_Registration this
  /\ m_Configuration this' = m_Configuration this
  /\ FixedImage this' = FixedImage this
  /\ UseComposition this' = UseComposition this
  /\ ComponentLabel this' = ComponentLabel this
  /\ ComputerImage (m_GridScheduleComputer this') = Some (FixedImage this)
  /\ ComputerUsesInitialTransform (m_GridScheduleComputer this')
     = UseComposition this
       || ComputerUsesInitialTransform (m_GridScheduleComputer this)
  /\ fst (PreComputeGridInformation D this)
     = (if acceptedCount D this then Returned tt
        else Thrown "ERROR: Invalid GridSpacingSchedule!")
  /\ xout this'
     = xout this
       ++ [if acceptedCount D this
           then mkLine "warning" GridSpacingAdaptedWarning
           else mkLine "error" InvalidGridSpacingScheduleError].
Proof.
  cbv zeta. rewrite PreComputeGridInformation_run.
  destruct (acceptedCount D this); cbn [fst snd];
    repeat split; destruct (UseComposition this); reflexivity.
Qed.

(** The schedule depends on the component through its configuration and
    its registration only. *)
Lemma chosenSchedule_ext (D : nat) (this other : Component) :
  m_Configuration other = m_Configuration this ->
  NumberOfLevels (m_Registration other) = NumberOfLevels (m_Registration this) ->
  chosenSchedule D other = chosenSchedule D this.
Proof.
  intros Hc Hn.
  unfold chosenSchedule, scheduleCount, nrOfResolutions, ReadSchedule,
    ReadScheduleLevel, ReadScheduleEntry.
  now rewrite Hc, Hn.
Qed.

Lemma acceptedCount_ext (D : nat) (this other : Component) :
  m_Configuration other = m_Configuration this ->
  NumberOfLevels (m_Registration other) = NumberOfLevels (m_Registration this) ->
  acceptedCount D other = acceptedCount D this.
Proof.
  intros Hc Hn. unfold acceptedCount, scheduleCount, nrOfResolutions.
  now rewrite Hc, Hn.
Qed.

Lemma ResolveFinalGridSpacing_ext (D : nat) (this other : Component) :
  m_Configuration other = m_Configuration this ->
  ComponentLabel other = ComponentLabel this ->
  FixedImage other = FixedImage this ->
  ResolveFinalGridSpacing D other = ResolveFinalGridSpacing D this.
Proof.
  intros Hc Hl Hi.
  unfold ResolveFinalGridSpacing, method2, ReadFinalGridSpacingInPhysicalUnits,
    ReadFinalGridSpacingInVoxels, VoxelsToPhysicalUnits.
  now rewrite Hc, Hl, Hi.
Qed.

(** A second run of PreComputeGridInformation ends as the first did and
    leaves in the grid schedule computer what the first left: the function
    reads the configuration, the registration and the fixed image, none of
    which it changes. *)
Theorem PreComputeGridInformation_twice (D : nat) (this : Component) :
  let once := PreComputeGridInformation D this in
  let twice := PreComputeGridInformation D (snd once) in
  fst twice = fst once
  /\ m_GridScheduleComputer (snd twice) = m_GridScheduleComputer (snd once)
  /\ m_PeriodicBSplineTransform (snd twice) = m_PeriodicBSplineTransform this
  /\ m_Registration (snd twice) = m_Registration this.
Proof.
  cbv zeta. rewrite (PreComputeGridInformation_run D this).
  destruct (acceptedCount D this) eqn:Ea; cbn [fst snd];
    match goal with
    | |- context [PreComputeGridInformation D ?c] =>
        rewrite (PreComputeGridInformation_run D c);
        rewrite (acceptedCount_ext D this c) by reflexivity;
        rewrite Ea; cbn [fst snd m_GridScheduleComputer
                         m_PeriodicBSplineTransform m_Registration
                         FixedImage UseComposition];
        try rewrite (ResolveFinalGridSpacing_ext D this c) by reflexivity;
        try rewrite (chosenSchedule_ext D this c) by reflexivity
    end.
  - cbn [ComputerUsesInitialTransform].
    now destruct (UseComposition this).
  - unfold computerWithDefaults, nrOfResolutions.
    cbn [m_GridScheduleComputer m_Registration FixedImage UseComposition
         ComputerUsesInitialTransform FinalGridSpacing BSplineGridComputed].
    now destruct (UseComposition this).
Qed.

(** ** The shape of the schedule *)

Lemma nrOfResolutions_range (this : Component) :
  0 <= nrOfResolutions this <= CInt.UINT_MAX.
Proof.
  unfold nrOfResolutions, CInt.to_unsigned_int, CInt.UINT_MAX.
  pose proof (Z.mod_pos_bound (NumberOfLevels (m_Registration this)) (2 ^ 32)).
  lia.
Qed.

Lemma Forall_rows_nth (D : nat) (sched : list (list float)) :
  (forall res, (res < length sched)%nat -> length (nth res sched []) = D) ->
  Forall (fun row => length row = D) sched.
Proof.
  intros H. apply Forall_nth. intros i d Hi.
  rewrite (nth_indep _ d []) by exact Hi. now apply H.
Qed.

Lemma DefaultSchedule_rows (D : nat) (levels : Z) (factor : float) (res : nat) :
  (res < Z.to_nat levels)%nat ->
  length (nth res (DefaultSchedule D levels factor) []) = D.
Proof.
  intros H. rewrite nth_DefaultSchedule by exact H. apply repeat_length.
Qed.

Lemma ReadSchedule_shape (D : nat) (this : Component) (perLevel : bool)
  (levels : Z) :
  0 <= levels <= CInt.UINT_MAX ->
  let sched :=
    ReadSchedule D this perLevel levels (DefaultSchedule D levels 2%float) in
  length sched = Z.to_nat levels
  /\ forall res, (res < Z.to_nat levels)%nat -> length (nth res sched []) = D.
Proof.
  intros Hlevels. cbv zeta. unfold ReadSchedule. destruct perLevel.
  - destruct (ReadSchedule_levels D this (Z.to_nat levels) 0
                (DefaultSchedule D levels 2%float)) as (_ & Hlen & Hrows).
    + rewrite length_DefaultSchedule. lia.
    + intros r Hr. apply DefaultSchedule_rows. lia.
    + lia.
    + change (Z.of_nat 0) with 0 in Hlen, Hrows.
      split; [now rewrite Hlen, length_DefaultSchedule|].
      intros res Hres. rewrite Hrows.
      destruct (Nat.leb_spec 0 res), (Nat.ltb_spec res (0 + Z.to_nat levels));
        simpl; try lia.
      rewrite length_map. now apply DefaultSchedule_rows.
  - destruct (ReadSchedule_axis_levels D this (Z.to_nat levels) 0
                (DefaultSchedule D levels 2%float)) as (Hlen & Hrows & _).
    + rewrite length_DefaultSchedule. lia.
    + intros r Hr. apply DefaultSchedule_rows. lia.
    + change (CInt.to_unsigned_int (Z.of_nat 0 * Z.of_nat D)) with 0
        in Hlen, Hrows.
      split; [now rewrite Hlen, length_DefaultSchedule|].
      intros res Hres. rewrite Hrows. now apply DefaultSchedule_rows.
Qed.

Lemma chosenSchedule_shape (D : nat) (this : Component) :
  length (chosenSchedule D this) = Z.to_nat (nrOfResolutions this)
  /\ Forall (fun row => length row = D) (chosenSchedule D this).
Proof.
  pose proof (nrOfResolutions_range this) as Hn.
  assert (H : length (chosenSchedule D this) = Z.to_nat (nrOfResolutions this)
              /\ forall res, (res < Z.to_nat (nrOfResolutions this))%nat ->
                   length (nth res (chosenSchedule D this) []) = D).
  { unfold chosenSchedule.
    destruct (scheduleCount this =? 0);
      [|destruct (scheduleCount this =? nrOfResolutions this)].
    - split; [apply length_DefaultSchedule|].
      intros res Hres. now apply DefaultSchedule_rows.
    - now apply ReadSchedule_shape.
    - now apply ReadSchedule_shape. }
  destruct H as [Hlen Hrows]. split; [exact Hlen|].
  apply Forall_rows_nth. intros res Hres. apply Hrows. lia.
Qed.

Lemma length_ResolveFinalGridSpacing (D : nat) (this : Component) :
  length (ResolveFinalGridSpacing D this) = D.
Proof.
  destruct (Z.eq_dec
              (CountNumberOfParameterEntries (m_Configuration this)
                 "FinalGridSpacingInPhysicalUnits") 0) as [E|E].
  - rewrite ResolveFinalGridSpacing_voxels by exact E.
    now rewrite length_map, length_seq.
  - rewrite ResolveFinalGridSpacing_physical by exact E.
    now rewrite length_map, length_seq.
Qed.

(** Whatever the configuration holds, the grid schedule that a run of
    PreComputeGridInformation leaves in the computer has one row for each of
    the numberOfResolutions levels and SpaceDimension multipliers in every
    row: entries that the configuration lacks leave the default multiplier
    in place, and a refused run leaves the default schedule. The final grid
    spacing that an accepted run sets has SpaceDimension entries. *)
Theorem PreComputeGridInformation_schedule_shape (D : nat) (this : Component) :
  let computer :=
    m_GridScheduleComputer (snd (PreComputeGridInformation D this)) in
  length (Schedule computer) = Z.to_nat (nrOfResolutions this)
  /\ Forall (fun row => length row = D) (Schedule computer)
  /\ FinalGridSpacing computer
     = (if acceptedCount D this then Some (ResolveFinalGridSpacing D this)
        else FinalGridSpacing (m_GridScheduleComputer this))
  /\ length (ResolveFinalGridSpacing D this) = D.
Proof.
  cbv zeta. rewrite PreComputeGridInformation_run.
  destruct (chosenSchedule_shape D this) as [Hlen Hrows].
  destruct (acceptedCount D this);
    cbn [fst snd m_GridScheduleComputer Schedule FinalGridSpacing].
  - repeat split; auto using length_ResolveFinalGridSpacing.
  - unfold computerWithDefaults. cbn [Schedule FinalGridSpacing].
    repeat split; auto using length_ResolveFinalGridSpacing.
    + apply length_DefaultSchedule.
    + apply Forall_rows_nth. intros res Hres.
      rewrite length_DefaultSchedule in Hres. now apply DefaultSchedule_rows.
Qed.

(** ** BeforeRegistration *)

Lemma array_set_of_nat {A : Type} (a : list A) (i : nat) (v : A) :
  array_set a (Z.of_nat i) v = set_nth i v a.
Proof.
  unfold array_set. destruct (Z.ltb_spec (Z.of_nat i) 0); [lia|].
  now rewrite Nat2Z.id.
Qed.

Lemma set_nth_last_repeat {A : Type} (x v : A) (n : nat) :
  set_nth n v (repeat x (S n)) = repeat x n ++ [v].
Proof. induction n as [|n IH]; simpl in *; [reflexivity|now rewrite IH]. Qed.

Lemma GetNumberOfPixels_ones (n : nat) (s : Z) :
  GetNumberOfPixels (repeat 1 n ++ [s]) = s.
Proof.
  unfold GetNumberOfPixels.
  induction n as [|n IH]; cbn [repeat app fold_right]; [lia|].
  rewrite IH. lia.
Qed.

(** PreComputeGridInformation does not read the transform. *)
Lemma PreComputeGridInformation_set_Transform (D : nat)
  (t : BSplineTransformType) (this : Component) :
  PreComputeGridInformation D (set_Transform t this)
  = (fst (PreComputeGridInformation D this),
     set_Transform t (snd (PreComputeGridInformation D this))).
Proof.
  rewrite (PreComputeGridInformation_run D this),
    (PreComputeGridInformation_run D (set_Transform t this)).
  rewrite (acceptedCount_ext D this (set_Transform t this)) by reflexivity.
  rewrite (ResolveFinalGridSpacing_ext D this (set_Transform t this))
    by reflexivity.
  rewrite (chosenSchedule_ext D this (set_Transform t this)) by reflexivity.
  destruct (acceptedCount D this); reflexivity.
Qed.

(** The run of BeforeRegistration, in one equation. *)
Lemma BeforeRegistration_run (D : nat) (s : ComponentBeforeRegistration) :
  (0 < D)%nat -> Z.of_nat D <= CInt.UINT_MAX ->
  let before := m_PeriodicBSplineTransform (component s) in
  let run := PreComputeGridInformation D (component s) in
  BeforeRegistration D s
  = (fst run,
     mkBeforeRegistration
       (set_Transform
          (mkTransform (mkRegion (repeat 0 D) (repeat 1 (D - 1) ++ [4]))
             (repeat 1%float D) (repeat 0%float D)
             (GridDirection before) (Parameters before))
          (snd run))
       (repeat 0%float (4 * D))).
Proof.
  intros HD Hmax. cbv zeta. unfold BeforeRegistration.
  rewrite PreComputeGridInformation_set_Transform.
  unfold CInt.UINT_MAX in Hmax.
  rewrite to_unsigned_int_small by (unfold CInt.UINT_MAX; lia).
  replace (Z.of_nat D - 1) with (Z.of_nat (D - 1)) by lia.
  rewrite array_set_of_nat.
  replace (repeat 1 D) with (repeat 1 (S (D - 1))) by (f_equal; lia).
  rewrite set_nth_last_repeat.
  unfold GetNumberOfParameters. cbn [GridRegion GetSize].
  rewrite GetNumberOfPixels_ones.
  rewrite to_unsigned_long_small by lia.
  unfold Fill. replace (Z.to_nat (Z.of_nat D * 4)) with (4 * D)%nat by lia.
  replace (S (D - 1)) with D by lia. reflexivity.
Qed.

(** BeforeRegistration gives the transform the placeholder grid of one
    control point along every axis but the last, which has four, at index
    0 with spacing 1 and origin 0, and does not set the grid direction; it
    gives the registration 4 * SpaceDimension zeros as initial parameters;
    and it ends as PreComputeGridInformation does on the component, with
    the grid schedule computer and the output that function leaves: when
    that throws on the entry count of GridSpacingSchedule, the grid and the
    initial parameters are set all the same. *)
Theorem BeforeRegistration_placeholder_grid (D : nat)
  (s : ComponentBeforeRegistration) :
  (0 < D)%nat -> Z.of_nat D <= CInt.UINT_MAX ->
  let s' := snd (BeforeRegistration D s) in
  let t' := m_PeriodicBSplineTransform (component s') in
  let run := PreComputeGridInformation D (component s) in
  GridRegion t' = mkRegion (repeat 0 D) (repeat 1 (D - 1) ++ [4])
  /\ GridSpacing t' = repeat 1%float D
  /\ GridOrigin t' = repeat 0%float D
  /\ GridDirection t'
     = GridDirection (m_PeriodicBSplineTransform (component s))
  /\ InitialTransformParameters s' = repeat 0%float (4 * D)
  /\ fst (BeforeRegistration D s) = fst run
  /\ m_GridScheduleComputer (component s') = m_GridScheduleComputer (snd run)
  /\ xout (component s') = xout (snd run).
Proof.
  intros HD Hmax. cbv zeta.
  rewrite (BeforeRegistration_run D s HD Hmax). cbn. repeat split.
Qed.

Lemma BeforeRegistration_placeholder_grid_witness :
  (fst (BeforeRegistration 2 voxels16AtStart) = Returned tt
   /\ GridRegion
        (m_PeriodicBSplineTransform
           (component (snd (BeforeRegistration 2 voxels16AtStart))))
      = mkRegion [0; 0] [1; 4]
   /\ InitialTransformParameters (snd (BeforeRegistration 2 voxels16AtStart))
      = [0; 0; 0; 0; 0; 0; 0; 0]%float)
  /\ (fst (BeforeRegistration 2 fourEntriesAtStart)
      = Thrown "ERROR: Invalid GridSpacingSchedule!"
      /\ InitialTransformParameters
           (snd (BeforeRegistration 2 fourEntriesAtStart))
         = [0; 0; 0; 0; 0; 0; 0; 0]%float).
Proof.
  destruct (BeforeRegistration_placeholder_grid 2 voxels16AtStart)
    as (Hregion & _ & _ & _ & Hinitial & Hresult & _);
    [lia | vm_compute; discriminate |].
  destruct (BeforeRegistration_placeholder_grid 2 fourEntriesAtStart)
    as (_ & _ & _ & _ & Hinitial' & Hresult' & _);
    [lia | vm_compute; discriminate |].
  split; [split; [|split]|split].
  - rewrite Hresult. reflexivity.
  - exact Hregion.
  - exact Hinitial.
  - rewrite Hresult'. reflexivity.
  - exact Hinitial'.
Defined.

(** ** SetOptimizerScales: what it leaves alone *)

(** SetOptimizerScales changes the scales of the optimizer or, when it
    throws, xl::xout, and nothing else: the transform with its grid and
    parameters, the grid schedule computer, the configuration, and the
    level and the parameter arrays of the registration are as before. A run
    that returns writes no line; a run that throws leaves the scales that
    the optimizer had and writes one error line. *)
Theorem SetOptimizerScales_frame (D : nat) (w : Z) (this : Component) :
  let this' := snd (SetOptimizerScales D w this) in
  m_PeriodicBSplineTransform this' = m_PeriodicBSplineTransform this
  /\ m_GridScheduleComputer this' = m_GridScheduleComputer this
  /\ m_Configuration this' = m_Configuration this
  /\ FixedImage this' = FixedImage this
  /\ ComponentLabel this' = ComponentLabel this
  /\ CurrentLevel (m_Registration this') = CurrentLevel (m_Registration this)
  /\ NumberOfLevels (m_Registration this')
     = NumberOfLevels (m_Registration this)
  /\ InitialTransformParametersOfNextLevel (m_Registration this')
     = InitialTransformParametersOfNextLevel (m_Registration this)
  /\ LastTransformParameters (m_Registration this')
     = LastTransformParameters (m_Registration this)
  /\ match fst (SetOptimizerScales D w this) with
     | Returned _ => xout this' = xout this
     | Thrown _ =>
         OptimizerScales (m_Registration this')
         = OptimizerScales (m_Registration this)
         /\ length (xout this') = S (length (xout this))
         /\ firstn (length (xout this)) (xout this') = xout this
     end.
Proof.
  cbv zeta. pose proof (SetOptimizerScales_outcome D w this) as H.
  destruct (SetOptimizerScales D w this) as [[r|what] this']; cbn [fst snd].
  - destruct H as (newScales & -> & _). repeat split.
  - destruct H as (_ & _ & d & _ & ->). cbn.
    repeat split.
    + rewrite length_app. cbn. lia.
    + rewrite firstn_app, Nat.sub_diag, firstn_all. cbn. apply app_nil_r.
Qed.

(** The loop that determines the inset region does not read the
    registration. *)
Lemma insetBody_set_Registration (w : Z) (gridsize : SizeType)
  (gridindex : IndexType) (i : nat) (s : SizeType * IndexType)
  (r : RegistrationType) (this : Component) :
  insetBody w gridsize gridindex i s (set_Registration r this)
  = (fst (insetBody w gridsize gridindex i s this),
     set_Registration r (snd (insetBody w gridsize gridindex i s this))).
Proof. unfold insetBody. destruct (_ =? 0); reflexivity. Qed.

Lemma inset_loop_set_Registration (w : Z) (gridsize : SizeType)
  (gridindex : IndexType) (n i : nat) (s : SizeType * IndexType)
  (r : RegistrationType) (this : Component) :
  for_ i n (insetBody w gridsize gridindex) s (set_Registration r this)
  = (fst (for_ i n (insetBody w gridsize gridindex) s this),
     set_Registration r (snd (for_ i n (insetBody w gridsize gridindex) s this))).
Proof.
  revert i s this. induction n as [|n IH]; intros i s this; cbn [for_].
  - reflexivity.
  - unfold bind. rewrite insetBody_set_Registration.
    destruct (insetBody w gridsize gridindex i s this) as [[s'|what] this1];
      cbn [fst snd]; [apply IH|reflexivity].
Qed.

Lemma DetermineInsetRegion_set_Registration (D : nat) (w : Z)
  (region : RegionType) (r : RegistrationType) (this : Component) :
  DetermineInsetRegion D w region (set_Registration r this)
  = (fst (DetermineInsetRegion D w region this),
     set_Registration r (snd (DetermineInsetRegion D w region this))).
Proof.
  unfold DetermineInsetRegion, bind. rewrite inset_loop_set_Registration.
  destruct (for_ 0 D _ _ this) as [[s|what] this1]; reflexivity.
Qed.

Lemma DetermineInsetRegion_returns_same (D : nat) (w : Z)
  (region inset : RegionType) (this this1 : Component) :
  DetermineInsetRegion D w region this = (Returned inset, this1) ->
  this1 = this.
Proof.
  unfold DetermineInsetRegion, bind.
  pose proof (inset_loop_outcome w (GetSize region) (GetIndex region) D 0
                (repeat 0 D, repeat 0 D) this) as H.
  destruct (for_ 0 D _ _ this) as [[s|what] this'];
    unfold ret; intros E; [|discriminate].
  injection E as _ <-. exact H.
Qed.

Lemma SetOptimizerScales_run (D : nat) (w : Z) (this : Component) :
  SetOptimizerScales D w this
  = if w =? 0 then
      SetScales
        (Fill (GetNumberOfParameters D (m_PeriodicBSplineTransform this)) One)
        this
    else
      match DetermineInsetRegion D w (GetGridRegion this) this with
      | (Returned inset, this1) =>
          SetScales
            (fold_left
               (freezeIndex D (GetGridRegion this)
                  (GetNumberOfParameters D (m_PeriodicBSplineTransform this)
                   / Z.of_nat D))
               (ExclusionWalk (GetGridRegion this) inset)
               (Fill (GetNumberOfParameters D (m_PeriodicBSplineTransform this))
                  One))
            this1
      | (Thrown what, this1) => (Thrown what, this1)
      end.
Proof.
  unfold SetOptimizerScales, bind, get. cbv zeta.
  destruct (w =? 0); reflexivity.
Qed.

(** The scales that SetOptimizerScales sets do not depend on the scales the
    optimizer had: they are computed afresh from the grid, so that nothing
    of an earlier level's passive edge carries over, and a second call with
    the same edge width on the same grid changes nothing. *)
Theorem SetOptimizerScales_overwrites (D : nat) (w : Z) (this : Component)
  (scales : ScalesType) :
  fst (SetOptimizerScales D w (snd (SetScales scales this)))
  = fst (SetOptimizerScales D w this)
  /\ (fst (SetOptimizerScales D w this) = Returned tt ->
      snd (SetOptimizerScales D w (snd (SetScales scales this)))
      = snd (SetOptimizerScales D w this)
      /\ SetOptimizerScales D w (snd (SetOptimizerScales D w this))
         = SetOptimizerScales D w this).
Proof.
  assert (Hgen : forall scales',
            fst (SetOptimizerScales D w (snd (SetScales scales' this)))
            = fst (SetOptimizerScales D w this)
            /\ (fst (SetOptimizerScales D w this) = Returned tt ->
                snd (SetOptimizerScales D w (snd (SetScales scales' this)))
                = snd (SetOptimizerScales D w this))).
  { intros scales'. unfold SetScales. cbn [snd].
    rewrite !SetOptimizerScales_run.
    change (GetGridRegion (set_Registration ?r this))
      with (GetGridRegion this).
    change (m_PeriodicBSplineTransform (set_Registration ?r this))
      with (m_PeriodicBSplineTransform this).
    destruct (w =? 0); [split; reflexivity|].
    rewrite DetermineInsetRegion_set_Registration.
    destruct (DetermineInsetRegion D w (GetGridRegion this) this)
      as [[inset|what] this1] eqn:E; cbn [fst snd].
    - apply DetermineInsetRegion_returns_same in E. subst this1.
      split; reflexivity.
    - split; [reflexivity|discriminate]. }
  split; [apply Hgen|]. intros Hret. split; [now apply Hgen|].
  pose proof (SetOptimizerScales_outcome D w this) as H.
  destruct (SetOptimizerScales D w this) as [[[]|what] this'] eqn:E;
    [|discriminate].
  destruct H as (newScales & -> & _). cbn [snd].
  destruct (Hgen newScales) as [H1 H2]. rewrite ?E in H1, H2.
  cbn [fst snd] in H1, H2. specialize (H2 eq_refl).
  destruct (SetOptimizerScales D w (snd (SetScales newScales this)))
    as [r2 this2]. cbn [fst snd] in H1, H2. now subst.
Qed.

Lemma SetOptimizerScales_overwrites_witness :
  fst (SetOptimizerScales 2 2 (snd (SetScales [] grid10x10)))
  = fst (SetOptimizerScales 2 2 grid10x10)
  /\ snd (SetOptimizerScales 2 2 (snd (SetScales [] grid10x10)))
     = snd (SetOptimizerScales 2 2 grid10x10)
  /\ SetOptimizerScales 2 2 (snd (SetOptimizerScales 2 2 grid10x10))
     = SetOptimizerScales 2 2 grid10x10.
Proof.
  destruct (SetOptimizerScales_overwrites 2 2 grid10x10 []) as [H1 H2].
  split; [exact H1|]. apply H2. reflexivity.
Defined.

(** ** BeforeEachResolution: the grid and the parameters of a level *)

Lemma SetOptimizerScales_keeps (D : nat) (w : Z) (this : Component) :
  let this' := snd (SetOptimizerScales D w this) in
  m_PeriodicBSplineTransform this' = m_PeriodicBSplineTransform this
  /\ InitialTransformParametersOfNextLevel (m_Registration this')
     = InitialTransformParametersOfNextLevel (m_Registration this)
  /\ LastTransformParameters (m_Registration this')
     = LastTransformParameters (m_Registration this)
  /\ (fst (SetOptimizerScales D w this) = Returned tt ->
      exists newScales,
        OptimizerScales (m_Registration this') = Some newScales
        /\ length newScales
           = Z.to_nat
               (GetNumberOfParameters D (m_PeriodicBSplineTransform this))).
Proof.
  cbv zeta. pose proof (SetOptimizerScales_outcome D w this) as H.
  destruct (SetOptimizerScales D w this) as [[r|what] this']; cbn [fst snd].
  - destruct H as (newScales & -> & Hlen & _). repeat split.
    intros _. exists newScales. split; [reflexivity|exact Hlen].
  - destruct H as (_ & _ & d & _ & ->). repeat split. discriminate.
Qed.

(** At level 0 BeforeEachResolution installs in the transform the grid that
    the schedule computer reports for level 0: region, spacing, origin and
    direction; the initial parameters of the next level are zeros, as many
    as the new grid has parameters; the last transform parameters are not
    touched. This holds when the PassiveEdgeWidth check throws as well.
    When the function returns, the optimizer has as many scales as there
    are initial parameters. *)
Theorem BeforeEachResolution_first_level (D : nat)
  (GetBSplineGrid : GridScheduleComputerType -> Z -> GridGeometry)
  (UpsampleParameters :
     GridGeometry -> GridGeometry -> ParametersType -> ParametersType)
  (this : Component) :
  currentLevel this = 0 ->
  let this' :=
    snd (BeforeEachResolution D GetBSplineGrid UpsampleParameters this) in
  let t' := m_PeriodicBSplineTransform this' in
  let grid := GetBSplineGrid (m_GridScheduleComputer this) 0 in
  GridRegion t' = gridRegion grid
  /\ GridSpacing t' = gridSpacing grid
  /\ GridOrigin t' = gridOrigin grid
  /\ GridDirection t' = gridDirection grid
  /\ InitialTransformParametersOfNextLevel (m_Registration this')
     = Fill (GetNumberOfParameters D t') 0%float
  /\ LastTransformParameters (m_Registration this')
     = LastTransformParameters (m_Registration this)
  /\ (fst (BeforeEachResolution D GetBSplineGrid UpsampleParameters this)
      = Returned tt ->
      exists newScales,
        OptimizerScales (m_Registration this') = Some newScales
        /\ length newScales
           = length (InitialTransformParametersOfNextLevel
                       (m_Registration this'))).
Proof.
  intros Hlevel. cbv zeta.
  rewrite (BeforeEachResolution_eq D GetBSplineGrid UpsampleParameters this).
  destruct (SetOptimizerScales_keeps D (passiveEdgeWidthOf this)
              (withLevelGrid D GetBSplineGrid UpsampleParameters this))
    as (Ht & Hi & Hl & Hs).
  rewrite Ht, Hi, Hl.
  assert (E : withLevelGrid D GetBSplineGrid UpsampleParameters this
              = snd (InitializeTransform D GetBSplineGrid this)).
  { unfold withLevelGrid. now rewrite Hlevel. }
  rewrite E in *. unfold InitializeTransform, bind, get, put in *.
  cbn [fst snd set_Registration set_Transform m_PeriodicBSplineTransform
       m_Registration SetInitialTransformParametersOfNextLevel
       InitialTransformParametersOfNextLevel LastTransformParameters] in *.
  repeat split. intros Hret. destruct (Hs Hret) as (newScales & Hset & Hlen).
  exists newScales. split; [exact Hset|]. rewrite Hlen. unfold Fill.
  now rewrite repeat_length.
Qed.

(** At a level other than 0 BeforeEachResolution installs the grid that the
    schedule computer reports for the level, and makes the parameters of
    the transform and the initial parameters of the next level the same
    array: the last transform parameters, upsampled from the grid the
    transform had to the new one. This holds when the PassiveEdgeWidth check
    throws as well. When the upsampler gives as many parameters as the new
    grid has and the function returns, the optimizer has as many scales as
    the transform has parameters. *)
Theorem BeforeEachResolution_next_level (D : nat)
  (GetBSplineGrid : GridScheduleComputerType -> Z -> GridGeometry)
  (UpsampleParameters :
     GridGeometry -> GridGeometry -> ParametersType -> ParametersType)
  (this : Component) :
  currentLevel this <> 0 ->
  let t := m_PeriodicBSplineTransform this in
  let required :=
    GetBSplineGrid (m_GridScheduleComputer this) (currentLevel this) in
  let upsampledParameters :=
    UpsampleParameters
      (mkGrid (GridRegion t) (GridSpacing t) (GridOrigin t) (GridDirection t))
      required (LastTransformParameters (m_Registration this)) in
  let this' :=
    snd (BeforeEachResolution D GetBSplineGrid UpsampleParameters this) in
  let t' := m_PeriodicBSplineTransform this' in
  t' = mkTransform (gridRegion required) (gridSpacing required)
         (gridOrigin required) (gridDirection required) upsampledParameters
  /\ InitialTransformParametersOfNextLevel (m_Registration this')
     = upsampledParameters
  /\ LastTransformParameters (m_Registration this')
     = LastTransformParameters (m_Registration this)
  /\ (length upsampledParameters = Z.to_nat (GetNumberOfParameters D t') ->
      fst (BeforeEachResolution D GetBSplineGrid UpsampleParameters this)
      = Returned tt ->
      exists newScales,
        OptimizerScales (m_Registration this') = Some newScales
        /\ length newScales = length (Parameters t')).
Proof.
  intros Hlevel. cbv zeta.
  rewrite (BeforeEachResolution_eq D GetBSplineGrid UpsampleParameters this).
  destruct (SetOptimizerScales_keeps D (passiveEdgeWidthOf this)
              (withLevelGrid D GetBSplineGrid UpsampleParameters this))
    as (Ht & Hi & Hl & Hs).
  rewrite Ht, Hi, Hl.
  assert (E : withLevelGrid D GetBSplineGrid UpsampleParameters this
              = snd (IncreaseScale GetBSplineGrid UpsampleParameters this)).
  { unfold withLevelGrid.
    destruct (Z.eqb_spec (currentLevel this) 0); [contradiction|reflexivity]. }
  rewrite E in *. unfold IncreaseScale, bind, get, put in *.
  cbn [fst snd set_Registration set_Transform m_PeriodicBSplineTransform
       m_Registration SetInitialTransformParametersOfNextLevel SetGrid
       GridRegion GridSpacing GridOrigin GridDirection Parameters
       InitialTransformParametersOfNextLevel LastTransformParameters] in *.
  repeat split. intros Hup Hret.
  destruct (Hs Hret) as (newScales & Hset & Hlen).
  exists newScales. split; [exact Hset|]. rewrite Hlen. symmetry. exact Hup.
Qed.

Lemma BeforeEachResolution_first_level_witness :
  GridRegion
    (m_PeriodicBSplineTransform
       (snd (BeforeEachResolution 2 twoLevelGrids zeroUpsampler
               (atLevel 0 []))))
  = mkRegion [0; 0] [4; 5]
  /\ InitialTransformParametersOfNextLevel
       (m_Registration
          (snd (BeforeEachResolution 2 twoLevelGrids zeroUpsampler
                  (atLevel 0 []))))
     = Fill 40 0%float
  /\ exists newScales,
       OptimizerScales
         (m_Registration
            (snd (BeforeEachResolution 2 twoLevelGrids zeroUpsampler
                    (atLevel 0 []))))
       = Some newScales
       /\ length newScales = 40%nat.
Proof.
  destruct (BeforeEachResolution_first_level 2 twoLevelGrids zeroUpsampler
              (atLevel 0 [])) as (Hr & _ & _ & _ & Hi & _ & Hs);
    [reflexivity|].
  split; [exact Hr|].
  assert (Hzeros : InitialTransformParametersOfNextLevel
                     (m_Registration
                        (snd (BeforeEachResolution 2 twoLevelGrids
                                zeroUpsampler (atLevel 0 []))))
                   = Fill 40 0%float).
  { rewrite Hi. unfold GetNumberOfParameters. rewrite Hr. reflexivity. }
  split; [exact Hzeros|].
  destruct Hs as (newScales & Hset & Hlen); [reflexivity|].
  exists newScales. split; [exact Hset|]. rewrite Hlen, Hzeros. reflexivity.
Defined.

Lemma BeforeEachResolution_next_level_witness :
  m_PeriodicBSplineTransform
    (snd (BeforeEachResolution 2 twoLevelGrids zeroUpsampler (atLevel 1 [])))
  = mkTransform (mkRegion [0; 0] [7; 5]) [1; 1]%float [0; 0]%float
      [[1; 0]; [0; 1]]%float (Fill 70 0%float)
  /\ InitialTransformParametersOfNextLevel
       (m_Registration
          (snd (BeforeEachResolution 2 twoLevelGrids zeroUpsampler
                  (atLevel 1 []))))
     = Fill 70 0%float
  /\ exists newScales,
       OptimizerScales
         (m_Registration
            (snd (BeforeEachResolution 2 twoLevelGrids zeroUpsampler
                    (atLevel 1 []))))
       = Some newScales
       /\ length newScales = 70%nat.
Proof.
  destruct (BeforeEachResolution_next_level 2 twoLevelGrids zeroUpsampler
              (atLevel 1 [])) as (Ht & Hi & _ & Hs);
    [vm_compute; discriminate|].
  split; [rewrite Ht; reflexivity|]. split; [rewrite Hi; reflexivity|].
  destruct Hs as (newScales & Hset & Hlen);
    [rewrite Ht; reflexivity | reflexivity |].
  exists newScales. split; [exact Hset|]. rewrite Hlen, Ht. reflexivity.
Defined.

(** ** ReadFromFile: entries and defaults *)

Lemma map_const_seq {X : Type} (c : X) (first n : nat) :
  map (fun _ => c) (seq first n) = repeat c n.
Proof.
  revert first. induction n as [|n IH]; intros first; simpl;
    [reflexivity|now rewrite IH].
Qed.


(** ReadFromFile reads every value of the grid from an entry of its own:
    GridSize, GridIndex, GridSpacing and GridOrigin of axis i from entry i
    of their keys, and the element of the direction matrix in row j and
    column i from entry i * SpaceDimension + j of GridDirection. A value
    whose entry the configuration lacks is the default: size 1, index 0,
    spacing 1, origin 0, and the identity matrix. The grid is set into the
    transform before the transform base reads.
    With none of the five keys in the configuration the transform gets the
    grid of one control point at index 0 with unit spacing, zero origin
    and the identity as direction. *)
Theorem ReadFromFile_entries_and_defaults (D : nat)
  (TransformBase_ReadFromFile : elx unit) (this : Component) :
  let cfg := m_Configuration this in
  ReadFromFile D TransformBase_ReadFromFile this
  = TransformBase_ReadFromFile
      (set_Transform
         (mkTransform
            (mkRegion
               (map (fun i => ReadParameter 0
                                (ReadEntryInteger cfg "GridIndex" (Z.of_nat i)))
                    (seq 0 D))
               (map (fun i => ReadParameter 1
                                (ReadEntryInteger cfg "GridSize" (Z.of_nat i)))
                    (seq 0 D)))
            (map (fun i => ReadParameter 1%float
                             (ReadEntry cfg "GridSpacing" (Z.of_nat i)))
                 (seq 0 D))
            (map (fun i => ReadParameter 0%float
                             (ReadEntry cfg "GridOrigin" (Z.of_nat i)))
                 (seq 0 D))
            (map (fun j =>
                    map (fun i =>
                           ReadParameter
                             (if Nat.eqb i j then 1%float else 0%float)
                             (ReadEntry cfg "GridDirection"
                                (CInt.to_unsigned_int
                                   (Z.of_nat i * Z.of_nat D + Z.of_nat j))))
                        (seq 0 D))
                 (seq 0 D))
            (Parameters (m_PeriodicBSplineTransform this)))
         this)
  /\ ((forall e, ReadEntryInteger cfg "GridSize" e = None) ->
      (forall e, ReadEntryInteger cfg "GridIndex" e = None) ->
      (forall e, ReadEntry cfg "GridSpacing" e = None) ->
      (forall e, ReadEntry cfg "GridOrigin" e = None) ->
      (forall e, ReadEntry cfg "GridDirection" e = None) ->
      ReadFromFile D TransformBase_ReadFromFile this
      = TransformBase_ReadFromFile
          (set_Transform
             (mkTransform (mkRegion (repeat 0 D) (repeat 1 D))
                (repeat 1%float D) (repeat 0%float D) (SetIdentity D)
                (Parameters (m_PeriodicBSplineTransform this)))
             this)).
Proof.
  cbv zeta.
  assert (E : ReadFromFile D TransformBase_ReadFromFile this
              = TransformBase_ReadFromFile
                  (set_Transform
                     (mkTransform
                        (mkRegion
                           (gridindex (ReadGrid D (m_Configuration this)))
                           (gridsize (ReadGrid D (m_Configuration this))))
                        (gridspacing (ReadGrid D (m_Configuration this)))
                        (gridorigin (ReadGrid D (m_Configuration this)))
                        (griddirection (ReadGrid D (m_Configuration this)))
                        (Parameters (m_PeriodicBSplineTransform this)))
                     this)) by reflexivity.
  split.
  - rewrite E, ReadGrid_eq. reflexivity.
  - intros Hsize Hindex Hspacing Horigin Hdirection. rewrite E, ReadGrid_eq.
    cbn [gridsize gridindex gridspacing gridorigin griddirection].
    unfold directionEntry, SetIdentity.
    f_equal. f_equal. f_equal; [f_equal| | |].
    + erewrite map_ext; [apply map_const_seq|].
      intros i. now rewrite Hindex.
    + erewrite map_ext; [apply map_const_seq|].
      intros i. now rewrite Hsize.
    + erewrite map_ext; [apply map_const_seq|].
      intros i. now rewrite Hspacing.
    + erewrite map_ext; [apply map_const_seq|].
      intros i. now rewrite Horigin.
    + apply map_ext. intros j. apply map_ext. intros i.
      now rewrite Hdirection.
Qed.

Lemma ReadFromFile_entries_and_defaults_witness :
  m_PeriodicBSplineTransform (snd (ReadFromFile 3 (ret tt) grid10))
  = mkTransform (mkRegion [0; 0; 0] [1; 1; 1]) [1; 1; 1]%float
      [0; 0; 0]%float
      [[1; 0; 0]; [0; 1; 0]; [0; 0; 1]]%float [].
Proof.
  destruct (ReadFromFile_entries_and_defaults 3 (ret tt) grid10) as [_ H].
  rewrite H; reflexivity.
Defined.

(** ** WriteToFile: after the transform base *)

(** The lines that the grid part of WriteToFile adds. *)
Lemma WriteGridToFile_run (D : nat) (show_double : Z -> float -> string)
  (this : Component) :
  (0 < D)%nat ->
  length (GetSize (GetGridRegion this)) = D ->
  length (GetIndex (GetGridRegion this)) = D ->
  length (GridSpacing (m_PeriodicBSplineTransform this)) = D ->
  length (GridOrigin (m_PeriodicBSplineTransform this)) = D ->
  WriteGridToFile D show_double this
  = (Returned tt,
     set_xout
       (xout this
        ++ [mkLine "transpar" "";
            mkLine "transpar" "// BSplineTransform specific"]
        ++ map (fun entry => mkLine "transpar"
                               (parameterLine (fst entry) (snd entry)))
               (gridTokens D show_double (m_PeriodicBSplineTransform this)))
       this).
Proof.
  intros HD Hsize Hindex Hspacing Horigin.
  unfold WriteGridToFile. rewrite bind_get. cbv zeta.
  rewrite !vectorLine_eq, directionLine_eq by assumption.
  rewrite !bind_xout_write, !set_xout_set_xout. cbn [xout set_xout].
  unfold xout_write. rewrite set_xout_set_xout. cbn [xout set_xout].
  f_equal. f_equal.
  unfold gridTokens, GetGridRegion in *. cbn [map fst snd].
  rewrite <- Hsize at 1. rewrite <- Hindex at 1.
  rewrite <- Hspacing at 1. rewrite <- Horigin at 1.
  rewrite (map_nth_seq CInt.show), (map_nth_seq CInt.show),
    (map_nth_seq (show_double 10)), (map_nth_seq (show_double 10)).
  rewrite <- !app_assoc. reflexivity.
Qed.

(** WriteToFile writes the grid after the transform base has written: when
    the WriteToFile of the base throws, the exception goes on to the caller
    and no grid line is written; when it returns, the two leading lines and
    the five grid lines follow what the base wrote, and but for xl::xout the
    component is as the base left it. *)
Theorem WriteToFile_after_base (D : nat)
  (TransformBase_WriteToFile : ParametersType -> elx unit)
  (show_double : Z -> float -> string) (param : ParametersType)
  (this : Component) :
  (forall what this1,
     TransformBase_WriteToFile param this = (Thrown what, this1) ->
     WriteToFile D TransformBase_WriteToFile show_double param this
     = (Thrown what, this1))
  /\ (forall this1,
        TransformBase_WriteToFile param this = (Returned tt, this1) ->
        (0 < D)%nat ->
        length (GetSize (GetGridRegion this1)) = D ->
        length (GetIndex (GetGridRegion this1)) = D ->
        length (GridSpacing (m_PeriodicBSplineTransform this1)) = D ->
        length (GridOrigin (m_PeriodicBSplineTransform this1)) = D ->
        WriteToFile D TransformBase_WriteToFile show_double param this
        = (Returned tt,
           set_xout
             (xout this1
              ++ [mkLine "transpar" "";
                  mkLine "transpar" "// BSplineTransform specific"]
              ++ map (fun entry => mkLine "transpar"
                                     (parameterLine (fst entry) (snd entry)))
                     (gridTokens D show_double
                        (m_PeriodicBSplineTransform this1)))
             this1)).
Proof.
  split.
  - intros what this1 Hbase. unfold WriteToFile, bind. now rewrite Hbase.
  - intros this1 Hbase HD Hsize Hindex Hspacing Horigin.
    unfold WriteToFile, bind at 1. rewrite Hbase.
    now apply WriteGridToFile_run.
Qed.

Lemma WriteToFile_after_base_witness :
  WriteToFile 2 throwingBase showSmall [] writingComponent
  = (Thrown "ERROR: cannot write the transform parameters", writingComponent)
  /\ xout (snd (WriteToFile 2 writingBase showSmall [] writingComponent))
     = [mkLine "transpar" "(NumberOfParameters 0)";
        mkLine "transpar" "";
        mkLine "transpar" "// BSplineTransform specific";
        mkLine "transpar" "(GridSize 7 5)";
        mkLine "transpar" "(GridIndex -3 0)";
        mkLine "transpar" "(GridSpacing 16 16)";
        mkLine "transpar" "(GridOrigin 0 0)";
        mkLine "transpar" "(GridDirection 1 0 0 1)"].
Proof.
  destruct (WriteToFile_after_base 2 throwingBase showSmall [] writingComponent)
    as [Hthrow _].
  destruct (WriteToFile_after_base 2 writingBase showSmall [] writingComponent)
    as [_ Hwrite].
  split.
  - apply Hthrow. reflexivity.
  - rewrite (Hwrite (snd (writingBase [] writingComponent)));
      [reflexivity | reflexivity | lia | reflexivity ..].
Defined.

(** ** The passive edge and its width *)

(** The run of SetOptimizerScales within the range of its casts, entry by
    entry: the scale of control point [ind] in block [i] is 1.0 when the
    point lies in the inset region and the sentinel otherwise. *)
Lemma edge_scales_entries_in_range (D : nat) (w : Z) (this : Component) :
  (0 < D)%nat ->
  length (GetIndex (GetGridRegion this)) = D ->
  length (GetSize (GetGridRegion this)) = D ->
  0 < w ->
  (forall d, (d < D)%nat ->
     0 < nth d (GetSize (GetGridRegion this)) 0 - 2 * w <= CInt.INT_MAX) ->
  Z.of_nat D * GetNumberOfPixels (GetSize (GetGridRegion this)) <= CInt.UINT_MAX ->
  let index := GetIndex (GetGridRegion this) in
  let size := GetSize (GetGridRegion this) in
  exists scales : ScalesType,
    SetOptimizerScales D w this = SetScales scales this
    /\ length scales = Z.to_nat (Z.of_nat D * GetNumberOfPixels size)
    /\ forall ind i,
         In ind (RegionIndices index size) -> (i < D)%nat ->
         nth_error scales
           (Z.to_nat (ComputeOffsetFrom index size ind
                      + Z.of_nat i * GetNumberOfPixels size))
         = Some (if IsInside (map (fun b => b + w) index)
                      (map (fun s => s - 2 * w) size) ind
                 then One else infScale).
Proof.
  intros HD Hidx Hsz Hw Hpos Hmax. cbv zeta.
  destruct (GetGridRegion this) as [index size] eqn:Hregion.
  cbn [GetIndex GetSize] in *.
  set (N := GetNumberOfPixels size) in *.
  set (inset := mkRegion (map (fun b => b + w) index)
                         (map (fun s => s - 2 * w) size)).
  set (ps := frozenPositions D (mkRegion index size) inset N).
  assert (Hlen : length index = length size) by congruence.
  assert (Hsize1 : Forall (fun s => 1 <= s) size).
  { apply Forall_nth. intros i d Hi. rewrite (nth_indep _ d 0) by lia.
    specialize (Hpos i ltac:(lia)). lia. }
  assert (HN : 1 <= N) by (now apply GetNumberOfPixels_pos).
  assert (Hle : forall j, (j < D)%nat -> nth j size 0 <= N).
  { intros j Hj. apply size_le_GetNumberOfPixels; [assumption|].
    apply nth_In. lia. }
  assert (HDN : N <= Z.of_nat D * N) by nia.
  assert (HUmax : Z.of_nat D * N <= CInt.UINT_MAX) by exact Hmax.
  unfold CInt.UINT_MAX in Hmax.
  assert (Hdiv : Z.of_nat D * N / Z.of_nat D = N)
    by (rewrite Z.mul_comm, Z.div_mul; lia).
  exists (fold_left (fun a p => array_set a p infScale) ps
            (Fill (Z.of_nat D * N) One)).
  split; [|split].
  - rewrite SetOptimizerScales_run.
    destruct (Z.eqb_spec w 0); [lia|].
    unfold GetNumberOfParameters.
    pose proof Hregion as Hregion'. unfold GetGridRegion in Hregion'.
    rewrite Hregion, Hregion'. cbn [GetSize]. fold N.
    rewrite to_unsigned_long_small by lia. rewrite Hdiv.
    rewrite DetermineInsetRegion_returns; cbn [GetIndex GetSize]; auto.
    + fold inset. unfold N, ps.
      now rewrite (while_loop_writes D index size inset Hlen Hsize1 HUmax).
    + specialize (Hpos O HD). specialize (Hle O HD). unfold CInt.UINT_MAX. lia.
  - unfold Fill. now rewrite length_writes, repeat_length.
  - intros ind i Hin Hi.
    pose proof (ComputeOffset_range index size ind Hlen
                  (size_nonneg size Hsize1) Hin) as Hoff.
    fold N in Hoff.
    set (p := ComputeOffsetFrom index size ind + Z.of_nat i * N).
    assert (Hp : 0 <= p < Z.of_nat D * N) by (unfold p; nia).
    rewrite (nth_error_nth' _ One)
      by (unfold Fill; rewrite length_writes, repeat_length; lia).
    rewrite nth_writes by (unfold Fill; rewrite repeat_length; lia).
    rewrite Z2Nat.id by lia. unfold Fill. rewrite nth_repeat. f_equal.
    change (map (fun b => b + w) index) with (GetIndex inset).
    change (map (fun s => s - 2 * w) size) with (GetSize inset).
    destruct (IsInside (GetIndex inset) (GetSize inset) ind) eqn:Ein.
    + destruct (existsb (fun q => q =? p) ps) eqn:Eex; [|reflexivity].
      exfalso. apply existsb_exists in Eex as (q & Hq & Eq).
      apply Z.eqb_eq in Eq. subst q.
      apply In_frozenPositions in Hq
        as (ind' & i' & Hin' & Hout' & Hi' & Ep); [|exact Hlen].
      destruct (position_unique index size Hlen Hsize1 ind ind' i i'
                  Hin Hin' Ep) as [-> _].
      congruence.
    + replace (existsb (fun q => q =? p) ps) with true; [reflexivity|].
      symmetry. apply existsb_exists. exists p. split; [|apply Z.eqb_refl].
      apply In_frozenPositions; [exact Hlen|].
      exists ind, i. auto.
Qed.

(** The same for a grid whose number of parameters fits an [int]. *)
Lemma edge_scales_entries (D : nat) (w : Z) (this : Component) :
  (0 < D)%nat ->
  length (GetIndex (GetGridRegion this)) = D ->
  length (GetSize (GetGridRegion this)) = D ->
  0 < w ->
  (forall d, (d < D)%nat -> nth d (GetSize (GetGridRegion this)) 0 - 2 * w > 0) ->
  Z.of_nat D * GetNumberOfPixels (GetSize (GetGridRegion this)) <= CInt.INT_MAX ->
  let index := GetIndex (GetGridRegion this) in
  let size := GetSize (GetGridRegion this) in
  exists scales : ScalesType,
    SetOptimizerScales D w this = SetScales scales this
    /\ length scales = Z.to_nat (Z.of_nat D * GetNumberOfPixels size)
    /\ forall ind i,
         In ind (RegionIndices index size) -> (i < D)%nat ->
         nth_error scales
           (Z.to_nat (ComputeOffsetFrom index size ind
                      + Z.of_nat i * GetNumberOfPixels size))
         = Some (if IsInside (map (fun b => b + w) index)
                      (map (fun s => s - 2 * w) size) ind
                 then One else infScale).
Proof.
  intros HD Hidx Hsz Hw Hpos Hmax.
  assert (Hsize1 : Forall (fun s => 1 <= s) (GetSize (GetGridRegion this))).
  { apply Forall_nth. intros i d Hi. rewrite (nth_indep _ d 0) by lia.
    specialize (Hpos i ltac:(lia)). lia. }
  pose proof (GetNumberOfPixels_pos _ Hsize1) as HN.
  apply edge_scales_entries_in_range; auto.
  - intros d Hd. specialize (Hpos d Hd).
    assert (nth d (GetSize (GetGridRegion this)) 0
            <= GetNumberOfPixels (GetSize (GetGridRegion this))).
    { apply size_le_GetNumberOfPixels; [assumption|]. apply nth_In. lia. }
    unfold CInt.INT_MAX in *. nia.
  - unfold CInt.INT_MAX, CInt.UINT_MAX in *. lia.
Qed.

(** Outside the inset region, axis by axis. *)
Lemma OutsideInset_iff (region : RegionType) (w : Z) (ind : IndexType) :
  length (GetIndex region) = length (GetSize region) ->
  IsInside (GetIndex region) (GetSize region) ind = true ->
  IsInside (map (fun b => b + w) (GetIndex region))
    (map (fun s => s - 2 * w) (GetSize region)) ind = false
  <-> OutsideInset region w ind.
Proof.
  intros Hlen Hind. destruct (IsInside_length _ _ _ Hind) as [Hli _].
  unfold OutsideInset.
  rewrite IsInside_false_iff by (rewrite !length_map; lia).
  rewrite length_map.
  split; intros (d & Hd & H); exists d; (split; [lia|]);
    rewrite (nth_map_in _ _ _ 0), (nth_map_in _ _ _ 0) in * by lia; lia.
Qed.

(** The scales of a passive edge within the range of the casts, by control
    point: the sentinel outside the inset region, 1.0 inside. *)
Lemma passive_edge_entries (D : nat) (w : Z) (this : Component) :
  (0 < D)%nat ->
  length (GetIndex (GetGridRegion this)) = D ->
  length (GetSize (GetGridRegion this)) = D ->
  0 < w ->
  (forall d, (d < D)%nat ->
     0 < nth d (GetSize (GetGridRegion this)) 0 - 2 * w <= CInt.INT_MAX) ->
  Z.of_nat D * GetNumberOfPixels (GetSize (GetGridRegion this)) <= CInt.UINT_MAX ->
  let region := GetGridRegion this in
  let numberOfPixels := GetNumberOfPixels (GetSize region) in
  exists scales : ScalesType,
    SetOptimizerScales D w this = SetScales scales this
    /\ length scales = Z.to_nat (Z.of_nat D * numberOfPixels)
    /\ forall ind i,
         IsInside (GetIndex region) (GetSize region) ind = true ->
         (i < D)%nat ->
         (OutsideInset region w ind ->
          nth_error scales
            (Z.to_nat (ComputeOffset region ind + Z.of_nat i * numberOfPixels))
          = Some infScale)
         /\ (~ OutsideInset region w ind ->
             nth_error scales
               (Z.to_nat (ComputeOffset region ind
                          + Z.of_nat i * numberOfPixels))
             = Some One).
Proof.
  intros HD Hidx Hsz Hw Hpos Hmax. cbv zeta.
  destruct (edge_scales_entries_in_range D w this)
    as (scales & Hrun & Hlen & Hent); auto.
  exists scales. split; [exact Hrun|]. split; [exact Hlen|].
  intros ind i Hind Hi.
  assert (Hin : In ind (RegionIndices (GetIndex (GetGridRegion this))
                          (GetSize (GetGridRegion this)))).
  { apply In_RegionIndices; [congruence|exact Hind]. }
  unfold ComputeOffset. rewrite (Hent ind i Hin Hi).
  pose proof (OutsideInset_iff (GetGridRegion this) w ind
                ltac:(congruence) Hind) as Hout.
  destruct (IsInside (map (fun b => b + w) (GetIndex (GetGridRegion this)))
              (map (fun s => s - 2 * w) (GetSize (GetGridRegion this))) ind).
  - split; [|reflexivity]. intros H. apply Hout in H. discriminate.
  - split; [reflexivity|]. intros H. exfalso. apply H. now apply Hout.
Qed.

(** C9. The sentinel is the finite constant 10000.0, not infinity.
    Whenever SetOptimizerScales sets scales into the optimizer every entry
    is 1.0 or this one sentinel, and when it throws the optimizer's scales
    are untouched. Every frozen entry receives it: for an edge width
    w > 0 within the range of the casts, the entry of a control point
    outside the inset region is 10000.0 in every spatial-dimension
    block. *)
Theorem sentinel_is_finite_10000 :
  infScale = 10000%float
  /\ PrimFloat.is_finite infScale = true
  /\ PrimFloat.is_infinity infScale = false
  /\ (forall (D : nat) (w : Z) (this : Component),
        match SetOptimizerScales D w this with
        | (Returned _, this') =>
            exists newScales,
              OptimizerScales (m_Registration this') = Some newScales
              /\ Forall (fun x => x = One \/ x = infScale) newScales
        | (Thrown _, this') =>
            OptimizerScales (m_Registration this')
            = OptimizerScales (m_Registration this)
        end)
  /\ (forall (D : nat) (w : Z) (this : Component),
        (0 < D)%nat ->
        length (GetIndex (GetGridRegion this)) = D ->
        length (GetSize (GetGridRegion this)) = D ->
        0 < w ->
        (forall d, (d < D)%nat ->
           0 < nth d (GetSize (GetGridRegion this)) 0 - 2 * w
             <= CInt.INT_MAX) ->
        Z.of_nat D * GetNumberOfPixels (GetSize (GetGridRegion this))
          <= CInt.UINT_MAX ->
        let region := GetGridRegion this in
        exists newScales,
          SetOptimizerScales D w this = SetScales newScales this
          /\ OptimizerScales
               (m_Registration (snd (SetOptimizerScales D w this)))
             = Some newScales
          /\ forall ind i,
               IsInside (GetIndex region) (GetSize region) ind = true ->
               (i < D)%nat ->
               OutsideInset region w ind ->
               nth_error newScales
                 (Z.to_nat (ComputeOffset region ind
                            + Z.of_nat i * GetNumberOfPixels (GetSize region)))
               = Some 10000%float).
Proof.
  split; [reflexivity|]. split; [reflexivity|]. split; [reflexivity|]. split.
  - intros D w this.
    pose proof (SetOptimizerScales_outcome D w this) as H.
    destruct (SetOptimizerScales D w this) as [[r|what] this'].
    + destruct H as (newScales & -> & _ & Hall). exists newScales.
      split; [reflexivity|exact Hall].
    + destruct H as (_ & _ & d & _ & ->). reflexivity.
  - intros D w this HD Hidx Hsz Hw Hpos Hmax. cbv zeta.
    destruct (passive_edge_entries D w this HD Hidx Hsz Hw Hpos Hmax)
      as (scales & Hrun & _ & Hent).
    exists scales. split; [exact Hrun|]. split; [now rewrite Hrun|].
    intros ind i Hind Hi Hout.
    destruct (Hent ind i Hind Hi) as [Hfrozen _].
    exact (Hfrozen Hout).
Qed.

Lemma sentinel_is_finite_10000_witness :
  exists newScales,
    SetOptimizerScales 3 2 grid10 = SetScales newScales grid10
    /\ nth_error newScales 0 = Some 10000%float
    /\ nth_error newScales 2999 = Some 10000%float.
Proof.
  destruct sentinel_is_finite_10000 as (_ & _ & _ & _ & H).
  destruct (H 3%nat 2 grid10) as (newScales & Hrun & _ & Hent).
  - lia.
  - reflexivity.
  - reflexivity.
  - lia.
  - intros [|[|[|d]]] Hd; simpl; unfold CInt.INT_MAX; lia.
  - vm_compute. discriminate.
  - exists newScales. split; [exact Hrun|]. split.
    + apply (Hent [0; 0; 0] 0%nat); [reflexivity | lia |].
      exists 0%nat. simpl. split; lia.
    + apply (Hent [9; 9; 9] 2%nat); [reflexivity | lia |].
      exists 0%nat. simpl. split; lia.
Defined.

Lemma Some_scale_inj (x y : float) : Some x = Some y -> x = y.
Proof.
  intros H.
  exact (f_equal (fun o => match o with Some v => v | None => x end) H).
Qed.

(** The inset region of a wider edge lies in that of a narrower one. *)
Lemma IsInside_inset_narrower (index : IndexType) (size : SizeType)
  (w w' : Z) (ind : IndexType) :
  w <= w' ->
  IsInside (map (fun b => b + w') index) (map (fun s => s - 2 * w') size) ind
  = true ->
  IsInside (map (fun b => b + w) index) (map (fun s => s - 2 * w) size) ind
  = true.
Proof.
  intros Hw. revert size ind.
  induction index as [|b index IH]; intros [|s size] [|i ind];
    cbn [map IsInside]; try discriminate; auto.
  rewrite !andb_true_iff, !Z.leb_le, !Z.ltb_lt.
  intros [[H1 H2] H3]. repeat split; try lia. now apply IH.
Qed.

(** A wider passive edge freezes every parameter that a narrower one
    froze. For two edge widths 0 < w <= w' that both leave an inset region
    on a grid within the range of the casts, SetOptimizerScales sets scales
    vectors of the same length, and every entry that is the sentinel for w
    is the sentinel for w'; every entry that stays 1.0 for w' stays 1.0
    for w. *)
Theorem passive_edge_grows_with_width (D : nat) (w w' : Z) (this : Component) :
  (0 < D)%nat ->
  length (GetIndex (GetGridRegion this)) = D ->
  length (GetSize (GetGridRegion this)) = D ->
  0 < w <= w' ->
  (forall d, (d < D)%nat -> nth d (GetSize (GetGridRegion this)) 0 - 2 * w' > 0) ->
  Z.of_nat D * GetNumberOfPixels (GetSize (GetGridRegion this)) <= CInt.INT_MAX ->
  exists scales scales' : ScalesType,
    SetOptimizerScales D w this = SetScales scales this
    /\ SetOptimizerScales D w' this = SetScales scales' this
    /\ length scales = length scales'
    /\ (forall k, nth_error scales k = Some infScale ->
                  nth_error scales' k = Some infScale)
    /\ (forall k, nth_error scales' k = Some One ->
                  nth_error scales k = Some One).
Proof.
  intros HD Hidx Hsz Hw Hpos Hmax.
  destruct (edge_scales_entries D w this) as (scales & Hrun & Hlen & Hent);
    auto; try lia.
  { intros d Hd. specialize (Hpos d Hd). lia. }
  destruct (edge_scales_entries D w' this) as (scales' & Hrun' & Hlen' & Hent');
    auto; try lia.
  exists scales, scales'. split; [exact Hrun|]. split; [exact Hrun'|].
  split; [congruence|].
  set (index := GetIndex (GetGridRegion this)) in *.
  set (size := GetSize (GetGridRegion this)) in *.
  set (N := GetNumberOfPixels size) in *.
  assert (Hsize0 : Forall (fun s => 0 <= s) size).
  { apply Forall_nth. intros i d Hi. rewrite (nth_indep _ d 0) by lia.
    specialize (Hpos i ltac:(lia)). lia. }
  assert (HN : 1 <= N).
  { apply GetNumberOfPixels_pos. apply Forall_nth. intros i d Hi.
    rewrite (nth_indep _ d 0) by lia. specialize (Hpos i ltac:(lia)). lia. }
  assert (Hpoint : forall k, (k < length scales)%nat ->
            exists ind i,
              In ind (RegionIndices index size) /\ (i < D)%nat
              /\ k = Z.to_nat (ComputeOffsetFrom index size ind
                               + Z.of_nat i * N)).
  { intros k Hk. rewrite Hlen in Hk.
    destruct (ComputeOffset_onto index size (Z.of_nat k mod N))
      as (ind & Hin & Hoff); [congruence | exact Hsize0 | |].
    { apply Z.mod_pos_bound. lia. }
    exists ind, (Z.to_nat (Z.of_nat k / N)).
    assert (0 <= Z.of_nat k / N < Z.of_nat D).
    { split; [apply Z.div_pos; lia|]. apply Z.div_lt_upper_bound; lia. }
    split; [exact Hin|]. split; [lia|].
    rewrite Hoff, Z2Nat.id by lia.
    rewrite <- (Nat2Z.id k) at 1. f_equal.
    rewrite (Z.div_mod (Z.of_nat k) N) at 1 by lia. lia. }
  assert (Hcases : forall k, (k < length scales)%nat ->
            nth_error scales k = Some infScale
            /\ nth_error scales' k = Some infScale
            \/ nth_error scales k = Some One).
  { intros k Hk. destruct (Hpoint k Hk) as (ind & i & Hin & Hi & ->).
    rewrite (Hent ind i Hin Hi), (Hent' ind i Hin Hi).
    destruct (IsInside (map (fun b => b + w) index)
                (map (fun s => s - 2 * w) size) ind) eqn:E; [now right|].
    left. split; [reflexivity|].
    destruct (IsInside (map (fun b => b + w') index)
                (map (fun s => s - 2 * w') size) ind) eqn:E'; [|reflexivity].
    apply (IsInside_inset_narrower index size w w') in E'; [|lia].
    congruence. }
  split.
  - intros k Hk.
    assert (Hlt : (k < length scales)%nat).
    { apply nth_error_Some. congruence. }
    destruct (Hcases k Hlt) as [[_ H]|H]; [exact H|].
    rewrite H in Hk. apply Some_scale_inj in Hk. exfalso.
    apply infScale_not_One. congruence.
  - intros k Hk.
    assert (Hlt : (k < length scales)%nat).
    { rewrite Hlen, <- Hlen'. apply nth_error_Some. congruence. }
    destruct (Hcases k Hlt) as [[_ H]|H]; [|exact H].
    rewrite H in Hk. apply Some_scale_inj in Hk. exfalso.
    apply infScale_not_One. congruence.
Qed.

Lemma passive_edge_grows_with_width_witness :
  exists scales scales' : ScalesType,
    SetOptimizerScales 3 1 grid10 = SetScales scales grid10
    /\ SetOptimizerScales 3 2 grid10 = SetScales scales' grid10
    /\ length scales = length scales'
    /\ (forall k, nth_error scales k = Some infScale ->
                  nth_error scales' k = Some infScale)
    /\ (forall k, nth_error scales' k = Some One ->
                  nth_error scales k = Some One).
Proof.
  apply (passive_edge_grows_with_width 3 1 2 grid10).
  - lia.
  - reflexivity.
  - reflexivity.
  - lia.
  - intros [|[|[|d]]] Hd; simpl; lia.
  - vm_compute. discriminate.
Defined.

(** The first control point of the inset region lies in the inset region
    and in the grid. *)
Lemma inset_corner_inside (index : IndexType) (size : SizeType) (w : Z) :
  length index = length size -> 0 <= w ->
  Forall (fun s => 1 <= s - 2 * w) size ->
  IsInside (map (fun b => b + w) index) (map (fun s => s - 2 * w) size)
    (map (fun b => b + w) index) = true
  /\ IsInside index size (map (fun b => b + w) index) = true.
Proof.
  intros Hlen Hw. revert size Hlen.
  induction index as [|b index IH]; intros [|s size] Hlen Hall;
    try discriminate; cbn [map IsInside]; [split; reflexivity|].
  inversion Hall as [|? ? Hs Hall']; subst.
  destruct (IH size) as [H1 H2]; [now injection Hlen | assumption |].
  rewrite H1, H2.
  split; rewrite !andb_true_iff, Z.leb_le, Z.ltb_lt; repeat split; lia.
Qed.

(** A passive edge never freezes everything. Whenever the edge width leaves
    an inset region, on a grid within the range of the casts, the scales
    that SetOptimizerScales sets keep the value 1.0 in every
    spatial-dimension block, for one: at the first control point of the
    inset region. *)
Theorem passive_edge_leaves_active_parameters (D : nat) (w : Z)
  (this : Component) :
  (0 < D)%nat ->
  length (GetIndex (GetGridRegion this)) = D ->
  length (GetSize (GetGridRegion this)) = D ->
  0 < w ->
  (forall d, (d < D)%nat -> nth d (GetSize (GetGridRegion this)) 0 - 2 * w > 0) ->
  Z.of_nat D * GetNumberOfPixels (GetSize (GetGridRegion this)) <= CInt.INT_MAX ->
  let region := GetGridRegion this in
  let numberOfPixels := GetNumberOfPixels (GetSize region) in
  let corner := map (fun b => b + w) (GetIndex region) in
  exists scales : ScalesType,
    SetOptimizerScales D w this = SetScales scales this
    /\ 0 <= ComputeOffset region corner < numberOfPixels
    /\ forall i, (i < D)%nat ->
         nth_error scales
           (Z.to_nat (ComputeOffset region corner
                      + Z.of_nat i * numberOfPixels))
         = Some One.
Proof.
  intros HD Hidx Hsz Hw Hpos Hmax. cbv zeta.
  destruct (edge_scales_entries D w this) as (scales & Hrun & _ & Hent);
    auto.
  set (index := GetIndex (GetGridRegion this)) in *.
  set (size := GetSize (GetGridRegion this)) in *.
  assert (Hall : Forall (fun s => 1 <= s - 2 * w) size).
  { apply Forall_nth. intros i d Hi. rewrite (nth_indep _ d 0) by lia.
    specialize (Hpos i ltac:(lia)). lia. }
  destruct (inset_corner_inside index size w) as [Hinset Hgrid];
    [congruence | lia | exact Hall |].
  assert (Hin : In (map (fun b => b + w) index) (RegionIndices index size)).
  { apply In_RegionIndices; [congruence|exact Hgrid]. }
  exists scales. split; [exact Hrun|].
  unfold ComputeOffset. fold index size. split.
  - apply ComputeOffset_range; [congruence | | exact Hin].
    eapply Forall_impl; [|exact Hall]. cbv beta. intros; lia.
  - intros i Hi. rewrite (Hent _ i Hin Hi). now rewrite Hinset.
Qed.

Lemma passive_edge_leaves_active_parameters_witness :
  exists scales : ScalesType,
    SetOptimizerScales 3 4 grid10 = SetScales scales grid10
    /\ 0 <= 444 < 1000
    /\ forall i, (i < 3)%nat ->
         nth_error scales (Z.to_nat (444 + Z.of_nat i * 1000)) = Some One.
Proof.
  apply (passive_edge_leaves_active_parameters 3 4 grid10).
  - lia.
  - reflexivity.
  - reflexivity.
  - lia.
  - intros [|[|[|d]]] Hd; simpl; lia.
  - vm_compute. discriminate.
Defined.

(** ** BeforeEachResolution: the scales of a level *)

(** C10 (amended). At every resolution level, level 0 included,
    BeforeEachResolution defines the grid of the level and then calls
    SetOptimizerScales with the PassiveEdgeWidth read for that level, by
    the lookup with the level as entry number and 0 as default entry
    number; when the call returns, the optimizer holds a fresh scales
    vector with one entry per parameter of the level's grid. Where the
    lookup finds nothing the width is 0, and a lookup that finds w gives
    the width w. With the width 0 the run returns whatever the grid size
    is, and every scale is 1.0. With a width w > 0 within the range of the
    casts the run returns with the scales of the passive edge of the
    level's grid: the sentinel for the control points outside the inset
    region, 1.0 for the others. *)
Theorem BeforeEachResolution_sets_scales (D : nat)
  (GetBSplineGrid : GridScheduleComputerType -> Z -> GridGeometry)
  (UpsampleParameters :
     GridGeometry -> GridGeometry -> ParametersType -> ParametersType)
  (this : Component) :
  let lookup :=
    ReadComponentEntryUInt (m_Configuration this) "PassiveEdgeWidth"
      (ComponentLabel this) (currentLevel this) 0 in
  let levelGrid := withLevelGrid D GetBSplineGrid UpsampleParameters this in
  let region :=
    gridRegion (GetBSplineGrid (m_GridScheduleComputer this)
                  (currentLevel this)) in
  let numberOfPixels := GetNumberOfPixels (GetSize region) in
  let run := BeforeEachResolution D GetBSplineGrid UpsampleParameters this in
  let w := passiveEdgeWidthOf this in
  run = SetOptimizerScales D w levelGrid
  /\ GetGridRegion levelGrid = region
  /\ (fst run = Returned tt ->
      exists newScales,
        OptimizerScales (m_Registration (snd run)) = Some newScales
        /\ length newScales
           = Z.to_nat
               (GetNumberOfParameters D (m_PeriodicBSplineTransform levelGrid)))
  /\ (lookup = None -> w = 0)
  /\ (forall found, lookup = Some found -> w = found)
  /\ (w = 0 ->
      fst run = Returned tt
      /\ OptimizerScales (m_Registration (snd run))
         = Some (Fill
                   (GetNumberOfParameters D
                      (m_PeriodicBSplineTransform levelGrid))
                   One))
  /\ (0 < w ->
      (0 < D)%nat ->
      length (GetIndex region) = D ->
      length (GetSize region) = D ->
      (forall d, (d < D)%nat ->
         0 < nth d (GetSize region) 0 - 2 * w <= CInt.INT_MAX) ->
      Z.of_nat D * numberOfPixels <= CInt.UINT_MAX ->
      fst run = Returned tt
      /\ exists newScales,
           OptimizerScales (m_Registration (snd run)) = Some newScales
           /\ length newScales = Z.to_nat (Z.of_nat D * numberOfPixels)
           /\ forall ind i,
                IsInside (GetIndex region) (GetSize region) ind = true ->
                (i < D)%nat ->
                (OutsideInset region w ind ->
                 nth_error newScales
                   (Z.to_nat (ComputeOffset region ind
                              + Z.of_nat i * numberOfPixels))
                 = Some infScale)
                /\ (~ OutsideInset region w ind ->
                    nth_error newScales
                      (Z.to_nat (ComputeOffset region ind
                                 + Z.of_nat i * numberOfPixels))
                    = Some One)).
Proof.
  cbv zeta.
  pose proof (BeforeEachResolution_eq D GetBSplineGrid UpsampleParameters this)
    as Hrun.
  destruct (withLevelGrid_frame D GetBSplineGrid UpsampleParameters this)
    as (Hregion & _).
  split; [exact Hrun|]. split; [exact Hregion|]. rewrite Hrun.
  split; [|split; [|split; [|split]]].
  - intros Hret.
    pose proof (SetOptimizerScales_outcome D (passiveEdgeWidthOf this)
                  (withLevelGrid D GetBSplineGrid UpsampleParameters this))
      as H.
    destruct (SetOptimizerScales D (passiveEdgeWidthOf this)
                (withLevelGrid D GetBSplineGrid UpsampleParameters this))
      as [[r|what] after]; [|discriminate].
    destruct H as (newScales & -> & Hlen & _).
    exists newScales. split; [reflexivity|exact Hlen].
  - intros Habsent. unfold passiveEdgeWidthOf. now rewrite Habsent.
  - intros found Hfound. unfold passiveEdgeWidthOf. now rewrite Hfound.
  - intros Hzero. rewrite Hzero, SetOptimizerScales_zero_edge_eq.
    split; reflexivity.
  - rewrite <- Hregion. intros Hw HD Hidx Hsz Hpos Hmax.
    destruct (passive_edge_entries D (passiveEdgeWidthOf this)
                (withLevelGrid D GetBSplineGrid UpsampleParameters this)
                HD Hidx Hsz Hw Hpos Hmax)
      as (scales & Hset & Hlen & Hent).
    rewrite Hset. split; [reflexivity|].
    exists scales. split; [reflexivity|]. split; [exact Hlen|exact Hent].
Qed.

Lemma BeforeEachResolution_sets_scales_witness :
  OptimizerScales
    (m_Registration
       (snd (BeforeEachResolution 2 twoLevelGrids zeroUpsampler (atLevel 0 []))))
  = Some (Fill 40 One)
  /\ OptimizerScales
       (m_Registration
          (snd (BeforeEachResolution 2 twoLevelGrids zeroUpsampler
                  (atLevel 1 []))))
     = Some (Fill 70 One)
  /\ exists newScales,
       OptimizerScales
         (m_Registration
            (snd (BeforeEachResolution 2 twoLevelGrids zeroUpsampler
                    (atLevel 1 [1; 2]))))
       = Some newScales
       /\ length newScales = 70%nat
       /\ nth_error newScales 0 = Some infScale
       /\ nth_error newScales 16 = Some One
       /\ nth_error newScales 51 = Some One.
Proof.
  destruct (BeforeEachResolution_sets_scales 2 twoLevelGrids zeroUpsampler
              (atLevel 0 [])) as (_ & _ & _ & A0 & _ & Z0 & _).
  destruct (BeforeEachResolution_sets_scales 2 twoLevelGrids zeroUpsampler
              (atLevel 1 [])) as (_ & _ & _ & A1 & _ & Z1 & _).
  destruct (BeforeEachResolution_sets_scales 2 twoLevelGrids zeroUpsampler
              (atLevel 1 [1; 2])) as (_ & _ & _ & _ & F2 & _ & P2).
  split; [|split].
  - destruct (Z0 (A0 eq_refl)) as [_ ->]. reflexivity.
  - destruct (Z1 (A1 eq_refl)) as [_ ->]. reflexivity.
  - rewrite (F2 2 eq_refl) in P2.
    destruct P2 as (_ & newScales & Hset & Hlen & Hent).
    + lia.
    + lia.
    + reflexivity.
    + reflexivity.
    + intros [|[|d]] Hd; simpl; unfold CInt.INT_MAX; lia.
    + vm_compute. discriminate.
    + exists newScales. split; [exact Hset|]. split; [exact Hlen|].
      split; [|split].
      * apply (Hent [0; 0] 0%nat); [reflexivity | lia |].
        exists 0%nat. simpl. split; lia.
      * apply (Hent [2; 2] 0%nat); [reflexivity | lia |].
        intros (d & Hd & H). simpl in Hd.
        destruct d as [|[|d]]; simpl in H; lia.
      * apply (Hent [2; 2] 1%nat); [reflexivity | lia |].
        intros (d & Hd & H). simpl in Hd.
        destruct d as [|[|d]]; simpl in H; lia.
Defined.

(** C10 as stated fails where the key has an entry 0 and none for the
    level: with the one entry (PassiveEdgeWidth 3) the key is absent for
    level 1, yet the lookup falls back on entry 0, the width is 3 and not
    0, the grid size is validated, and on the 7 x 5 grid of level 1 the
    check throws and no scales are set. *)
Lemma PassiveEdgeWidth_absent_for_level :
  currentLevel (atLevel 1 [3]) = 1
  /\ CountNumberOfParameterEntries (m_Configuration (atLevel 1 [3]))
       "PassiveEdgeWidth" = 1
  /\ ReadEntryInteger (m_Configuration (atLevel 1 [3])) "PassiveEdgeWidth" 1
     = None
  /\ passiveEdgeWidthOf (atLevel 1 [3]) = 3
  /\ passiveEdgeWidthOf (atLevel 1 [3]) <> 0
  /\ fst (BeforeEachResolution 2 twoLevelGrids zeroUpsampler (atLevel 1 [3]))
     = Thrown "ERROR: the PassiveEdgeWidth is too large!"
  /\ xout (snd (BeforeEachResolution 2 twoLevelGrids zeroUpsampler
                  (atLevel 1 [3])))
     = [mkLine "error" (PassiveEdgeWidthError 3 1 5)]
  /\ OptimizerScales
       (m_Registration
          (snd (BeforeEachResolution 2 twoLevelGrids zeroUpsampler
                  (atLevel 1 [3]))))
     = None.
Proof.
  repeat split; try reflexivity. vm_compute. discriminate.
Qed.

(** ** BeforeEachResolution: what it leaves alone *)

Lemma withLevelGrid_keeps (D : nat)
  (GetBSplineGrid : GridScheduleComputerType -> Z -> GridGeometry)
  (UpsampleParameters :
     GridGeometry -> GridGeometry -> ParametersType -> ParametersType)
  (this : Component) :
  let this1 := withLevelGrid D GetBSplineGrid UpsampleParameters this in
  m_GridScheduleComputer this1 = m_GridScheduleComputer this
  /\ FixedImage this1 = FixedImage this
  /\ NumberOfLevels (m_Registration this1)
     = NumberOfLevels (m_Registration this)
  /\ OptimizerScales (m_Registration this1)
     = OptimizerScales (m_Registration this).
Proof.
  cbv zeta. unfold withLevelGrid.
  destruct (currentLevel this =? 0); repeat split.
Qed.

(** With the grid that the schedule computer reports for the level and the
    parameters that the upsampler returns, BeforeEachResolution changes
    neither the grid schedule computer nor the configuration, nor the level
    and the number of levels of the registration: the grids that were
    precomputed are what every level finds. When it throws the exception
    of the PassiveEdgeWidth check, the width is not 0, the optimizer keeps
    the scales it had, and the one error line names the width and an axis
    of the grid of the new level with its size: the grid of the level is
    installed before the check. *)
Theorem BeforeEachResolution_frame (D : nat)
  (GetBSplineGrid : GridScheduleComputerType -> Z -> GridGeometry)
  (UpsampleParameters :
     GridGeometry -> GridGeometry -> ParametersType -> ParametersType)
  (this : Component) :
  let run := BeforeEachResolution D GetBSplineGrid UpsampleParameters this in
  m_GridScheduleComputer (snd run) = m_GridScheduleComputer this
  /\ m_Configuration (snd run) = m_Configuration this
  /\ FixedImage (snd run) = FixedImage this
  /\ CurrentLevel (m_Registration (snd run))
     = CurrentLevel (m_Registration this)
  /\ NumberOfLevels (m_Registration (snd run))
     = NumberOfLevels (m_Registration this)
  /\ (fst run = Thrown "ERROR: the PassiveEdgeWidth is too large!" ->
      passiveEdgeWidthOf this <> 0
      /\ OptimizerScales (m_Registration (snd run))
         = OptimizerScales (m_Registration this)
      /\ exists d, (d < D)%nat
           /\ xout (snd run)
              = xout this
                ++ [mkLine "error"
                      (PassiveEdgeWidthError (passiveEdgeWidthOf this) d
                         (nth d
                            (GetSize
                               (gridRegion
                                  (GetBSplineGrid
                                     (m_GridScheduleComputer this)
                                     (currentLevel this))))
                            0))]).
Proof.
  cbv zeta.
  rewrite (BeforeEachResolution_eq D GetBSplineGrid UpsampleParameters this).
  destruct (withLevelGrid_frame D GetBSplineGrid UpsampleParameters this)
    as (Hregion & Hcfg & _ & Hxout & Hlevel).
  destruct (withLevelGrid_keeps D GetBSplineGrid UpsampleParameters this)
    as (Hcomp & Himage & Hlevels & Hscales).
  pose proof (SetOptimizerScales_outcome D (passiveEdgeWidthOf this)
                (withLevelGrid D GetBSplineGrid UpsampleParameters this)) as H.
  destruct (SetOptimizerScales D (passiveEdgeWidthOf this)
              (withLevelGrid D GetBSplineGrid UpsampleParameters this))
    as [[r|what] this']; cbn [fst snd].
  - destruct H as (newScales & -> & _). cbn.
    split; [assumption|]. split; [assumption|]. split; [assumption|].
    split; [assumption|]. split; [assumption|]. discriminate.
  - destruct H as (Hw & Hwhat & d & Hd & ->). rewrite Hregion. cbn.
    split; [assumption|]. split; [assumption|]. split; [assumption|].
    split; [assumption|]. split; [assumption|]. intros _.
    split; [assumption|]. split; [assumption|].
    exists d. split; [exact Hd|]. now rewrite Hxout.
Qed.

Lemma BeforeEachResolution_frame_witness :
  passiveEdgeWidthOf (atLevel 1 [3]) <> 0
  /\ OptimizerScales
       (m_Registration
          (snd (BeforeEachResolution 2 twoLevelGrids zeroUpsampler
                  (atLevel 1 [3]))))
     = OptimizerScales (m_Registration (atLevel 1 [3]))
  /\ exists d, (d < 2)%nat
       /\ xout (snd (BeforeEachResolution 2 twoLevelGrids zeroUpsampler
                       (atLevel 1 [3])))
          = xout (atLevel 1 [3])
            ++ [mkLine "error"
                  (PassiveEdgeWidthError (passiveEdgeWidthOf (atLevel 1 [3])) d
                     (nth d
                        (GetSize
                           (gridRegion
                              (twoLevelGrids
                                 (m_GridScheduleComputer (atLevel 1 [3]))
                                 (currentLevel (atLevel 1 [3])))))
                        0))].
Proof.
  destruct (BeforeEachResolution_frame 2 twoLevelGrids zeroUpsampler
              (atLevel 1 [3])) as (_ & _ & _ & _ & _ & H).
  apply H. reflexivity.
Defined.

(** ** The grid region of a written file *)

(** The grid region comes back from a written parameter file as it was,
    however a [double] is printed and read: ReadFromFile on the lines that
    WriteToFile wrote for a transform sets the size and the index of that
    transform's grid; its spacings, origins and direction entries are what
    their printed forms of precision 10 read as, or the defaults of
    ReadFromFile where a printed form cannot be read. *)
Theorem ReadFromFile_written_region (D : nat)
  (show_double : Z -> float -> string) (parse_double : string -> option float)
  (TransformBase_ReadFromFile : elx unit) (t : BSplineTransformType)
  (this : Component) :
  (0 < D)%nat ->
  Z.of_nat D * Z.of_nat D <= CInt.UINT_MAX ->
  length (GetSize (GridRegion t)) = D ->
  length (GetIndex (GridRegion t)) = D ->
  length (GridSpacing t) = D ->
  length (GridOrigin t) = D ->
  m_Configuration this = writtenConfiguration D show_double parse_double t ->
  ReadFromFile D TransformBase_ReadFromFile this
  = TransformBase_ReadFromFile
      (set_Transform
         (mkTransform (GridRegion t)
            (map (rereadDouble show_double parse_double 1%float)
                 (GridSpacing t))
            (map (rereadDouble show_double parse_double 0%float)
                 (GridOrigin t))
            (map (fun j =>
                    map (fun i =>
                           rereadDouble show_double parse_double
                             (if Nat.eqb i j then 1%float else 0%float)
                             (nth i (nth j (GridDirection t) []) 0%float))
                        (seq 0 D))
                 (seq 0 D))
            (Parameters (m_PeriodicBSplineTransform this)))
         this).
Proof.
  intros HD Hfits Hsize Hindex Hspacing Horigin Hcfg.
  now apply ReadFromFile_of_written_grid.
Qed.

Lemma ReadFromFile_written_region_witness :
  m_PeriodicBSplineTransform (snd (ReadFromFile 2 (ret tt) readingOnes))
  = mkTransform (mkRegion [-3; 0] [7; 5]) [1; 1]%float [1; 1]%float
      [[1; 1]; [1; 1]]%float [].
Proof.
  rewrite (ReadFromFile_written_region 2 showOne parseOne (ret tt)
             writtenTransform readingOnes);
    [reflexivity | lia | vm_compute; discriminate | reflexivity ..].
Defined.
